(** * MikroTik MCP adapter: command construction and response classification

    A shallow embedding of the domain command modules
    ([src/mcp_mikrotik/scope/*.py]) and of the tool adapter dispatch tables
    ([src/mcp_mikrotik/tools/*_tools.py]), followed by the properties of the
    specification that are settled against them.

    Conventions of the embedding.
    - A Python [str] is a [string].  Characters outside ASCII are carried as
      the bytes of their UTF-8 encoding; [lower] touches the ASCII capitals
      only.  Unicode lower-casing sends no character outside ASCII to one of
      the letters of the two needles of the classification test except
      U+0130, whose image is [i] followed by a combining mark, so the
      substring tests agree with Python's on every input.
    - A parameter annotated [Optional[T]] is an [option T], [None] being
      Python's [None].
    - A domain function is a computation in [Conn]: it submits commands to
      the device through [execute_mikrotik_command] and returns a string.
      The connector module itself is not among the sources; the device is a
      parameter of every run: a function from the commands submitted so far
      and the command at hand to the raw response.
    - Logging ([app_logger.info]) has no influence on commands or results
      and is left out. *)

From Stdlib Require Import ZArith Bool List Ascii String DecimalString Lia.
From stdpp Require Import base strings gmap.
Import ListNotations.
Local Open Scope string_scope.

(** ** Python primitives *)

Module Py.

(** The double quote and the line feed, which a string literal cannot hold. *)
Definition dq : string := String "034"%char EmptyString.
Definition nl : string := String "010"%char EmptyString.
(** The backslash. *)
Definition bs : string := String "092"%char EmptyString.

(** [str.lower()] *)
Definition lower_char (c : ascii) : ascii :=
  let n := nat_of_ascii c in
  if (65 <=? n)%nat && (n <=? 90)%nat then ascii_of_nat (n + 32) else c.

Fixpoint lower (s : string) : string :=
  match s with
  | EmptyString => EmptyString
  | String c rest => String (lower_char c) (lower rest)
  end.

(** [needle in hay] on strings *)
Fixpoint py_in (needle hay : string) : bool :=
  String.prefix needle hay
  || match hay with
     | EmptyString => false
     | String _ rest => py_in needle rest
     end.

(** [s.replace(old, new)]: occurrences of [old] are replaced from left to
    right without overlap; [skip] counts the characters of a match that are
    still to be dropped.  With an empty [old] Python puts [new] before every
    character and at the end. *)
Fixpoint replace_from (old new : string) (skip : nat) (s : string) : string :=
  match s with
  | EmptyString => EmptyString
  | String c rest =>
      match skip with
      | S k => replace_from old new k rest
      | O =>
          if String.prefix old s
          then new ++ replace_from old new (String.length old - 1) rest
          else String c (replace_from old new 0 rest)
      end
  end.

Fixpoint intersperse_chars (new s : string) : string :=
  match s with
  | EmptyString => new
  | String c rest => new ++ String c (intersperse_chars new rest)
  end.

Definition replace (old new s : string) : string :=
  match old with
  | EmptyString => intersperse_chars new s
  | String _ _ => replace_from old new 0 s
  end.

(** Truth value of an object in a condition ([if x:]). *)
Class Truthy (A : Type) := truthy : A -> bool.
Global Hint Mode Truthy ! : typeclass_instances.

Global Instance bool_truthy : Truthy bool := fun b => b.
Global Instance int_truthy : Truthy Z := fun z => negb (z =? 0)%Z.
Global Instance str_truthy : Truthy string :=
  fun s => match s with EmptyString => false | String _ _ => true end.
Global Instance list_truthy {A} : Truthy (list A) :=
  fun l => match l with [] => false | _ :: _ => true end.
Global Instance optional_truthy {A} `{Truthy A} : Truthy (option A) :=
  fun o => match o with None => false | Some x => truthy x end.

(** [x is not None] *)
Definition is_not_None {A} (o : option A) : bool :=
  match o with None => false | Some _ => true end.

(** The text a replacement field [{x}] of an f-string produces. *)
Class Format (A : Type) := fmt : A -> string.
Global Hint Mode Format ! : typeclass_instances.

Global Instance str_format : Format string := fun s => s.
Global Instance int_format : Format Z :=
  fun z => NilZero.string_of_int (Z.to_int z).
Global Instance optional_format {A} `{Format A} : Format (option A) :=
  fun o => match o with None => "None" | Some x => fmt x end.

(** [sep.join(xs)]; the one call site is guarded by the truth value of its
    argument, so the list is there. *)
Definition join (sep : string) (xs : option (list string)) : string :=
  String.concat sep (default [] xs).

End Py.
Export Py.

(** ** The connector *)

(** The device: its raw response to a command, given the commands already
    submitted. *)
Definition device : Type := list string -> string -> string.

(** Computations that talk to the device.  The list is the journal of the
    commands submitted, oldest first. *)
Definition Conn (A : Type) : Type := device -> list string -> A * list string.

Definition ret {A} (a : A) : Conn A := fun _ log => (a, log).

Definition bind {A B} (m : Conn A) (k : A -> Conn B) : Conn B :=
  fun dev log => let (a, log') := m dev log in k a dev log'.

Notation "'do' x <- m ;; k" := (bind m (fun x => k))
  (at level 10, x name, m at level 99, k at level 200).

(** [connector.execute_mikrotik_command]: one command in, the raw text out. *)
Definition execute_mikrotik_command (cmd : string) : Conn string :=
  fun dev log => (dev log cmd, (log ++ [cmd])%list).

(** What a computation returns and what it submits, from a given journal. *)
Definition returned {A} (m : Conn A) (dev : device) (log : list string) : A :=
  fst (m dev log).
Definition journal {A} (m : Conn A) (dev : device) (log : list string)
  : list string := snd (m dev log).


(** * The domain command modules *)

(** ** scope/bridge.py: Bridge interface management *)

Module bridge.

(** Creates a bridge interface on MikroTik device. *)
Definition mikrotik_create_bridge
    (name : string) (mtu : option Z) (arp : option string) (arp_timeout : option string)
    (ageing_time : option string) (priority : option Z) (protocol_mode : option string)
    (vlan_filtering : option bool) (comment : option string) (disabled : option bool)
  : Conn string :=
  let cmd := "/interface bridge add name=" ++ dq ++ name ++ dq in
  let cmd := if truthy mtu then cmd ++ " mtu=" ++ fmt mtu else cmd in
  let cmd := if truthy arp then cmd ++ " arp=" ++ fmt arp else cmd in
  let cmd := if truthy arp_timeout then cmd ++ " arp-timeout=" ++ fmt arp_timeout else cmd in
  let cmd := if truthy ageing_time then cmd ++ " ageing-time=" ++ fmt ageing_time else cmd in
  let cmd := if is_not_None priority then cmd ++ " priority=" ++ fmt priority else cmd in
  let cmd := if truthy protocol_mode then cmd ++ " protocol-mode=" ++ fmt protocol_mode
    else cmd in
  let cmd := if is_not_None vlan_filtering then cmd ++ " vlan-filtering=" ++
      (if truthy vlan_filtering then "yes" else "no")
    else cmd in
  let cmd := if truthy comment then cmd ++ " comment=" ++ dq ++ fmt comment ++ dq else cmd in
  let cmd := if is_not_None disabled then cmd ++ " disabled=" ++
      (if truthy disabled then "yes" else "no")
    else cmd in
  do result <- execute_mikrotik_command cmd ;;
  if py_in "failure:" (lower result) || py_in "error" (lower result)
  then ret ("Failed to create bridge: " ++ result)
  else ret ("Bridge '" ++ name ++ "' created successfully").

(** Lists bridge interfaces on MikroTik device. *)
Definition mikrotik_list_bridges
    (name_filter : option string) (disabled_only : option bool)
  : Conn string :=
  let cmd := "/interface bridge print" in
  let cmd := if truthy name_filter then cmd ++ " where name~" ++ dq ++ fmt name_filter ++ dq
    else if truthy disabled_only then cmd ++ " where disabled=yes"
    else cmd in
  do result <- execute_mikrotik_command cmd ;;
  if py_in "failure:" (lower result) || py_in "error" (lower result)
  then ret ("Failed to list bridges: " ++ result)
  else ret ("Bridge Interfaces:" ++ nl ++ nl ++ result).

(** Removes a bridge interface from MikroTik device. *)
Definition mikrotik_remove_bridge (name : string) : Conn string :=
  let cmd := "/interface bridge remove [find name=" ++ dq ++ name ++ dq ++ "]" in
  do result <- execute_mikrotik_command cmd ;;
  if py_in "failure:" (lower result) || py_in "error" (lower result)
  then ret ("Failed to remove bridge: " ++ result)
  else ret ("Bridge '" ++ name ++ "' removed successfully").

(** Adds an interface to a bridge. *)
Definition mikrotik_add_bridge_port
    (bridge : string) (interface : string) (pvid : option Z) (priority : option Z)
    (path_cost : option Z) (edge : option bool) (point_to_point : option string)
    (horizon : option Z) (comment : option string) (disabled : option bool)
  : Conn string :=
  let cmd := "/interface bridge port add bridge=" ++ dq ++ bridge ++ dq ++ " interface=" ++
    dq ++ interface ++ dq in
  let cmd := if is_not_None pvid then cmd ++ " pvid=" ++ fmt pvid else cmd in
  let cmd := if is_not_None priority then cmd ++ " priority=" ++ fmt priority else cmd in
  let cmd := if is_not_None path_cost then cmd ++ " path-cost=" ++ fmt path_cost else cmd in
  let cmd := if is_not_None edge then cmd ++ " edge=" ++ (if truthy edge then "yes" else "no")
    else cmd in
  let cmd := if truthy point_to_point then cmd ++ " point-to-point=" ++ fmt point_to_point
    else cmd in
  let cmd := if is_not_None horizon then cmd ++ " horizon=" ++ fmt horizon else cmd in
  let cmd := if truthy comment then cmd ++ " comment=" ++ dq ++ fmt comment ++ dq else cmd in
  let cmd := if is_not_None disabled then cmd ++ " disabled=" ++
      (if truthy disabled then "yes" else "no")
    else cmd in
  do result <- execute_mikrotik_command cmd ;;
  if py_in "failure:" (lower result) || py_in "error" (lower result)
  then ret ("Failed to add bridge port: " ++ result)
  else ret ("Interface '" ++ interface ++ "' added to bridge '" ++ bridge ++ "' successfully").

(** Lists bridge ports. *)
Definition mikrotik_list_bridge_ports
    (bridge_filter : option string) (interface_filter : option string)
  : Conn string :=
  let cmd := "/interface bridge port print" in
  let cmd := if truthy bridge_filter then cmd ++ " where bridge~" ++ dq ++ fmt bridge_filter ++
      dq
    else if truthy interface_filter then cmd ++ " where interface~" ++ dq ++
      fmt interface_filter ++ dq
    else cmd in
  do result <- execute_mikrotik_command cmd ;;
  if py_in "failure:" (lower result) || py_in "error" (lower result)
  then ret ("Failed to list bridge ports: " ++ result)
  else ret ("Bridge Ports:" ++ nl ++ nl ++ result).

(** Removes an interface from a bridge. *)
Definition mikrotik_remove_bridge_port (interface : string) : Conn string :=
  let cmd := "/interface bridge port remove [find interface=" ++ dq ++ interface ++ dq ++ "]" in
  do result <- execute_mikrotik_command cmd ;;
  if py_in "failure:" (lower result) || py_in "error" (lower result)
  then ret ("Failed to remove bridge port: " ++ result)
  else ret ("Interface '" ++ interface ++ "' removed from bridge successfully").

(** Adds VLAN configuration to a bridge. *)
Definition mikrotik_add_bridge_vlan
    (bridge : string) (vlan_ids : string) (tagged : option string)
    (untagged : option string) (comment : option string) (disabled : option bool)
  : Conn string :=
  let cmd := "/interface bridge vlan add bridge=" ++ dq ++ bridge ++ dq ++ " vlan-ids=" ++
    vlan_ids in
  let cmd := if truthy tagged then cmd ++ " tagged=" ++ dq ++ fmt tagged ++ dq else cmd in
  let cmd := if truthy untagged then cmd ++ " untagged=" ++ dq ++ fmt untagged ++ dq else cmd in
  let cmd := if truthy comment then cmd ++ " comment=" ++ dq ++ fmt comment ++ dq else cmd in
  let cmd := if is_not_None disabled then cmd ++ " disabled=" ++
      (if truthy disabled then "yes" else "no")
    else cmd in
  do result <- execute_mikrotik_command cmd ;;
  if py_in "failure:" (lower result) || py_in "error" (lower result)
  then ret ("Failed to add bridge VLAN: " ++ result)
  else ret ("Bridge VLAN " ++ vlan_ids ++ " added successfully").

(** Lists bridge VLAN configurations. *)
Definition mikrotik_list_bridge_vlans (bridge_filter : option string) : Conn string :=
  let cmd := "/interface bridge vlan print" in
  let cmd := if truthy bridge_filter then cmd ++ " where bridge~" ++ dq ++ fmt bridge_filter ++
      dq
    else cmd in
  do result <- execute_mikrotik_command cmd ;;
  if py_in "failure:" (lower result) || py_in "error" (lower result)
  then ret ("Failed to list bridge VLANs: " ++ result)
  else ret ("Bridge VLANs:" ++ nl ++ nl ++ result).

(** Lists MAC addresses learned by bridges. *)
Definition mikrotik_get_bridge_host (bridge_filter : option string) : Conn string :=
  let cmd := "/interface bridge host print" in
  let cmd := if truthy bridge_filter then cmd ++ " where bridge~" ++ dq ++ fmt bridge_filter ++
      dq
    else cmd in
  do result <- execute_mikrotik_command cmd ;;
  if py_in "failure:" (lower result) || py_in "error" (lower result)
  then ret ("Failed to list bridge hosts: " ++ result)
  else ret ("Bridge Hosts (MAC Table):" ++ nl ++ nl ++ result).

End bridge.

(** ** scope/certificate.py: Certificate management *)

Module certificate.

(** Lists certificates. *)
Definition mikrotik_list_certificates : Conn string :=
  let cmd := "/certificate print" in
  do result <- execute_mikrotik_command cmd ;;
  if py_in "failure:" (lower result) || py_in "error" (lower result)
  then ret ("Failed to list certificates: " ++ result)
  else ret ("Certificates:" ++ nl ++ nl ++ result).

(** Creates a certificate. *)
Definition mikrotik_create_certificate
    (name : string) (common_name : string) (key_size : option Z) (days_valid : option Z)
    (key_usage : option string) (subject_alt_name : option string) (country : option string)
    (state : option string) (locality : option string) (organization : option string)
    (unit : option string)
  : Conn string :=
  let cmd := "/certificate add name=" ++ dq ++ name ++ dq ++ " common-name=" ++ dq ++
    common_name ++ dq in
  let cmd := if truthy key_size then cmd ++ " key-size=" ++ fmt key_size else cmd in
  let cmd := if truthy days_valid then cmd ++ " days-valid=" ++ fmt days_valid else cmd in
  let cmd := if truthy key_usage then cmd ++ " key-usage=" ++ dq ++ fmt key_usage ++ dq
    else cmd in
  let cmd := if truthy subject_alt_name then cmd ++ " subject-alt-name=" ++ dq ++
      fmt subject_alt_name ++ dq
    else cmd in
  let cmd := if truthy country then cmd ++ " country=" ++ dq ++ fmt country ++ dq else cmd in
  let cmd := if truthy state then cmd ++ " state=" ++ dq ++ fmt state ++ dq else cmd in
  let cmd := if truthy locality then cmd ++ " locality=" ++ dq ++ fmt locality ++ dq else cmd in
  let cmd := if truthy organization then cmd ++ " organization=" ++ dq ++ fmt organization ++ dq
    else cmd in
  let cmd := if truthy unit then cmd ++ " unit=" ++ dq ++ fmt unit ++ dq else cmd in
  do result <- execute_mikrotik_command cmd ;;
  if py_in "failure:" (lower result) || py_in "error" (lower result)
  then ret ("Failed to create certificate: " ++ result)
  else ret ("Certificate '" ++ name ++ "' created successfully").

(** Signs a certificate. *)
Definition mikrotik_sign_certificate (name : string) (ca : option string) : Conn string :=
  let cmd := if truthy ca then "/certificate sign [find name=" ++ dq ++ name ++ dq ++
      "] ca=" ++ dq ++ fmt ca ++ dq
    else "/certificate sign [find name=" ++ dq ++ name ++ dq ++ "]" in
  do result <- execute_mikrotik_command cmd ;;
  if py_in "failure:" (lower result) || py_in "error" (lower result)
  then ret ("Failed to sign certificate: " ++ result)
  else ret ("Certificate '" ++ name ++ "' signed successfully").

(** Imports a certificate from file. *)
Definition mikrotik_import_certificate
    (file_name : string) (passphrase : option string) (name : option string)
  : Conn string :=
  let cmd := "/certificate import file-name=" ++ dq ++ file_name ++ dq in
  let cmd := if truthy passphrase then cmd ++ " passphrase=" ++ dq ++ fmt passphrase ++ dq
    else cmd in
  let cmd := if truthy name then cmd ++ " name=" ++ dq ++ fmt name ++ dq else cmd in
  do result <- execute_mikrotik_command cmd ;;
  if py_in "failure:" (lower result) || py_in "error" (lower result)
  then ret ("Failed to import certificate: " ++ result)
  else ret ("Certificate imported from '" ++ file_name ++ "' successfully").

(** Exports a certificate to file. *)
Definition mikrotik_export_certificate
    (name : string) (file_name : option string) (export_passphrase : option string)
    (type : option string)
  : Conn string :=
  let cmd := "/certificate export [find name=" ++ dq ++ name ++ dq ++ "]" in
  let cmd := if truthy file_name then cmd ++ " file-name=" ++ dq ++ fmt file_name ++ dq
    else cmd in
  let cmd := if truthy export_passphrase then cmd ++ " export-passphrase=" ++ dq ++
      fmt export_passphrase ++ dq
    else cmd in
  let cmd := if truthy type then cmd ++ " type=" ++ fmt type else cmd in
  do result <- execute_mikrotik_command cmd ;;
  if py_in "failure:" (lower result) || py_in "error" (lower result)
  then ret ("Failed to export certificate: " ++ result)
  else ret ("Certificate '" ++ name ++ "' exported successfully").

(** Removes a certificate. *)
Definition mikrotik_remove_certificate (name : string) : Conn string :=
  let cmd := "/certificate remove [find name=" ++ dq ++ name ++ dq ++ "]" in
  do result <- execute_mikrotik_command cmd ;;
  if py_in "failure:" (lower result) || py_in "error" (lower result)
  then ret ("Failed to remove certificate: " ++ result)
  else ret ("Certificate '" ++ name ++ "' removed successfully").

(** Enables SSL certificate for a service. *)
Definition mikrotik_enable_ssl_certificate
    (service : string) (certificate : string)
  : Conn string :=
  let cmd := "/certificate enable-ssl-certificate [find name=" ++ dq ++ certificate ++ dq ++
    "] service=" ++ service in
  do result <- execute_mikrotik_command cmd ;;
  if py_in "failure:" (lower result) || py_in "error" (lower result)
  then ret ("Failed to enable SSL certificate: " ++ result)
  else ret ("SSL certificate '" ++ certificate ++ "' enabled for service '" ++ service ++
      "' successfully").

End certificate.

(** ** scope/hotspot.py: Hotspot (captive portal) management *)

Module hotspot.

(** Creates a hotspot server. *)
Definition mikrotik_create_hotspot_server
    (name : string) (interface : string) (address_pool : string) (profile : option string)
    (disabled : option bool)
  : Conn string :=
  let cmd := "/ip hotspot add name=" ++ dq ++ name ++ dq ++ " interface=" ++ dq ++ interface ++
    dq ++ " address-pool=" ++ dq ++ address_pool ++ dq in
  let cmd := if truthy profile then cmd ++ " profile=" ++ dq ++ fmt profile ++ dq else cmd in
  let cmd := if is_not_None disabled then cmd ++ " disabled=" ++
      (if truthy disabled then "yes" else "no")
    else cmd in
  do result <- execute_mikrotik_command cmd ;;
  if py_in "failure:" (lower result) || py_in "error" (lower result)
  then ret ("Failed to create hotspot server: " ++ result)
  else ret ("Hotspot server '" ++ name ++ "' created successfully").

(** Lists hotspot servers. *)
Definition mikrotik_list_hotspot_servers : Conn string :=
  let cmd := "/ip hotspot print" in
  do result <- execute_mikrotik_command cmd ;;
  if py_in "failure:" (lower result) || py_in "error" (lower result)
  then ret ("Failed to list hotspot servers: " ++ result)
  else ret ("Hotspot Servers:" ++ nl ++ nl ++ result).

(** Lists hotspot users. *)
Definition mikrotik_list_hotspot_users : Conn string :=
  let cmd := "/ip hotspot user print" in
  do result <- execute_mikrotik_command cmd ;;
  if py_in "failure:" (lower result) || py_in "error" (lower result)
  then ret ("Failed to list hotspot users: " ++ result)
  else ret ("Hotspot Users:" ++ nl ++ nl ++ result).

(** Adds a hotspot user. *)
Definition mikrotik_add_hotspot_user
    (name : string) (password : string) (profile : option string)
    (limit_uptime : option string) (limit_bytes_total : option string)
    (comment : option string) (disabled : option bool)
  : Conn string :=
  let cmd := "/ip hotspot user add name=" ++ dq ++ name ++ dq ++ " password=" ++ dq ++
    password ++ dq in
  let cmd := if truthy profile then cmd ++ " profile=" ++ dq ++ fmt profile ++ dq else cmd in
  let cmd := if truthy limit_uptime then cmd ++ " limit-uptime=" ++ fmt limit_uptime else cmd in
  let cmd := if truthy limit_bytes_total then cmd ++ " limit-bytes-total=" ++
      fmt limit_bytes_total
    else cmd in
  let cmd := if truthy comment then cmd ++ " comment=" ++ dq ++ fmt comment ++ dq else cmd in
  let cmd := if is_not_None disabled then cmd ++ " disabled=" ++
      (if truthy disabled then "yes" else "no")
    else cmd in
  do result <- execute_mikrotik_command cmd ;;
  if py_in "failure:" (lower result) || py_in "error" (lower result)
  then ret ("Failed to add hotspot user: " ++ result)
  else ret ("Hotspot user '" ++ name ++ "' added successfully").

(** Removes a hotspot user. *)
Definition mikrotik_remove_hotspot_user (name : string) : Conn string :=
  let cmd := "/ip hotspot user remove [find name=" ++ dq ++ name ++ dq ++ "]" in
  do result <- execute_mikrotik_command cmd ;;
  if py_in "failure:" (lower result) || py_in "error" (lower result)
  then ret ("Failed to remove hotspot user: " ++ result)
  else ret ("Hotspot user '" ++ name ++ "' removed successfully").

(** Lists active hotspot sessions. *)
Definition mikrotik_list_hotspot_active : Conn string :=
  let cmd := "/ip hotspot active print" in
  do result <- execute_mikrotik_command cmd ;;
  if py_in "failure:" (lower result) || py_in "error" (lower result)
  then ret ("Failed to list active sessions: " ++ result)
  else ret ("Active Hotspot Sessions:" ++ nl ++ nl ++ result).

(** Removes an active hotspot session. *)
Definition mikrotik_remove_hotspot_active (user : string) : Conn string :=
  let cmd := "/ip hotspot active remove [find user=" ++ dq ++ user ++ dq ++ "]" in
  do result <- execute_mikrotik_command cmd ;;
  if py_in "failure:" (lower result) || py_in "error" (lower result)
  then ret ("Failed to remove active session: " ++ result)
  else ret ("Active session for user '" ++ user ++ "' removed successfully").

End hotspot.

(** ** scope/ipsec.py: IPsec VPN management *)

Module ipsec.

(** Creates an IPsec peer. *)
Definition mikrotik_create_ipsec_peer
    (name : string) (address : string) (auth_method : option string)
    (secret : option string) (exchange_mode : option string)
    (send_initial_contact : option bool) (comment : option string) (disabled : option bool)
  : Conn string :=
  let cmd := "/ip ipsec peer add name=" ++ dq ++ name ++ dq ++ " address=" ++ dq ++ address ++
    dq in
  let cmd := if truthy auth_method then cmd ++ " auth-method=" ++ fmt auth_method else cmd in
  let cmd := if truthy secret then cmd ++ " secret=" ++ dq ++ fmt secret ++ dq else cmd in
  let cmd := if truthy exchange_mode then cmd ++ " exchange-mode=" ++ fmt exchange_mode
    else cmd in
  let cmd := if is_not_None send_initial_contact then cmd ++ " send-initial-contact=" ++
      (if truthy send_initial_contact then "yes" else "no")
    else cmd in
  let cmd := if truthy comment then cmd ++ " comment=" ++ dq ++ fmt comment ++ dq else cmd in
  let cmd := if is_not_None disabled then cmd ++ " disabled=" ++
      (if truthy disabled then "yes" else "no")
    else cmd in
  do result <- execute_mikrotik_command cmd ;;
  if py_in "failure:" (lower result) || py_in "error" (lower result)
  then ret ("Failed to create IPsec peer: " ++ result)
  else ret ("IPsec peer '" ++ name ++ "' created successfully").

(** Lists IPsec peers. *)
Definition mikrotik_list_ipsec_peers : Conn string :=
  let cmd := "/ip ipsec peer print" in
  do result <- execute_mikrotik_command cmd ;;
  if py_in "failure:" (lower result) || py_in "error" (lower result)
  then ret ("Failed to list IPsec peers: " ++ result)
  else ret ("IPsec Peers:" ++ nl ++ nl ++ result).

(** Removes an IPsec peer. *)
Definition mikrotik_remove_ipsec_peer (name : string) : Conn string :=
  let cmd := "/ip ipsec peer remove [find name=" ++ dq ++ name ++ dq ++ "]" in
  do result <- execute_mikrotik_command cmd ;;
  if py_in "failure:" (lower result) || py_in "error" (lower result)
  then ret ("Failed to remove IPsec peer: " ++ result)
  else ret ("IPsec peer '" ++ name ++ "' removed successfully").

(** Creates an IPsec proposal. *)
Definition mikrotik_create_ipsec_proposal
    (name : string) (auth_algorithms : option string) (enc_algorithms : option string)
    (lifetime : option string) (pfs_group : option string) (comment : option string)
    (disabled : option bool)
  : Conn string :=
  let cmd := "/ip ipsec proposal add name=" ++ dq ++ name ++ dq in
  let cmd := if truthy auth_algorithms then cmd ++ " auth-algorithms=" ++ fmt auth_algorithms
    else cmd in
  let cmd := if truthy enc_algorithms then cmd ++ " enc-algorithms=" ++ fmt enc_algorithms
    else cmd in
  let cmd := if truthy lifetime then cmd ++ " lifetime=" ++ fmt lifetime else cmd in
  let cmd := if truthy pfs_group then cmd ++ " pfs-group=" ++ fmt pfs_group else cmd in
  let cmd := if truthy comment then cmd ++ " comment=" ++ dq ++ fmt comment ++ dq else cmd in
  let cmd := if is_not_None disabled then cmd ++ " disabled=" ++
      (if truthy disabled then "yes" else "no")
    else cmd in
  do result <- execute_mikrotik_command cmd ;;
  if py_in "failure:" (lower result) || py_in "error" (lower result)
  then ret ("Failed to create IPsec proposal: " ++ result)
  else ret ("IPsec proposal '" ++ name ++ "' created successfully").

(** Lists IPsec proposals. *)
Definition mikrotik_list_ipsec_proposals : Conn string :=
  let cmd := "/ip ipsec proposal print" in
  do result <- execute_mikrotik_command cmd ;;
  if py_in "failure:" (lower result) || py_in "error" (lower result)
  then ret ("Failed to list IPsec proposals: " ++ result)
  else ret ("IPsec Proposals:" ++ nl ++ nl ++ result).

(** Lists installed IPsec Security Associations. *)
Definition mikrotik_list_ipsec_installed_sa : Conn string :=
  let cmd := "/ip ipsec installed-sa print" in
  do result <- execute_mikrotik_command cmd ;;
  if py_in "failure:" (lower result) || py_in "error" (lower result)
  then ret ("Failed to list IPsec installed SAs: " ++ result)
  else ret ("IPsec Installed SAs:" ++ nl ++ nl ++ result).

(** Creates an IPsec policy. *)
Definition mikrotik_create_ipsec_policy
    (src_address : string) (dst_address : string) (action : option string)
    (proposal : option string) (tunnel : option bool) (comment : option string)
    (disabled : option bool)
  : Conn string :=
  let cmd := "/ip ipsec policy add src-address=" ++ dq ++ src_address ++ dq ++
    " dst-address=" ++ dq ++ dst_address ++ dq in
  let cmd := if truthy action then cmd ++ " action=" ++ fmt action else cmd in
  let cmd := if truthy proposal then cmd ++ " proposal=" ++ dq ++ fmt proposal ++ dq else cmd in
  let cmd := if is_not_None tunnel then cmd ++ " tunnel=" ++
      (if truthy tunnel then "yes" else "no")
    else cmd in
  let cmd := if truthy comment then cmd ++ " comment=" ++ dq ++ fmt comment ++ dq else cmd in
  let cmd := if is_not_None disabled then cmd ++ " disabled=" ++
      (if truthy disabled then "yes" else "no")
    else cmd in
  do result <- execute_mikrotik_command cmd ;;
  if py_in "failure:" (lower result) || py_in "error" (lower result)
  then ret ("Failed to create IPsec policy: " ++ result)
  else ret ("IPsec policy created successfully").

(** Lists IPsec policies. *)
Definition mikrotik_list_ipsec_policies : Conn string :=
  let cmd := "/ip ipsec policy print" in
  do result <- execute_mikrotik_command cmd ;;
  if py_in "failure:" (lower result) || py_in "error" (lower result)
  then ret ("Failed to list IPsec policies: " ++ result)
  else ret ("IPsec Policies:" ++ nl ++ nl ++ result).

End ipsec.

(** ** scope/ipv6.py: IPv6 management *)

Module ipv6.

(** Adds an IPv6 address to an interface. *)
Definition mikrotik_add_ipv6_address
    (address : string) (interface : string) (advertise : option bool) (eui_64 : option bool)
    (no_dad : option bool) (comment : option string) (disabled : option bool)
  : Conn string :=
  let cmd := "/ipv6 address add address=" ++ dq ++ address ++ dq ++ " interface=" ++ dq ++
    interface ++ dq in
  let cmd := if is_not_None advertise then cmd ++ " advertise=" ++
      (if truthy advertise then "yes" else "no")
    else cmd in
  let cmd := if is_not_None eui_64 then cmd ++ " eui-64=" ++
      (if truthy eui_64 then "yes" else "no")
    else cmd in
  let cmd := if is_not_None no_dad then cmd ++ " no-dad=" ++
      (if truthy no_dad then "yes" else "no")
    else cmd in
  let cmd := if truthy comment then cmd ++ " comment=" ++ dq ++ fmt comment ++ dq else cmd in
  let cmd := if is_not_None disabled then cmd ++ " disabled=" ++
      (if truthy disabled then "yes" else "no")
    else cmd in
  do result <- execute_mikrotik_command cmd ;;
  if py_in "failure:" (lower result) || py_in "error" (lower result)
  then ret ("Failed to add IPv6 address: " ++ result)
  else ret ("IPv6 address " ++ address ++ " added to " ++ interface ++ " successfully").

(** Lists IPv6 addresses. *)
Definition mikrotik_list_ipv6_addresses
    (interface_filter : option string) (disabled_only : option bool)
  : Conn string :=
  let cmd := "/ipv6 address print" in
  let cmd := if truthy interface_filter then cmd ++ " where interface~" ++ dq ++
      fmt interface_filter ++ dq
    else if truthy disabled_only then cmd ++ " where disabled=yes"
    else cmd in
  do result <- execute_mikrotik_command cmd ;;
  if py_in "failure:" (lower result) || py_in "error" (lower result)
  then ret ("Failed to list IPv6 addresses: " ++ result)
  else ret ("IPv6 Addresses:" ++ nl ++ nl ++ result).

(** Removes an IPv6 address. *)
Definition mikrotik_remove_ipv6_address (address_id : string) : Conn string :=
  let cmd := "/ipv6 address remove " ++ address_id in
  do result <- execute_mikrotik_command cmd ;;
  if py_in "failure:" (lower result) || py_in "error" (lower result)
  then ret ("Failed to remove IPv6 address: " ++ result)
  else ret ("IPv6 address " ++ address_id ++ " removed successfully").

(** Adds an IPv6 route. *)
Definition mikrotik_add_ipv6_route
    (dst_address : string) (gateway : string) (distance : option Z)
    (comment : option string) (disabled : option bool)
  : Conn string :=
  let cmd := "/ipv6 route add dst-address=" ++ dq ++ dst_address ++ dq ++ " gateway=" ++ dq ++
    gateway ++ dq in
  let cmd := if is_not_None distance then cmd ++ " distance=" ++ fmt distance else cmd in
  let cmd := if truthy comment then cmd ++ " comment=" ++ dq ++ fmt comment ++ dq else cmd in
  let cmd := if is_not_None disabled then cmd ++ " disabled=" ++
      (if truthy disabled then "yes" else "no")
    else cmd in
  do result <- execute_mikrotik_command cmd ;;
  if py_in "failure:" (lower result) || py_in "error" (lower result)
  then ret ("Failed to add IPv6 route: " ++ result)
  else ret ("IPv6 route to " ++ dst_address ++ " added successfully").

(** Lists IPv6 routes. *)
Definition mikrotik_list_ipv6_routes
    (dst_filter : option string) (gateway_filter : option string)
    (active_only : option bool)
  : Conn string :=
  let cmd := "/ipv6 route print" in
  let cmd := if truthy dst_filter then cmd ++ " where dst-address~" ++ dq ++ fmt dst_filter ++
      dq
    else if truthy gateway_filter then cmd ++ " where gateway~" ++ dq ++ fmt gateway_filter ++
      dq
    else if truthy active_only then cmd ++ " where active=yes"
    else cmd in
  do result <- execute_mikrotik_command cmd ;;
  if py_in "failure:" (lower result) || py_in "error" (lower result)
  then ret ("Failed to list IPv6 routes: " ++ result)
  else ret ("IPv6 Routes:" ++ nl ++ nl ++ result).

(** Removes an IPv6 route. *)
Definition mikrotik_remove_ipv6_route (route_id : string) : Conn string :=
  let cmd := "/ipv6 route remove " ++ route_id in
  do result <- execute_mikrotik_command cmd ;;
  if py_in "failure:" (lower result) || py_in "error" (lower result)
  then ret ("Failed to remove IPv6 route: " ++ result)
  else ret ("IPv6 route " ++ route_id ++ " removed successfully").

(** Lists IPv6 neighbors (Neighbor Discovery). *)
Definition mikrotik_list_ipv6_neighbors : Conn string :=
  let cmd := "/ipv6 neighbor print" in
  do result <- execute_mikrotik_command cmd ;;
  if py_in "failure:" (lower result) || py_in "error" (lower result)
  then ret ("Failed to list IPv6 neighbors: " ++ result)
  else ret ("IPv6 Neighbors:" ++ nl ++ nl ++ result).

(** Gets IPv6 settings. *)
Definition mikrotik_get_ipv6_settings : Conn string :=
  let cmd := "/ipv6 settings print" in
  do result <- execute_mikrotik_command cmd ;;
  if py_in "failure:" (lower result) || py_in "error" (lower result)
  then ret ("Failed to get IPv6 settings: " ++ result)
  else ret ("IPv6 Settings:" ++ nl ++ nl ++ result).

(** Sets IPv6 settings. *)
Definition mikrotik_set_ipv6_settings
    (accept_redirects : option bool) (accept_router_advertisements : option bool)
    (forward : option bool) (max_neighbor_entries : option Z)
  : Conn string :=
  let cmd := "/ipv6 settings set" in
  let cmd := if is_not_None accept_redirects then cmd ++ " accept-redirects=" ++
      (if truthy accept_redirects then "yes" else "no")
    else cmd in
  let cmd := if is_not_None accept_router_advertisements then cmd ++
      " accept-router-advertisements=" ++
      (if truthy accept_router_advertisements then "yes" else "no")
    else cmd in
  let cmd := if is_not_None forward then cmd ++ " forward=" ++
      (if truthy forward then "yes" else "no")
    else cmd in
  let cmd := if is_not_None max_neighbor_entries then cmd ++ " max-neighbor-entries=" ++
      fmt max_neighbor_entries
    else cmd in
  do result <- execute_mikrotik_command cmd ;;
  if py_in "failure:" (lower result) || py_in "error" (lower result)
  then ret ("Failed to set IPv6 settings: " ++ result)
  else ret ("IPv6 settings configured successfully").

End ipv6.

(** ** scope/pppoe.py: PPPoE server and client management *)

Module pppoe.

(** Creates a PPPoE server. *)
Definition mikrotik_create_pppoe_server
    (service_name : string) (interface : string) (default_profile : option string)
    (authentication : option string) (keepalive_timeout : option Z) (max_mtu : option Z)
    (max_mru : option Z) (one_session_per_host : option bool) (disabled : option bool)
  : Conn string :=
  let cmd := "/interface pppoe-server server add service-name=" ++ dq ++ service_name ++ dq ++
    " interface=" ++ dq ++ interface ++ dq in
  let cmd := if truthy default_profile then cmd ++ " default-profile=" ++ dq ++
      fmt default_profile ++ dq
    else cmd in
  let cmd := if truthy authentication then cmd ++ " authentication=" ++ fmt authentication
    else cmd in
  let cmd := if is_not_None keepalive_timeout then cmd ++ " keepalive-timeout=" ++
      fmt keepalive_timeout
    else cmd in
  let cmd := if is_not_None max_mtu then cmd ++ " max-mtu=" ++ fmt max_mtu else cmd in
  let cmd := if is_not_None max_mru then cmd ++ " max-mru=" ++ fmt max_mru else cmd in
  let cmd := if is_not_None one_session_per_host then cmd ++ " one-session-per-host=" ++
      (if truthy one_session_per_host then "yes" else "no")
    else cmd in
  let cmd := if is_not_None disabled then cmd ++ " disabled=" ++
      (if truthy disabled then "yes" else "no")
    else cmd in
  do result <- execute_mikrotik_command cmd ;;
  if py_in "failure:" (lower result) || py_in "error" (lower result)
  then ret ("Failed to create PPPoE server: " ++ result)
  else ret ("PPPoE server '" ++ service_name ++ "' created successfully").

(** Lists PPPoE servers. *)
Definition mikrotik_list_pppoe_servers : Conn string :=
  let cmd := "/interface pppoe-server server print" in
  do result <- execute_mikrotik_command cmd ;;
  if py_in "failure:" (lower result) || py_in "error" (lower result)
  then ret ("Failed to list PPPoE servers: " ++ result)
  else ret ("PPPoE Servers:" ++ nl ++ nl ++ result).

(** Removes a PPPoE server. *)
Definition mikrotik_remove_pppoe_server (service_name : string) : Conn string :=
  let cmd := "/interface pppoe-server server remove [find service-name=" ++ dq ++
    service_name ++ dq ++ "]" in
  do result <- execute_mikrotik_command cmd ;;
  if py_in "failure:" (lower result) || py_in "error" (lower result)
  then ret ("Failed to remove PPPoE server: " ++ result)
  else ret ("PPPoE server '" ++ service_name ++ "' removed successfully").

(** Adds a PPP secret (user credentials). *)
Definition mikrotik_add_ppp_secret
    (name : string) (password : string) (service : option string) (profile : option string)
    (local_address : option string) (remote_address : option string)
    (routes : option string) (limit_bytes_in : option string)
    (limit_bytes_out : option string) (comment : option string) (disabled : option bool)
  : Conn string :=
  let cmd := "/ppp secret add name=" ++ dq ++ name ++ dq ++ " password=" ++ dq ++ password ++
    dq in
  let cmd := if truthy service then cmd ++ " service=" ++ fmt service else cmd in
  let cmd := if truthy profile then cmd ++ " profile=" ++ dq ++ fmt profile ++ dq else cmd in
  let cmd := if truthy local_address then cmd ++ " local-address=" ++ dq ++
      fmt local_address ++ dq
    else cmd in
  let cmd := if truthy remote_address then cmd ++ " remote-address=" ++ dq ++
      fmt remote_address ++ dq
    else cmd in
  let cmd := if truthy routes then cmd ++ " routes=" ++ dq ++ fmt routes ++ dq else cmd in
  let cmd := if truthy limit_bytes_in then cmd ++ " limit-bytes-in=" ++ fmt limit_bytes_in
    else cmd in
  let cmd := if truthy limit_bytes_out then cmd ++ " limit-bytes-out=" ++ fmt limit_bytes_out
    else cmd in
  let cmd := if truthy comment then cmd ++ " comment=" ++ dq ++ fmt comment ++ dq else cmd in
  let cmd := if is_not_None disabled then cmd ++ " disabled=" ++
      (if truthy disabled then "yes" else "no")
    else cmd in
  do result <- execute_mikrotik_command cmd ;;
  if py_in "failure:" (lower result) || py_in "error" (lower result)
  then ret ("Failed to add PPP secret: " ++ result)
  else ret ("PPP secret '" ++ name ++ "' added successfully").

(** Lists PPP secrets. *)
Definition mikrotik_list_ppp_secrets
    (service_filter : option string) (disabled_only : option bool)
  : Conn string :=
  let cmd := "/ppp secret print" in
  let cmd := if truthy service_filter then cmd ++ " where service=" ++ fmt service_filter
    else if truthy disabled_only then cmd ++ " where disabled=yes"
    else cmd in
  do result <- execute_mikrotik_command cmd ;;
  if py_in "failure:" (lower result) || py_in "error" (lower result)
  then ret ("Failed to list PPP secrets: " ++ result)
  else ret ("PPP Secrets:" ++ nl ++ nl ++ result).

(** Removes a PPP secret. *)
Definition mikrotik_remove_ppp_secret (name : string) : Conn string :=
  let cmd := "/ppp secret remove [find name=" ++ dq ++ name ++ dq ++ "]" in
  do result <- execute_mikrotik_command cmd ;;
  if py_in "failure:" (lower result) || py_in "error" (lower result)
  then ret ("Failed to remove PPP secret: " ++ result)
  else ret ("PPP secret '" ++ name ++ "' removed successfully").

(** Lists active PPP connections. *)
Definition mikrotik_list_ppp_active : Conn string :=
  let cmd := "/ppp active print" in
  do result <- execute_mikrotik_command cmd ;;
  if py_in "failure:" (lower result) || py_in "error" (lower result)
  then ret ("Failed to list active PPP connections: " ++ result)
  else ret ("Active PPP Connections:" ++ nl ++ nl ++ result).

(** Disconnects an active PPP connection. *)
Definition mikrotik_disconnect_ppp_active (name : string) : Conn string :=
  let cmd := "/ppp active remove [find name=" ++ dq ++ name ++ dq ++ "]" in
  do result <- execute_mikrotik_command cmd ;;
  if py_in "failure:" (lower result) || py_in "error" (lower result)
  then ret ("Failed to disconnect PPP user: " ++ result)
  else ret ("PPP user '" ++ name ++ "' disconnected successfully").

(** Creates a PPP profile. *)
Definition mikrotik_create_ppp_profile
    (name : string) (local_address : option string) (remote_address : option string)
    (dns_server : option string) (wins_server : option string)
    (use_compression : option bool) (use_encryption : option bool) (only_one : option bool)
    (rate_limit : option string) (comment : option string)
  : Conn string :=
  let cmd := "/ppp profile add name=" ++ dq ++ name ++ dq in
  let cmd := if truthy local_address then cmd ++ " local-address=" ++ dq ++
      fmt local_address ++ dq
    else cmd in
  let cmd := if truthy remote_address then cmd ++ " remote-address=" ++ dq ++
      fmt remote_address ++ dq
    else cmd in
  let cmd := if truthy dns_server then cmd ++ " dns-server=" ++ dq ++ fmt dns_server ++ dq
    else cmd in
  let cmd := if truthy wins_server then cmd ++ " wins-server=" ++ dq ++ fmt wins_server ++ dq
    else cmd in
  let cmd := if is_not_None use_compression then cmd ++ " use-compression=" ++
      (if truthy use_compression then "yes" else "no")
    else cmd in
  let cmd := if is_not_None use_encryption then cmd ++ " use-encryption=" ++
      (if truthy use_encryption then "yes" else "no")
    else cmd in
  let cmd := if is_not_None only_one then cmd ++ " only-one=" ++
      (if truthy only_one then "yes" else "no")
    else cmd in
  let cmd := if truthy rate_limit then cmd ++ " rate-limit=" ++ dq ++ fmt rate_limit ++ dq
    else cmd in
  let cmd := if truthy comment then cmd ++ " comment=" ++ dq ++ fmt comment ++ dq else cmd in
  do result <- execute_mikrotik_command cmd ;;
  if py_in "failure:" (lower result) || py_in "error" (lower result)
  then ret ("Failed to create PPP profile: " ++ result)
  else ret ("PPP profile '" ++ name ++ "' created successfully").

(** Lists PPP profiles. *)
Definition mikrotik_list_ppp_profiles : Conn string :=
  let cmd := "/ppp profile print" in
  do result <- execute_mikrotik_command cmd ;;
  if py_in "failure:" (lower result) || py_in "error" (lower result)
  then ret ("Failed to list PPP profiles: " ++ result)
  else ret ("PPP Profiles:" ++ nl ++ nl ++ result).

(** Removes a PPP profile. *)
Definition mikrotik_remove_ppp_profile (name : string) : Conn string :=
  let cmd := "/ppp profile remove [find name=" ++ dq ++ name ++ dq ++ "]" in
  do result <- execute_mikrotik_command cmd ;;
  if py_in "failure:" (lower result) || py_in "error" (lower result)
  then ret ("Failed to remove PPP profile: " ++ result)
  else ret ("PPP profile '" ++ name ++ "' removed successfully").

(** Creates a PPPoE client interface. *)
Definition mikrotik_create_pppoe_client
    (name : string) (interface : string) (user : string) (password : string)
    (service_name : option string) (add_default_route : option bool)
    (use_peer_dns : option bool) (profile : option string) (comment : option string)
    (disabled : option bool)
  : Conn string :=
  let cmd := "/interface pppoe-client add name=" ++ dq ++ name ++ dq ++ " interface=" ++ dq ++
    interface ++ dq ++ " user=" ++ dq ++ user ++ dq ++ " password=" ++ dq ++ password ++ dq in
  let cmd := if truthy service_name then cmd ++ " service-name=" ++ dq ++ fmt service_name ++ dq
    else cmd in
  let cmd := if is_not_None add_default_route then cmd ++ " add-default-route=" ++
      (if truthy add_default_route then "yes" else "no")
    else cmd in
  let cmd := if is_not_None use_peer_dns then cmd ++ " use-peer-dns=" ++
      (if truthy use_peer_dns then "yes" else "no")
    else cmd in
  let cmd := if truthy profile then cmd ++ " profile=" ++ dq ++ fmt profile ++ dq else cmd in
  let cmd := if truthy comment then cmd ++ " comment=" ++ dq ++ fmt comment ++ dq else cmd in
  let cmd := if is_not_None disabled then cmd ++ " disabled=" ++
      (if truthy disabled then "yes" else "no")
    else cmd in
  do result <- execute_mikrotik_command cmd ;;
  if py_in "failure:" (lower result) || py_in "error" (lower result)
  then ret ("Failed to create PPPoE client: " ++ result)
  else ret ("PPPoE client '" ++ name ++ "' created successfully").

(** Lists PPPoE client interfaces. *)
Definition mikrotik_list_pppoe_clients : Conn string :=
  let cmd := "/interface pppoe-client print" in
  do result <- execute_mikrotik_command cmd ;;
  if py_in "failure:" (lower result) || py_in "error" (lower result)
  then ret ("Failed to list PPPoE clients: " ++ result)
  else ret ("PPPoE Clients:" ++ nl ++ nl ++ result).

(** Removes a PPPoE client interface. *)
Definition mikrotik_remove_pppoe_client (name : string) : Conn string :=
  let cmd := "/interface pppoe-client remove [find name=" ++ dq ++ name ++ dq ++ "]" in
  do result <- execute_mikrotik_command cmd ;;
  if py_in "failure:" (lower result) || py_in "error" (lower result)
  then ret ("Failed to remove PPPoE client: " ++ result)
  else ret ("PPPoE client '" ++ name ++ "' removed successfully").

End pppoe.

(** ** scope/queue.py: Queue management *)

Module queue.

(** Creates a simple queue for traffic shaping. *)
Definition mikrotik_create_simple_queue
    (name : string) (target : string) (max_limit : string) (burst_limit : option string)
    (burst_threshold : option string) (burst_time : option string)
    (limit_at : option string) (priority : option Z) (queue_type : option string)
    (parent : option string) (comment : option string) (disabled : option bool)
  : Conn string :=
  let cmd := "/queue simple add name=" ++ dq ++ name ++ dq ++ " target=" ++ dq ++ target ++
    dq ++ " max-limit=" ++ max_limit in
  let cmd := if truthy burst_limit then cmd ++ " burst-limit=" ++ fmt burst_limit else cmd in
  let cmd := if truthy burst_threshold then cmd ++ " burst-threshold=" ++ fmt burst_threshold
    else cmd in
  let cmd := if truthy burst_time then cmd ++ " burst-time=" ++ fmt burst_time else cmd in
  let cmd := if truthy limit_at then cmd ++ " limit-at=" ++ fmt limit_at else cmd in
  let cmd := if is_not_None priority then cmd ++ " priority=" ++ fmt priority else cmd in
  let cmd := if truthy queue_type then cmd ++ " queue=" ++ fmt queue_type else cmd in
  let cmd := if truthy parent then cmd ++ " parent=" ++ dq ++ fmt parent ++ dq else cmd in
  let cmd := if truthy comment then cmd ++ " comment=" ++ dq ++ fmt comment ++ dq else cmd in
  let cmd := if is_not_None disabled then cmd ++ " disabled=" ++
      (if truthy disabled then "yes" else "no")
    else cmd in
  do result <- execute_mikrotik_command cmd ;;
  if py_in "failure:" (lower result) || py_in "error" (lower result)
  then ret ("Failed to create simple queue: " ++ result)
  else ret ("Simple queue '" ++ name ++ "' created successfully").

(** Lists simple queues. *)
Definition mikrotik_list_simple_queues
    (name_filter : option string) (target_filter : option string)
    (disabled_only : option bool)
  : Conn string :=
  let cmd := "/queue simple print" in
  let cmd := if truthy name_filter then cmd ++ " where name~" ++ dq ++ fmt name_filter ++ dq
    else if truthy target_filter then cmd ++ " where target~" ++ dq ++ fmt target_filter ++ dq
    else if truthy disabled_only then cmd ++ " where disabled=yes"
    else cmd in
  do result <- execute_mikrotik_command cmd ;;
  if py_in "failure:" (lower result) || py_in "error" (lower result)
  then ret ("Failed to list simple queues: " ++ result)
  else ret ("Simple Queues:" ++ nl ++ nl ++ result).

(** Removes a simple queue. *)
Definition mikrotik_remove_simple_queue (name : string) : Conn string :=
  let cmd := "/queue simple remove [find name=" ++ dq ++ name ++ dq ++ "]" in
  do result <- execute_mikrotik_command cmd ;;
  if py_in "failure:" (lower result) || py_in "error" (lower result)
  then ret ("Failed to remove simple queue: " ++ result)
  else ret ("Simple queue '" ++ name ++ "' removed successfully").

(** Enables a simple queue. *)
Definition mikrotik_enable_simple_queue (name : string) : Conn string :=
  let cmd := "/queue simple enable [find name=" ++ dq ++ name ++ dq ++ "]" in
  do result <- execute_mikrotik_command cmd ;;
  if py_in "failure:" (lower result) || py_in "error" (lower result)
  then ret ("Failed to enable simple queue: " ++ result)
  else ret ("Simple queue '" ++ name ++ "' enabled successfully").

(** Disables a simple queue. *)
Definition mikrotik_disable_simple_queue (name : string) : Conn string :=
  let cmd := "/queue simple disable [find name=" ++ dq ++ name ++ dq ++ "]" in
  do result <- execute_mikrotik_command cmd ;;
  if py_in "failure:" (lower result) || py_in "error" (lower result)
  then ret ("Failed to disable simple queue: " ++ result)
  else ret ("Simple queue '" ++ name ++ "' disabled successfully").

(** Creates a queue tree entry for advanced QoS. *)
Definition mikrotik_create_queue_tree
    (name : string) (parent : string) (max_limit : string) (burst_limit : option string)
    (burst_threshold : option string) (burst_time : option string)
    (limit_at : option string) (priority : option Z) (queue_type : option string)
    (packet_mark : option string) (comment : option string) (disabled : option bool)
  : Conn string :=
  let cmd := "/queue tree add name=" ++ dq ++ name ++ dq ++ " parent=" ++ dq ++ parent ++ dq ++
    " max-limit=" ++ max_limit in
  let cmd := if truthy burst_limit then cmd ++ " burst-limit=" ++ fmt burst_limit else cmd in
  let cmd := if truthy burst_threshold then cmd ++ " burst-threshold=" ++ fmt burst_threshold
    else cmd in
  let cmd := if truthy burst_time then cmd ++ " burst-time=" ++ fmt burst_time else cmd in
  let cmd := if truthy limit_at then cmd ++ " limit-at=" ++ fmt limit_at else cmd in
  let cmd := if is_not_None priority then cmd ++ " priority=" ++ fmt priority else cmd in
  let cmd := if truthy queue_type then cmd ++ " queue=" ++ fmt queue_type else cmd in
  let cmd := if truthy packet_mark then cmd ++ " packet-mark=" ++ dq ++ fmt packet_mark ++ dq
    else cmd in
  let cmd := if truthy comment then cmd ++ " comment=" ++ dq ++ fmt comment ++ dq else cmd in
  let cmd := if is_not_None disabled then cmd ++ " disabled=" ++
      (if truthy disabled then "yes" else "no")
    else cmd in
  do result <- execute_mikrotik_command cmd ;;
  if py_in "failure:" (lower result) || py_in "error" (lower result)
  then ret ("Failed to create queue tree: " ++ result)
  else ret ("Queue tree '" ++ name ++ "' created successfully").

(** Lists queue tree entries. *)
Definition mikrotik_list_queue_tree
    (name_filter : option string) (parent_filter : option string)
    (disabled_only : option bool)
  : Conn string :=
  let cmd := "/queue tree print" in
  let cmd := if truthy name_filter then cmd ++ " where name~" ++ dq ++ fmt name_filter ++ dq
    else if truthy parent_filter then cmd ++ " where parent~" ++ dq ++ fmt parent_filter ++ dq
    else if truthy disabled_only then cmd ++ " where disabled=yes"
    else cmd in
  do result <- execute_mikrotik_command cmd ;;
  if py_in "failure:" (lower result) || py_in "error" (lower result)
  then ret ("Failed to list queue tree: " ++ result)
  else ret ("Queue Tree:" ++ nl ++ nl ++ result).

(** Removes a queue tree entry. *)
Definition mikrotik_remove_queue_tree (name : string) : Conn string :=
  let cmd := "/queue tree remove [find name=" ++ dq ++ name ++ dq ++ "]" in
  do result <- execute_mikrotik_command cmd ;;
  if py_in "failure:" (lower result) || py_in "error" (lower result)
  then ret ("Failed to remove queue tree: " ++ result)
  else ret ("Queue tree '" ++ name ++ "' removed successfully").

(** Lists available queue types. *)
Definition mikrotik_list_queue_types : Conn string :=
  let cmd := "/queue type print" in
  do result <- execute_mikrotik_command cmd ;;
  if py_in "failure:" (lower result) || py_in "error" (lower result)
  then ret ("Failed to list queue types: " ++ result)
  else ret ("Queue Types:" ++ nl ++ nl ++ result).

(** Creates a custom queue type (PCQ). *)
Definition mikrotik_create_queue_type
    (name : string) (kind : string) (pcq_rate : option string) (pcq_limit : option string)
    (pcq_classifier : option string) (pcq_total_limit : option string)
  : Conn string :=
  let cmd := "/queue type add name=" ++ dq ++ name ++ dq ++ " kind=" ++ kind in
  let cmd := if truthy pcq_rate then cmd ++ " pcq-rate=" ++ fmt pcq_rate else cmd in
  let cmd := if truthy pcq_limit then cmd ++ " pcq-limit=" ++ fmt pcq_limit else cmd in
  let cmd := if truthy pcq_classifier then cmd ++ " pcq-classifier=" ++ fmt pcq_classifier
    else cmd in
  let cmd := if truthy pcq_total_limit then cmd ++ " pcq-total-limit=" ++ fmt pcq_total_limit
    else cmd in
  do result <- execute_mikrotik_command cmd ;;
  if py_in "failure:" (lower result) || py_in "error" (lower result)
  then ret ("Failed to create queue type: " ++ result)
  else ret ("Queue type '" ++ name ++ "' created successfully").

(** Removes a custom queue type. *)
Definition mikrotik_remove_queue_type (name : string) : Conn string :=
  let cmd := "/queue type remove [find name=" ++ dq ++ name ++ dq ++ "]" in
  do result <- execute_mikrotik_command cmd ;;
  if py_in "failure:" (lower result) || py_in "error" (lower result)
  then ret ("Failed to remove queue type: " ++ result)
  else ret ("Queue type '" ++ name ++ "' removed successfully").

(** Resets queue counters. *)
Definition mikrotik_reset_queue_counters : Conn string :=
  let cmd := "/queue simple reset-counters" in
  do result <- execute_mikrotik_command cmd ;;
  ret ("Queue counters reset successfully").

End queue.

(** ** scope/routing_advanced.py: Advanced routing protocols (BGP, OSPF, RIP) *)

Module routing_advanced.

(** Creates a BGP instance. *)
Definition mikrotik_create_bgp_instance
    (name : string) (as_number : Z) (router_id : option string)
    (redistribute_connected : option bool) (redistribute_static : option bool)
    (redistribute_ospf : option bool) (client_to_client_reflection : option bool)
    (comment : option string) (disabled : option bool)
  : Conn string :=
  let cmd := "/routing bgp instance add name=" ++ dq ++ name ++ dq ++ " as=" ++ fmt as_number in
  let cmd := if truthy router_id then cmd ++ " router-id=" ++ dq ++ fmt router_id ++ dq
    else cmd in
  let cmd := if is_not_None redistribute_connected then cmd ++ " redistribute-connected=" ++
      (if truthy redistribute_connected then "yes" else "no")
    else cmd in
  let cmd := if is_not_None redistribute_static then cmd ++ " redistribute-static=" ++
      (if truthy redistribute_static then "yes" else "no")
    else cmd in
  let cmd := if is_not_None redistribute_ospf then cmd ++ " redistribute-ospf=" ++
      (if truthy redistribute_ospf then "yes" else "no")
    else cmd in
  let cmd := if is_not_None client_to_client_reflection then cmd ++
      " client-to-client-reflection=" ++
      (if truthy client_to_client_reflection then "yes" else "no")
    else cmd in
  let cmd := if truthy comment then cmd ++ " comment=" ++ dq ++ fmt comment ++ dq else cmd in
  let cmd := if is_not_None disabled then cmd ++ " disabled=" ++
      (if truthy disabled then "yes" else "no")
    else cmd in
  do result <- execute_mikrotik_command cmd ;;
  if py_in "failure:" (lower result) || py_in "error" (lower result)
  then ret ("Failed to create BGP instance: " ++ result)
  else ret ("BGP instance '" ++ name ++ "' created successfully").

(** Lists BGP instances. *)
Definition mikrotik_list_bgp_instances : Conn string :=
  let cmd := "/routing bgp instance print" in
  do result <- execute_mikrotik_command cmd ;;
  if py_in "failure:" (lower result) || py_in "error" (lower result)
  then ret ("Failed to list BGP instances: " ++ result)
  else ret ("BGP Instances:" ++ nl ++ nl ++ result).

(** Removes a BGP instance. *)
Definition mikrotik_remove_bgp_instance (name : string) : Conn string :=
  let cmd := "/routing bgp instance remove [find name=" ++ dq ++ name ++ dq ++ "]" in
  do result <- execute_mikrotik_command cmd ;;
  if py_in "failure:" (lower result) || py_in "error" (lower result)
  then ret ("Failed to remove BGP instance: " ++ result)
  else ret ("BGP instance '" ++ name ++ "' removed successfully").

(** Adds a BGP peer. *)
Definition mikrotik_add_bgp_peer
    (name : string) (instance : string) (remote_address : string) (remote_as : Z)
    (ttl : option Z) (multihop : option bool) (route_reflect : option bool)
    (hold_time : option string) (tcp_md5_key : option string)
    (update_source : option string) (comment : option string) (disabled : option bool)
  : Conn string :=
  let cmd := "/routing bgp peer add name=" ++ dq ++ name ++ dq ++ " instance=" ++ dq ++
    instance ++ dq ++ " remote-address=" ++ dq ++ remote_address ++ dq ++ " remote-as=" ++
    fmt remote_as in
  let cmd := if is_not_None ttl then cmd ++ " ttl=" ++ fmt ttl else cmd in
  let cmd := if is_not_None multihop then cmd ++ " multihop=" ++
      (if truthy multihop then "yes" else "no")
    else cmd in
  let cmd := if is_not_None route_reflect then cmd ++ " route-reflect=" ++
      (if truthy route_reflect then "yes" else "no")
    else cmd in
  let cmd := if truthy hold_time then cmd ++ " hold-time=" ++ fmt hold_time else cmd in
  let cmd := if truthy tcp_md5_key then cmd ++ " tcp-md5-key=" ++ dq ++ fmt tcp_md5_key ++ dq
    else cmd in
  let cmd := if truthy update_source then cmd ++ " update-source=" ++ dq ++
      fmt update_source ++ dq
    else cmd in
  let cmd := if truthy comment then cmd ++ " comment=" ++ dq ++ fmt comment ++ dq else cmd in
  let cmd := if is_not_None disabled then cmd ++ " disabled=" ++
      (if truthy disabled then "yes" else "no")
    else cmd in
  do result <- execute_mikrotik_command cmd ;;
  if py_in "failure:" (lower result) || py_in "error" (lower result)
  then ret ("Failed to add BGP peer: " ++ result)
  else ret ("BGP peer '" ++ name ++ "' added successfully").

(** Lists BGP peers. *)
Definition mikrotik_list_bgp_peers : Conn string :=
  let cmd := "/routing bgp peer print" in
  do result <- execute_mikrotik_command cmd ;;
  if py_in "failure:" (lower result) || py_in "error" (lower result)
  then ret ("Failed to list BGP peers: " ++ result)
  else ret ("BGP Peers:" ++ nl ++ nl ++ result).

(** Removes a BGP peer. *)
Definition mikrotik_remove_bgp_peer (name : string) : Conn string :=
  let cmd := "/routing bgp peer remove [find name=" ++ dq ++ name ++ dq ++ "]" in
  do result <- execute_mikrotik_command cmd ;;
  if py_in "failure:" (lower result) || py_in "error" (lower result)
  then ret ("Failed to remove BGP peer: " ++ result)
  else ret ("BGP peer '" ++ name ++ "' removed successfully").

(** Lists BGP advertisements. *)
Definition mikrotik_list_bgp_advertisements : Conn string :=
  let cmd := "/routing bgp advertisements print" in
  do result <- execute_mikrotik_command cmd ;;
  if py_in "failure:" (lower result) || py_in "error" (lower result)
  then ret ("Failed to list BGP advertisements: " ++ result)
  else ret ("BGP Advertisements:" ++ nl ++ nl ++ result).

(** Creates an OSPF instance. *)
Definition mikrotik_create_ospf_instance
    (name : string) (router_id : option string) (redistribute_connected : option bool)
    (redistribute_static : option bool) (redistribute_bgp : option bool)
    (comment : option string) (disabled : option bool)
  : Conn string :=
  let cmd := "/routing ospf instance add name=" ++ dq ++ name ++ dq in
  let cmd := if truthy router_id then cmd ++ " router-id=" ++ dq ++ fmt router_id ++ dq
    else cmd in
  let cmd := if is_not_None redistribute_connected then cmd ++ " redistribute-connected=" ++
      (if truthy redistribute_connected then "yes" else "no")
    else cmd in
  let cmd := if is_not_None redistribute_static then cmd ++ " redistribute-static=" ++
      (if truthy redistribute_static then "yes" else "no")
    else cmd in
  let cmd := if is_not_None redistribute_bgp then cmd ++ " redistribute-bgp=" ++
      (if truthy redistribute_bgp then "yes" else "no")
    else cmd in
  let cmd := if truthy comment then cmd ++ " comment=" ++ dq ++ fmt comment ++ dq else cmd in
  let cmd := if is_not_None disabled then cmd ++ " disabled=" ++
      (if truthy disabled then "yes" else "no")
    else cmd in
  do result <- execute_mikrotik_command cmd ;;
  if py_in "failure:" (lower result) || py_in "error" (lower result)
  then ret ("Failed to create OSPF instance: " ++ result)
  else ret ("OSPF instance '" ++ name ++ "' created successfully").

(** Lists OSPF instances. *)
Definition mikrotik_list_ospf_instances : Conn string :=
  let cmd := "/routing ospf instance print" in
  do result <- execute_mikrotik_command cmd ;;
  if py_in "failure:" (lower result) || py_in "error" (lower result)
  then ret ("Failed to list OSPF instances: " ++ result)
  else ret ("OSPF Instances:" ++ nl ++ nl ++ result).

(** Removes an OSPF instance. *)
Definition mikrotik_remove_ospf_instance (name : string) : Conn string :=
  let cmd := "/routing ospf instance remove [find name=" ++ dq ++ name ++ dq ++ "]" in
  do result <- execute_mikrotik_command cmd ;;
  if py_in "failure:" (lower result) || py_in "error" (lower result)
  then ret ("Failed to remove OSPF instance: " ++ result)
  else ret ("OSPF instance '" ++ name ++ "' removed successfully").

(** Adds an OSPF area. *)
Definition mikrotik_add_ospf_area
    (name : string) (area_id : string) (instance : option string) (type : option string)
    (comment : option string) (disabled : option bool)
  : Conn string :=
  let cmd := "/routing ospf area add name=" ++ dq ++ name ++ dq ++ " area-id=" ++ dq ++
    area_id ++ dq in
  let cmd := if truthy instance then cmd ++ " instance=" ++ dq ++ fmt instance ++ dq else cmd in
  let cmd := if truthy type then cmd ++ " type=" ++ fmt type else cmd in
  let cmd := if truthy comment then cmd ++ " comment=" ++ dq ++ fmt comment ++ dq else cmd in
  let cmd := if is_not_None disabled then cmd ++ " disabled=" ++
      (if truthy disabled then "yes" else "no")
    else cmd in
  do result <- execute_mikrotik_command cmd ;;
  if py_in "failure:" (lower result) || py_in "error" (lower result)
  then ret ("Failed to add OSPF area: " ++ result)
  else ret ("OSPF area '" ++ name ++ "' added successfully").

(** Lists OSPF areas. *)
Definition mikrotik_list_ospf_areas : Conn string :=
  let cmd := "/routing ospf area print" in
  do result <- execute_mikrotik_command cmd ;;
  if py_in "failure:" (lower result) || py_in "error" (lower result)
  then ret ("Failed to list OSPF areas: " ++ result)
  else ret ("OSPF Areas:" ++ nl ++ nl ++ result).

(** Adds an OSPF network. *)
Definition mikrotik_add_ospf_network
    (network : string) (area : string) (comment : option string) (disabled : option bool)
  : Conn string :=
  let cmd := "/routing ospf network add network=" ++ dq ++ network ++ dq ++ " area=" ++ dq ++
    area ++ dq in
  let cmd := if truthy comment then cmd ++ " comment=" ++ dq ++ fmt comment ++ dq else cmd in
  let cmd := if is_not_None disabled then cmd ++ " disabled=" ++
      (if truthy disabled then "yes" else "no")
    else cmd in
  do result <- execute_mikrotik_command cmd ;;
  if py_in "failure:" (lower result) || py_in "error" (lower result)
  then ret ("Failed to add OSPF network: " ++ result)
  else ret ("OSPF network '" ++ network ++ "' added successfully").

(** Lists OSPF networks. *)
Definition mikrotik_list_ospf_networks : Conn string :=
  let cmd := "/routing ospf network print" in
  do result <- execute_mikrotik_command cmd ;;
  if py_in "failure:" (lower result) || py_in "error" (lower result)
  then ret ("Failed to list OSPF networks: " ++ result)
  else ret ("OSPF Networks:" ++ nl ++ nl ++ result).

(** Lists OSPF neighbors. *)
Definition mikrotik_list_ospf_neighbors : Conn string :=
  let cmd := "/routing ospf neighbor print" in
  do result <- execute_mikrotik_command cmd ;;
  if py_in "failure:" (lower result) || py_in "error" (lower result)
  then ret ("Failed to list OSPF neighbors: " ++ result)
  else ret ("OSPF Neighbors:" ++ nl ++ nl ++ result).

(** Adds an OSPF interface configuration. *)
Definition mikrotik_add_ospf_interface
    (interface : string) (network_type : option string) (priority : option Z)
    (cost : option Z) (authentication : option string) (authentication_key : option string)
    (comment : option string) (disabled : option bool)
  : Conn string :=
  let cmd := "/routing ospf interface add interface=" ++ dq ++ interface ++ dq in
  let cmd := if truthy network_type then cmd ++ " network-type=" ++ fmt network_type else cmd in
  let cmd := if is_not_None priority then cmd ++ " priority=" ++ fmt priority else cmd in
  let cmd := if is_not_None cost then cmd ++ " cost=" ++ fmt cost else cmd in
  let cmd := if truthy authentication then cmd ++ " authentication=" ++ fmt authentication
    else cmd in
  let cmd := if truthy authentication_key then cmd ++ " authentication-key=" ++ dq ++
      fmt authentication_key ++ dq
    else cmd in
  let cmd := if truthy comment then cmd ++ " comment=" ++ dq ++ fmt comment ++ dq else cmd in
  let cmd := if is_not_None disabled then cmd ++ " disabled=" ++
      (if truthy disabled then "yes" else "no")
    else cmd in
  do result <- execute_mikrotik_command cmd ;;
  if py_in "failure:" (lower result) || py_in "error" (lower result)
  then ret ("Failed to add OSPF interface: " ++ result)
  else ret ("OSPF interface '" ++ interface ++ "' added successfully").

(** Lists OSPF interfaces. *)
Definition mikrotik_list_ospf_interfaces : Conn string :=
  let cmd := "/routing ospf interface print" in
  do result <- execute_mikrotik_command cmd ;;
  if py_in "failure:" (lower result) || py_in "error" (lower result)
  then ret ("Failed to list OSPF interfaces: " ++ result)
  else ret ("OSPF Interfaces:" ++ nl ++ nl ++ result).

(** Creates a RIP instance. *)
Definition mikrotik_create_rip_instance
    (name : string) (redistribute_connected : option bool)
    (redistribute_static : option bool) (redistribute_ospf : option bool)
    (redistribute_bgp : option bool) (comment : option string) (disabled : option bool)
  : Conn string :=
  let cmd := "/routing rip instance add name=" ++ dq ++ name ++ dq in
  let cmd := if is_not_None redistribute_connected then cmd ++ " redistribute-connected=" ++
      (if truthy redistribute_connected then "yes" else "no")
    else cmd in
  let cmd := if is_not_None redistribute_static then cmd ++ " redistribute-static=" ++
      (if truthy redistribute_static then "yes" else "no")
    else cmd in
  let cmd := if is_not_None redistribute_ospf then cmd ++ " redistribute-ospf=" ++
      (if truthy redistribute_ospf then "yes" else "no")
    else cmd in
  let cmd := if is_not_None redistribute_bgp then cmd ++ " redistribute-bgp=" ++
      (if truthy redistribute_bgp then "yes" else "no")
    else cmd in
  let cmd := if truthy comment then cmd ++ " comment=" ++ dq ++ fmt comment ++ dq else cmd in
  let cmd := if is_not_None disabled then cmd ++ " disabled=" ++
      (if truthy disabled then "yes" else "no")
    else cmd in
  do result <- execute_mikrotik_command cmd ;;
  if py_in "failure:" (lower result) || py_in "error" (lower result)
  then ret ("Failed to create RIP instance: " ++ result)
  else ret ("RIP instance '" ++ name ++ "' created successfully").

(** Lists RIP instances. *)
Definition mikrotik_list_rip_instances : Conn string :=
  let cmd := "/routing rip instance print" in
  do result <- execute_mikrotik_command cmd ;;
  if py_in "failure:" (lower result) || py_in "error" (lower result)
  then ret ("Failed to list RIP instances: " ++ result)
  else ret ("RIP Instances:" ++ nl ++ nl ++ result).

(** Removes a RIP instance. *)
Definition mikrotik_remove_rip_instance (name : string) : Conn string :=
  let cmd := "/routing rip instance remove [find name=" ++ dq ++ name ++ dq ++ "]" in
  do result <- execute_mikrotik_command cmd ;;
  if py_in "failure:" (lower result) || py_in "error" (lower result)
  then ret ("Failed to remove RIP instance: " ++ result)
  else ret ("RIP instance '" ++ name ++ "' removed successfully").

(** Adds a RIP network. *)
Definition mikrotik_add_rip_network
    (network : string) (instance : option string) (comment : option string)
    (disabled : option bool)
  : Conn string :=
  let cmd := "/routing rip network add network=" ++ dq ++ network ++ dq in
  let cmd := if truthy instance then cmd ++ " instance=" ++ dq ++ fmt instance ++ dq else cmd in
  let cmd := if truthy comment then cmd ++ " comment=" ++ dq ++ fmt comment ++ dq else cmd in
  let cmd := if is_not_None disabled then cmd ++ " disabled=" ++
      (if truthy disabled then "yes" else "no")
    else cmd in
  do result <- execute_mikrotik_command cmd ;;
  if py_in "failure:" (lower result) || py_in "error" (lower result)
  then ret ("Failed to add RIP network: " ++ result)
  else ret ("RIP network '" ++ network ++ "' added successfully").

(** Lists RIP networks. *)
Definition mikrotik_list_rip_networks : Conn string :=
  let cmd := "/routing rip network print" in
  do result <- execute_mikrotik_command cmd ;;
  if py_in "failure:" (lower result) || py_in "error" (lower result)
  then ret ("Failed to list RIP networks: " ++ result)
  else ret ("RIP Networks:" ++ nl ++ nl ++ result).

(** Adds a RIP interface configuration. *)
Definition mikrotik_add_rip_interface
    (interface : string) (receive : option string) (send : option string)
    (authentication : option string) (authentication_key : option string)
    (comment : option string) (disabled : option bool)
  : Conn string :=
  let cmd := "/routing rip interface add interface=" ++ dq ++ interface ++ dq in
  let cmd := if truthy receive then cmd ++ " receive=" ++ fmt receive else cmd in
  let cmd := if truthy send then cmd ++ " send=" ++ fmt send else cmd in
  let cmd := if truthy authentication then cmd ++ " authentication=" ++ fmt authentication
    else cmd in
  let cmd := if truthy authentication_key then cmd ++ " authentication-key=" ++ dq ++
      fmt authentication_key ++ dq
    else cmd in
  let cmd := if truthy comment then cmd ++ " comment=" ++ dq ++ fmt comment ++ dq else cmd in
  let cmd := if is_not_None disabled then cmd ++ " disabled=" ++
      (if truthy disabled then "yes" else "no")
    else cmd in
  do result <- execute_mikrotik_command cmd ;;
  if py_in "failure:" (lower result) || py_in "error" (lower result)
  then ret ("Failed to add RIP interface: " ++ result)
  else ret ("RIP interface '" ++ interface ++ "' added successfully").

(** Lists RIP interfaces. *)
Definition mikrotik_list_rip_interfaces : Conn string :=
  let cmd := "/routing rip interface print" in
  do result <- execute_mikrotik_command cmd ;;
  if py_in "failure:" (lower result) || py_in "error" (lower result)
  then ret ("Failed to list RIP interfaces: " ++ result)
  else ret ("RIP Interfaces:" ++ nl ++ nl ++ result).

(** Lists RIP neighbors. *)
Definition mikrotik_list_rip_neighbors : Conn string :=
  let cmd := "/routing rip neighbor print" in
  do result <- execute_mikrotik_command cmd ;;
  if py_in "failure:" (lower result) || py_in "error" (lower result)
  then ret ("Failed to list RIP neighbors: " ++ result)
  else ret ("RIP Neighbors:" ++ nl ++ nl ++ result).

End routing_advanced.

(** ** scope/snmp.py: SNMP management *)

Module snmp.

(** Gets SNMP settings. *)
Definition mikrotik_get_snmp_settings : Conn string :=
  let cmd := "/snmp print" in
  do result <- execute_mikrotik_command cmd ;;
  if py_in "failure:" (lower result) || py_in "error" (lower result)
  then ret ("Failed to get SNMP settings: " ++ result)
  else ret ("SNMP Settings:" ++ nl ++ nl ++ result).

(** Sets SNMP settings. *)
Definition mikrotik_set_snmp_settings
    (enabled : option bool) (contact : option string) (location : option string)
    (engine_id : option string) (trap_version : option Z) (trap_community : option string)
    (trap_generators : option string)
  : Conn string :=
  let cmd := "/snmp set" in
  let cmd := if is_not_None enabled then cmd ++ " enabled=" ++
      (if truthy enabled then "yes" else "no")
    else cmd in
  let cmd := if truthy contact then cmd ++ " contact=" ++ dq ++ fmt contact ++ dq else cmd in
  let cmd := if truthy location then cmd ++ " location=" ++ dq ++ fmt location ++ dq else cmd in
  let cmd := if truthy engine_id then cmd ++ " engine-id=" ++ dq ++ fmt engine_id ++ dq
    else cmd in
  let cmd := if is_not_None trap_version then cmd ++ " trap-version=" ++ fmt trap_version
    else cmd in
  let cmd := if truthy trap_community then cmd ++ " trap-community=" ++ dq ++
      fmt trap_community ++ dq
    else cmd in
  let cmd := if truthy trap_generators then cmd ++ " trap-generators=" ++ dq ++
      fmt trap_generators ++ dq
    else cmd in
  do result <- execute_mikrotik_command cmd ;;
  if py_in "failure:" (lower result) || py_in "error" (lower result)
  then ret ("Failed to set SNMP settings: " ++ result)
  else ret ("SNMP settings configured successfully").

(** Lists SNMP communities. *)
Definition mikrotik_list_snmp_communities : Conn string :=
  let cmd := "/snmp community print" in
  do result <- execute_mikrotik_command cmd ;;
  if py_in "failure:" (lower result) || py_in "error" (lower result)
  then ret ("Failed to list SNMP communities: " ++ result)
  else ret ("SNMP Communities:" ++ nl ++ nl ++ result).

(** Adds an SNMP community. *)
Definition mikrotik_add_snmp_community
    (name : string) (addresses : option string) (read_access : option bool)
    (write_access : option bool) (authentication_protocol : option string)
    (authentication_password : option string) (encryption_protocol : option string)
    (encryption_password : option string) (comment : option string) (disabled : option bool)
  : Conn string :=
  let cmd := "/snmp community add name=" ++ dq ++ name ++ dq in
  let cmd := if truthy addresses then cmd ++ " addresses=" ++ dq ++ fmt addresses ++ dq
    else cmd in
  let cmd := if is_not_None read_access then cmd ++ " read-access=" ++
      (if truthy read_access then "yes" else "no")
    else cmd in
  let cmd := if is_not_None write_access then cmd ++ " write-access=" ++
      (if truthy write_access then "yes" else "no")
    else cmd in
  let cmd := if truthy authentication_protocol then cmd ++ " authentication-protocol=" ++
      fmt authentication_protocol
    else cmd in
  let cmd := if truthy authentication_password then cmd ++ " authentication-password=" ++ dq ++
      fmt authentication_password ++ dq
    else cmd in
  let cmd := if truthy encryption_protocol then cmd ++ " encryption-protocol=" ++
      fmt encryption_protocol
    else cmd in
  let cmd := if truthy encryption_password then cmd ++ " encryption-password=" ++ dq ++
      fmt encryption_password ++ dq
    else cmd in
  let cmd := if truthy comment then cmd ++ " comment=" ++ dq ++ fmt comment ++ dq else cmd in
  let cmd := if is_not_None disabled then cmd ++ " disabled=" ++
      (if truthy disabled then "yes" else "no")
    else cmd in
  do result <- execute_mikrotik_command cmd ;;
  if py_in "failure:" (lower result) || py_in "error" (lower result)
  then ret ("Failed to add SNMP community: " ++ result)
  else ret ("SNMP community '" ++ name ++ "' added successfully").

(** Removes an SNMP community. *)
Definition mikrotik_remove_snmp_community (name : string) : Conn string :=
  let cmd := "/snmp community remove [find name=" ++ dq ++ name ++ dq ++ "]" in
  do result <- execute_mikrotik_command cmd ;;
  if py_in "failure:" (lower result) || py_in "error" (lower result)
  then ret ("Failed to remove SNMP community: " ++ result)
  else ret ("SNMP community '" ++ name ++ "' removed successfully").

End snmp.

(** ** scope/system.py: System management operations *)

Module system.

(** Gets system resource information (CPU, memory, disk, uptime). *)
Definition mikrotik_get_system_resource : Conn string :=
  let cmd := "/system resource print" in
  do result <- execute_mikrotik_command cmd ;;
  if py_in "failure:" (lower result) || py_in "error" (lower result)
  then ret ("Failed to get system resources: " ++ result)
  else ret ("System Resources:" ++ nl ++ nl ++ result).

(** Gets system health information (temperature, voltage, etc.). *)
Definition mikrotik_get_system_health : Conn string :=
  let cmd := "/system health print" in
  do result <- execute_mikrotik_command cmd ;;
  if py_in "failure:" (lower result) || py_in "error" (lower result)
  then ret ("Failed to get system health: " ++ result)
  else ret ("System Health:" ++ nl ++ nl ++ result).

(** Gets the system identity (router name). *)
Definition mikrotik_get_system_identity : Conn string :=
  let cmd := "/system identity print" in
  do result <- execute_mikrotik_command cmd ;;
  if py_in "failure:" (lower result) || py_in "error" (lower result)
  then ret ("Failed to get system identity: " ++ result)
  else ret ("System Identity:" ++ nl ++ nl ++ result).

(** Sets the system identity (router name). *)
Definition mikrotik_set_system_identity (name : string) : Conn string :=
  let cmd := "/system identity set name=" ++ dq ++ name ++ dq in
  do result <- execute_mikrotik_command cmd ;;
  if py_in "failure:" (lower result) || py_in "error" (lower result)
  then ret ("Failed to set system identity: " ++ result)
  else ret ("System identity set to '" ++ name ++ "' successfully").

(** Gets system clock settings and current time. *)
Definition mikrotik_get_system_clock : Conn string :=
  let cmd := "/system clock print" in
  do result <- execute_mikrotik_command cmd ;;
  if py_in "failure:" (lower result) || py_in "error" (lower result)
  then ret ("Failed to get system clock: " ++ result)
  else ret ("System Clock:" ++ nl ++ nl ++ result).

(** Sets system clock configuration. *)
Definition mikrotik_set_system_clock
    (time_zone_name : option string) (time_zone_autodetect : option bool)
  : Conn string :=
  let cmd := "/system clock set" in
  let cmd := if truthy time_zone_name then cmd ++ " time-zone-name=" ++ dq ++
      fmt time_zone_name ++ dq
    else cmd in
  let cmd := if is_not_None time_zone_autodetect then cmd ++ " time-zone-autodetect=" ++
      (if truthy time_zone_autodetect then "yes" else "no")
    else cmd in
  do result <- execute_mikrotik_command cmd ;;
  if py_in "failure:" (lower result) || py_in "error" (lower result)
  then ret ("Failed to set system clock: " ++ result)
  else ret ("System clock configured successfully").

(** Gets NTP client configuration. *)
Definition mikrotik_get_ntp_client : Conn string :=
  let cmd := "/system ntp client print" in
  do result <- execute_mikrotik_command cmd ;;
  if py_in "failure:" (lower result) || py_in "error" (lower result)
  then ret ("Failed to get NTP client: " ++ result)
  else ret ("NTP Client Configuration:" ++ nl ++ nl ++ result).

(** Configures NTP client settings. *)
Definition mikrotik_set_ntp_client
    (enabled : option bool) (servers : option (list string)) (mode : option string)
  : Conn string :=
  let cmd := "/system ntp client set" in
  let cmd := if is_not_None enabled then cmd ++ " enabled=" ++
      (if truthy enabled then "yes" else "no")
    else cmd in
  let cmd := if truthy servers then
      let servers_str := join "," servers in
      cmd ++ " servers=" ++ dq ++ servers_str ++ dq else cmd in
  let cmd := if truthy mode then cmd ++ " mode=" ++ fmt mode else cmd in
  do result <- execute_mikrotik_command cmd ;;
  if py_in "failure:" (lower result) || py_in "error" (lower result)
  then ret ("Failed to set NTP client: " ++ result)
  else ret ("NTP client configured successfully").

(** Reboots the MikroTik device. *)
Definition mikrotik_system_reboot : Conn string :=
  let cmd := "/system reboot" in
  do result <- execute_mikrotik_command cmd ;;
  ret ("System reboot initiated").

(** Shuts down the MikroTik device. *)
Definition mikrotik_system_shutdown : Conn string :=
  let cmd := "/system shutdown" in
  do result <- execute_mikrotik_command cmd ;;
  ret ("System shutdown initiated").

(** Lists installed system packages. *)
Definition mikrotik_list_packages : Conn string :=
  let cmd := "/system package print" in
  do result <- execute_mikrotik_command cmd ;;
  if py_in "failure:" (lower result) || py_in "error" (lower result)
  then ret ("Failed to list packages: " ++ result)
  else ret ("Installed Packages:" ++ nl ++ nl ++ result).

(** Enables a system package. *)
Definition mikrotik_enable_package (package_name : string) : Conn string :=
  let cmd := "/system package enable [find name=" ++ dq ++ package_name ++ dq ++ "]" in
  do result <- execute_mikrotik_command cmd ;;
  if py_in "failure:" (lower result) || py_in "error" (lower result)
  then ret ("Failed to enable package: " ++ result)
  else ret ("Package '" ++ package_name ++ "' enabled successfully (reboot required)").

(** Disables a system package. *)
Definition mikrotik_disable_package (package_name : string) : Conn string :=
  let cmd := "/system package disable [find name=" ++ dq ++ package_name ++ dq ++ "]" in
  do result <- execute_mikrotik_command cmd ;;
  if py_in "failure:" (lower result) || py_in "error" (lower result)
  then ret ("Failed to disable package: " ++ result)
  else ret ("Package '" ++ package_name ++ "' disabled successfully (reboot required)").

(** Lists scheduled tasks. *)
Definition mikrotik_list_scheduler : Conn string :=
  let cmd := "/system scheduler print" in
  do result <- execute_mikrotik_command cmd ;;
  if py_in "failure:" (lower result) || py_in "error" (lower result)
  then ret ("Failed to list scheduler: " ++ result)
  else ret ("Scheduled Tasks:" ++ nl ++ nl ++ result).

(** Adds a scheduled task. *)
Definition mikrotik_add_scheduler
    (name : string) (on_event : string) (start_date : option string)
    (start_time : option string) (interval : option string) (policy : option string)
    (comment : option string) (disabled : option bool)
  : Conn string :=
  let cmd := "/system scheduler add name=" ++ dq ++ name ++ dq ++ " on-event=" ++ dq ++
    on_event ++ dq in
  let cmd := if truthy start_date then cmd ++ " start-date=" ++ dq ++ fmt start_date ++ dq
    else cmd in
  let cmd := if truthy start_time then cmd ++ " start-time=" ++ dq ++ fmt start_time ++ dq
    else cmd in
  let cmd := if truthy interval then cmd ++ " interval=" ++ fmt interval else cmd in
  let cmd := if truthy policy then cmd ++ " policy=" ++ fmt policy else cmd in
  let cmd := if truthy comment then cmd ++ " comment=" ++ dq ++ fmt comment ++ dq else cmd in
  let cmd := if is_not_None disabled then cmd ++ " disabled=" ++
      (if truthy disabled then "yes" else "no")
    else cmd in
  do result <- execute_mikrotik_command cmd ;;
  if py_in "failure:" (lower result) || py_in "error" (lower result)
  then ret ("Failed to add scheduler task: " ++ result)
  else ret ("Scheduler task '" ++ name ++ "' added successfully").

(** Removes a scheduled task. *)
Definition mikrotik_remove_scheduler (name : string) : Conn string :=
  let cmd := "/system scheduler remove [find name=" ++ dq ++ name ++ dq ++ "]" in
  do result <- execute_mikrotik_command cmd ;;
  if py_in "failure:" (lower result) || py_in "error" (lower result)
  then ret ("Failed to remove scheduler task: " ++ result)
  else ret ("Scheduler task '" ++ name ++ "' removed successfully").

(** Lists system scripts. *)
Definition mikrotik_list_scripts : Conn string :=
  let cmd := "/system script print" in
  do result <- execute_mikrotik_command cmd ;;
  if py_in "failure:" (lower result) || py_in "error" (lower result)
  then ret ("Failed to list scripts: " ++ result)
  else ret ("System Scripts:" ++ nl ++ nl ++ result).

(** Adds a system script. *)
Definition mikrotik_add_script
    (name : string) (source : string) (policy : option string) (comment : option string)
    (dont_require_permissions : option bool)
  : Conn string :=
  let source_escaped := replace nl (bs ++ "n") (replace dq (bs ++ dq) source) in
  let cmd := "/system script add name=" ++ dq ++ name ++ dq ++ " source=" ++ dq ++
    source_escaped ++ dq in
  let cmd := if truthy policy then cmd ++ " policy=" ++ fmt policy else cmd in
  let cmd := if truthy comment then cmd ++ " comment=" ++ dq ++ fmt comment ++ dq else cmd in
  let cmd := if is_not_None dont_require_permissions then cmd ++
      " dont-require-permissions=" ++ (if truthy dont_require_permissions then "yes" else "no")
    else cmd in
  do result <- execute_mikrotik_command cmd ;;
  if py_in "failure:" (lower result) || py_in "error" (lower result)
  then ret ("Failed to add script: " ++ result)
  else ret ("Script '" ++ name ++ "' added successfully").

(** Runs a system script. *)
Definition mikrotik_run_script (name : string) : Conn string :=
  let cmd := "/system script run [find name=" ++ dq ++ name ++ dq ++ "]" in
  do result <- execute_mikrotik_command cmd ;;
  if py_in "failure:" (lower result) || py_in "error" (lower result)
  then ret ("Failed to run script: " ++ result)
  else ret ("Script '" ++ name ++ "' executed:" ++ nl ++ nl ++ result).

(** Removes a system script. *)
Definition mikrotik_remove_script (name : string) : Conn string :=
  let cmd := "/system script remove [find name=" ++ dq ++ name ++ dq ++ "]" in
  do result <- execute_mikrotik_command cmd ;;
  if py_in "failure:" (lower result) || py_in "error" (lower result)
  then ret ("Failed to remove script: " ++ result)
  else ret ("Script '" ++ name ++ "' removed successfully").

(** Gets RouterBOARD hardware information. *)
Definition mikrotik_get_system_routerboard : Conn string :=
  let cmd := "/system routerboard print" in
  do result <- execute_mikrotik_command cmd ;;
  if py_in "failure:" (lower result) || py_in "error" (lower result)
  then ret ("Failed to get RouterBOARD info: " ++ result)
  else ret ("RouterBOARD Information:" ++ nl ++ nl ++ result).

(** Gets system license information. *)
Definition mikrotik_get_system_license : Conn string :=
  let cmd := "/system license print" in
  do result <- execute_mikrotik_command cmd ;;
  if py_in "failure:" (lower result) || py_in "error" (lower result)
  then ret ("Failed to get license info: " ++ result)
  else ret ("System License:" ++ nl ++ nl ++ result).

(** Gets system command history. *)
Definition mikrotik_get_system_history : Conn string :=
  let cmd := "/system history print" in
  do result <- execute_mikrotik_command cmd ;;
  if py_in "failure:" (lower result) || py_in "error" (lower result)
  then ret ("Failed to get history: " ++ result)
  else ret ("System History:" ++ nl ++ nl ++ result).

End system.

(** ** The tool adapters: argument bags and handlers *)

(** The values of an argument bag: those the declared schemas admit (string,
    integer, boolean, array of strings), and null. *)
Inductive value : Type :=
| VNull
| VBool (b : bool)
| VInt (z : Z)
| VStr (s : string)
| VArr (l : list string).

Inductive json_type : Type := TString | TInteger | TBoolean | TArray.

(** [mcp.types.Tool]: the name and, of the input schema, the type of every
    property and the required ones.  Descriptions and enumerations, which
    only inform the caller, are left out. *)
Module mcp.
Record Tool : Type := {
  name : string;
  properties : list (string * json_type);
  required : list string
}.
End mcp.

Inductive exn : Type := KeyError (key : string).

(** The result of evaluating an expression of a handler.  [Untyped] stands
    for a value whose JSON type is not the one the parameter is annotated
    with: the handler passes it on unchanged, and what the domain function
    does with it lies outside the annotated types, hence outside this
    embedding. *)
Inductive outcome (A : Type) : Type :=
| Returned (a : A)
| Raised (e : exn)
| Untyped.
Arguments Returned {A} a.
Arguments Raised {A} e.
Arguments Untyped {A}.

(** The reading of a bag value at an annotated type. *)
Class Annotated (A : Type) := of_value : value -> option A.
Global Hint Mode Annotated ! : typeclass_instances.

Global Instance str_annotated : Annotated string :=
  fun v => match v with VStr s => Some s | _ => None end.
Global Instance int_annotated : Annotated Z :=
  fun v => match v with VInt z => Some z | _ => None end.
Global Instance bool_annotated : Annotated bool :=
  fun v => match v with VBool b => Some b | _ => None end.
Global Instance list_annotated : Annotated (list string) :=
  fun v => match v with VArr l => Some l | _ => None end.
Global Instance optional_annotated {A} `{Annotated A} : Annotated (option A) :=
  fun v => match v with
           | VNull => Some None
           | _ => match of_value v with Some a => Some (Some a) | None => None end
           end.

Definition typed {A} `{Annotated A} (v : value) : outcome A :=
  match of_value v with
  | Some a => Returned a
  | None => Untyped
  end.

(** [args[key]]: a missing key raises [KeyError]. *)
Definition item {A} `{Annotated A} (args : gmap string value) (key : string) : outcome A :=
  match args !! key with
  | Some v => typed v
  | None => Raised (KeyError key)
  end.

(** [args.get(key)]: a missing key yields [None]. *)
Definition get {A} `{Annotated A} (args : gmap string value) (key : string) : outcome A :=
  typed (default VNull (args !! key)).

Definition pure {A} (a : A) : outcome A := Returned a.

(** The arguments of a call are evaluated from left to right, all of them
    before the function is entered: the first exception raised wins, and
    only then does an ill-typed value matter. *)
Definition ap {A B} (f : outcome (A -> B)) (x : outcome A) : outcome B :=
  match f, x with
  | Raised e, _ => Raised e
  | _, Raised e => Raised e
  | Untyped, _ => Untyped
  | _, Untyped => Untyped
  | Returned g, Returned a => Returned (g a)
  end.

Notation "f <*> x" := (ap f x) (at level 61, left associativity).

(** The call itself: the domain function runs only if every argument
    expression has produced its value. *)
Definition call (c : outcome (Conn string)) : Conn (outcome string) :=
  match c with
  | Returned op => do result <- op ;; ret (Returned result)
  | Raised e => ret (Raised e)
  | Untyped => ret Untyped
  end.

Definition handler : Type := gmap string value -> Conn (outcome string).


(** ** tools/bridge_tools.py *)

Module bridge_tools.

Definition get_bridge_tools : list mcp.Tool := [
  {| mcp.name := "mikrotik_create_bridge";
     mcp.properties := [("name", TString); ("mtu", TInteger); ("arp", TString);
         ("arp_timeout", TString); ("ageing_time", TString); ("priority", TInteger);
         ("protocol_mode", TString); ("vlan_filtering", TBoolean); ("comment", TString);
         ("disabled", TBoolean)];
     mcp.required := ["name"] |};
  {| mcp.name := "mikrotik_list_bridges";
     mcp.properties := [("name_filter", TString); ("disabled_only", TBoolean)];
     mcp.required := [] |};
  {| mcp.name := "mikrotik_remove_bridge";
     mcp.properties := [("name", TString)];
     mcp.required := ["name"] |};
  {| mcp.name := "mikrotik_add_bridge_port";
     mcp.properties := [("bridge", TString); ("interface", TString); ("pvid", TInteger);
         ("priority", TInteger); ("path_cost", TInteger); ("edge", TBoolean);
         ("point_to_point", TString); ("horizon", TInteger); ("comment", TString);
         ("disabled", TBoolean)];
     mcp.required := ["bridge"; "interface"] |};
  {| mcp.name := "mikrotik_list_bridge_ports";
     mcp.properties := [("bridge_filter", TString); ("interface_filter", TString)];
     mcp.required := [] |};
  {| mcp.name := "mikrotik_remove_bridge_port";
     mcp.properties := [("interface", TString)];
     mcp.required := ["interface"] |};
  {| mcp.name := "mikrotik_add_bridge_vlan";
     mcp.properties := [("bridge", TString); ("vlan_ids", TString); ("tagged", TString);
         ("untagged", TString); ("comment", TString); ("disabled", TBoolean)];
     mcp.required := ["bridge"; "vlan_ids"] |};
  {| mcp.name := "mikrotik_list_bridge_vlans";
     mcp.properties := [("bridge_filter", TString)];
     mcp.required := [] |};
  {| mcp.name := "mikrotik_get_bridge_host";
     mcp.properties := [("bridge_filter", TString)];
     mcp.required := [] |}
].

Definition get_bridge_handlers : gmap string handler := list_to_map [
  ("mikrotik_create_bridge", fun args =>
     call (pure bridge.mikrotik_create_bridge <*> item args "name" <*> get args "mtu"
         <*> get args "arp" <*> get args "arp_timeout" <*> get args "ageing_time"
         <*> get args "priority" <*> get args "protocol_mode" <*> get args "vlan_filtering"
         <*> get args "comment" <*> get args "disabled"));
  ("mikrotik_list_bridges", fun args =>
     call (pure bridge.mikrotik_list_bridges <*> get args "name_filter"
         <*> get args "disabled_only"));
  ("mikrotik_remove_bridge", fun args =>
     call (pure bridge.mikrotik_remove_bridge <*> item args "name"));
  ("mikrotik_add_bridge_port", fun args =>
     call (pure bridge.mikrotik_add_bridge_port <*> item args "bridge" <*> item args "interface"
         <*> get args "pvid" <*> get args "priority" <*> get args "path_cost"
         <*> get args "edge" <*> get args "point_to_point" <*> get args "horizon"
         <*> get args "comment" <*> get args "disabled"));
  ("mikrotik_list_bridge_ports", fun args =>
     call (pure bridge.mikrotik_list_bridge_ports <*> get args "bridge_filter"
         <*> get args "interface_filter"));
  ("mikrotik_remove_bridge_port", fun args =>
     call (pure bridge.mikrotik_remove_bridge_port <*> item args "interface"));
  ("mikrotik_add_bridge_vlan", fun args =>
     call (pure bridge.mikrotik_add_bridge_vlan <*> item args "bridge" <*> item args "vlan_ids"
         <*> get args "tagged" <*> get args "untagged" <*> get args "comment"
         <*> get args "disabled"));
  ("mikrotik_list_bridge_vlans", fun args =>
     call (pure bridge.mikrotik_list_bridge_vlans <*> get args "bridge_filter"));
  ("mikrotik_get_bridge_host", fun args =>
     call (pure bridge.mikrotik_get_bridge_host <*> get args "bridge_filter"))
].

End bridge_tools.

(** ** tools/hotspot_tools.py *)

Module hotspot_tools.

Definition get_hotspot_tools : list mcp.Tool := [
  {| mcp.name := "mikrotik_create_hotspot_server";
     mcp.properties := [("name", TString); ("interface", TString); ("address_pool", TString);
         ("profile", TString); ("disabled", TBoolean)];
     mcp.required := ["name"; "interface"; "address_pool"] |};
  {| mcp.name := "mikrotik_list_hotspot_servers";
     mcp.properties := [];
     mcp.required := [] |};
  {| mcp.name := "mikrotik_list_hotspot_users";
     mcp.properties := [];
     mcp.required := [] |};
  {| mcp.name := "mikrotik_add_hotspot_user";
     mcp.properties := [("name", TString); ("password", TString); ("profile", TString);
         ("limit_uptime", TString); ("limit_bytes_total", TString); ("comment", TString);
         ("disabled", TBoolean)];
     mcp.required := ["name"; "password"] |};
  {| mcp.name := "mikrotik_remove_hotspot_user";
     mcp.properties := [("name", TString)];
     mcp.required := ["name"] |};
  {| mcp.name := "mikrotik_list_hotspot_active";
     mcp.properties := [];
     mcp.required := [] |};
  {| mcp.name := "mikrotik_remove_hotspot_active";
     mcp.properties := [("user", TString)];
     mcp.required := ["user"] |}
].

Definition get_hotspot_handlers : gmap string handler := list_to_map [
  ("mikrotik_create_hotspot_server", fun args =>
     call (pure hotspot.mikrotik_create_hotspot_server <*> item args "name"
         <*> item args "interface" <*> item args "address_pool" <*> get args "profile"
         <*> get args "disabled"));
  ("mikrotik_list_hotspot_servers", fun args =>
     call (pure hotspot.mikrotik_list_hotspot_servers));
  ("mikrotik_list_hotspot_users", fun args =>
     call (pure hotspot.mikrotik_list_hotspot_users));
  ("mikrotik_add_hotspot_user", fun args =>
     call (pure hotspot.mikrotik_add_hotspot_user <*> item args "name" <*> item args "password"
         <*> get args "profile" <*> get args "limit_uptime" <*> get args "limit_bytes_total"
         <*> get args "comment" <*> get args "disabled"));
  ("mikrotik_remove_hotspot_user", fun args =>
     call (pure hotspot.mikrotik_remove_hotspot_user <*> item args "name"));
  ("mikrotik_list_hotspot_active", fun args =>
     call (pure hotspot.mikrotik_list_hotspot_active));
  ("mikrotik_remove_hotspot_active", fun args =>
     call (pure hotspot.mikrotik_remove_hotspot_active <*> item args "user"))
].

End hotspot_tools.

(** ** tools/pppoe_tools.py *)

Module pppoe_tools.

Definition get_pppoe_tools : list mcp.Tool := [
  {| mcp.name := "mikrotik_create_pppoe_server";
     mcp.properties := [("service_name", TString); ("interface", TString);
         ("default_profile", TString); ("authentication", TString);
         ("keepalive_timeout", TInteger); ("max_mtu", TInteger); ("max_mru", TInteger);
         ("one_session_per_host", TBoolean); ("disabled", TBoolean)];
     mcp.required := ["service_name"; "interface"] |};
  {| mcp.name := "mikrotik_list_pppoe_servers";
     mcp.properties := [];
     mcp.required := [] |};
  {| mcp.name := "mikrotik_remove_pppoe_server";
     mcp.properties := [("service_name", TString)];
     mcp.required := ["service_name"] |};
  {| mcp.name := "mikrotik_add_ppp_secret";
     mcp.properties := [("name", TString); ("password", TString); ("service", TString);
         ("profile", TString); ("local_address", TString); ("remote_address", TString);
         ("routes", TString); ("limit_bytes_in", TString); ("limit_bytes_out", TString);
         ("comment", TString); ("disabled", TBoolean)];
     mcp.required := ["name"; "password"] |};
  {| mcp.name := "mikrotik_list_ppp_secrets";
     mcp.properties := [("service_filter", TString); ("disabled_only", TBoolean)];
     mcp.required := [] |};
  {| mcp.name := "mikrotik_remove_ppp_secret";
     mcp.properties := [("name", TString)];
     mcp.required := ["name"] |};
  {| mcp.name := "mikrotik_list_ppp_active";
     mcp.properties := [];
     mcp.required := [] |};
  {| mcp.name := "mikrotik_disconnect_ppp_active";
     mcp.properties := [("name", TString)];
     mcp.required := ["name"] |};
  {| mcp.name := "mikrotik_create_ppp_profile";
     mcp.properties := [("name", TString); ("local_address", TString);
         ("remote_address", TString); ("dns_server", TString); ("wins_server", TString);
         ("use_compression", TBoolean); ("use_encryption", TBoolean); ("only_one", TBoolean);
         ("rate_limit", TString); ("comment", TString)];
     mcp.required := ["name"] |};
  {| mcp.name := "mikrotik_list_ppp_profiles";
     mcp.properties := [];
     mcp.required := [] |};
  {| mcp.name := "mikrotik_remove_ppp_profile";
     mcp.properties := [("name", TString)];
     mcp.required := ["name"] |};
  {| mcp.name := "mikrotik_create_pppoe_client";
     mcp.properties := [("name", TString); ("interface", TString); ("user", TString);
         ("password", TString); ("service_name", TString); ("add_default_route", TBoolean);
         ("use_peer_dns", TBoolean); ("profile", TString); ("comment", TString);
         ("disabled", TBoolean)];
     mcp.required := ["name"; "interface"; "user"; "password"] |};
  {| mcp.name := "mikrotik_list_pppoe_clients";
     mcp.properties := [];
     mcp.required := [] |};
  {| mcp.name := "mikrotik_remove_pppoe_client";
     mcp.properties := [("name", TString)];
     mcp.required := ["name"] |}
].

Definition get_pppoe_handlers : gmap string handler := list_to_map [
  ("mikrotik_create_pppoe_server", fun args =>
     call (pure pppoe.mikrotik_create_pppoe_server <*> item args "service_name"
         <*> item args "interface" <*> get args "default_profile" <*> get args "authentication"
         <*> get args "keepalive_timeout" <*> get args "max_mtu" <*> get args "max_mru"
         <*> get args "one_session_per_host" <*> get args "disabled"));
  ("mikrotik_list_pppoe_servers", fun args =>
     call (pure pppoe.mikrotik_list_pppoe_servers));
  ("mikrotik_remove_pppoe_server", fun args =>
     call (pure pppoe.mikrotik_remove_pppoe_server <*> item args "service_name"));
  ("mikrotik_add_ppp_secret", fun args =>
     call (pure pppoe.mikrotik_add_ppp_secret <*> item args "name" <*> item args "password"
         <*> get args "service" <*> get args "profile" <*> get args "local_address"
         <*> get args "remote_address" <*> get args "routes" <*> get args "limit_bytes_in"
         <*> get args "limit_bytes_out" <*> get args "comment" <*> get args "disabled"));
  ("mikrotik_list_ppp_secrets", fun args =>
     call (pure pppoe.mikrotik_list_ppp_secrets <*> get args "service_filter"
         <*> get args "disabled_only"));
  ("mikrotik_remove_ppp_secret", fun args =>
     call (pure pppoe.mikrotik_remove_ppp_secret <*> item args "name"));
  ("mikrotik_list_ppp_active", fun args =>
     call (pure pppoe.mikrotik_list_ppp_active));
  ("mikrotik_disconnect_ppp_active", fun args =>
     call (pure pppoe.mikrotik_disconnect_ppp_active <*> item args "name"));
  ("mikrotik_create_ppp_profile", fun args =>
     call (pure pppoe.mikrotik_create_ppp_profile <*> item args "name"
         <*> get args "local_address" <*> get args "remote_address" <*> get args "dns_server"
         <*> get args "wins_server" <*> get args "use_compression" <*> get args "use_encryption"
         <*> get args "only_one" <*> get args "rate_limit" <*> get args "comment"));
  ("mikrotik_list_ppp_profiles", fun args =>
     call (pure pppoe.mikrotik_list_ppp_profiles));
  ("mikrotik_remove_ppp_profile", fun args =>
     call (pure pppoe.mikrotik_remove_ppp_profile <*> item args "name"));
  ("mikrotik_create_pppoe_client", fun args =>
     call (pure pppoe.mikrotik_create_pppoe_client <*> item args "name"
         <*> item args "interface" <*> item args "user" <*> item args "password"
         <*> get args "service_name" <*> get args "add_default_route"
         <*> get args "use_peer_dns" <*> get args "profile" <*> get args "comment"
         <*> get args "disabled"));
  ("mikrotik_list_pppoe_clients", fun args =>
     call (pure pppoe.mikrotik_list_pppoe_clients));
  ("mikrotik_remove_pppoe_client", fun args =>
     call (pure pppoe.mikrotik_remove_pppoe_client <*> item args "name"))
].

End pppoe_tools.

(** ** tools/queue_tools.py *)

Module queue_tools.

Definition get_queue_tools : list mcp.Tool := [
  {| mcp.name := "mikrotik_create_simple_queue";
     mcp.properties := [("name", TString); ("target", TString); ("max_limit", TString);
         ("burst_limit", TString); ("burst_threshold", TString); ("burst_time", TString);
         ("limit_at", TString); ("priority", TInteger); ("queue_type", TString);
         ("parent", TString); ("comment", TString); ("disabled", TBoolean)];
     mcp.required := ["name"; "target"; "max_limit"] |};
  {| mcp.name := "mikrotik_list_simple_queues";
     mcp.properties := [("name_filter", TString); ("target_filter", TString);
         ("disabled_only", TBoolean)];
     mcp.required := [] |};
  {| mcp.name := "mikrotik_remove_simple_queue";
     mcp.properties := [("name", TString)];
     mcp.required := ["name"] |};
  {| mcp.name := "mikrotik_enable_simple_queue";
     mcp.properties := [("name", TString)];
     mcp.required := ["name"] |};
  {| mcp.name := "mikrotik_disable_simple_queue";
     mcp.properties := [("name", TString)];
     mcp.required := ["name"] |};
  {| mcp.name := "mikrotik_create_queue_tree";
     mcp.properties := [("name", TString); ("parent", TString); ("max_limit", TString);
         ("burst_limit", TString); ("burst_threshold", TString); ("burst_time", TString);
         ("limit_at", TString); ("priority", TInteger); ("queue_type", TString);
         ("packet_mark", TString); ("comment", TString); ("disabled", TBoolean)];
     mcp.required := ["name"; "parent"; "max_limit"] |};
  {| mcp.name := "mikrotik_list_queue_tree";
     mcp.properties := [("name_filter", TString); ("parent_filter", TString);
         ("disabled_only", TBoolean)];
     mcp.required := [] |};
  {| mcp.name := "mikrotik_remove_queue_tree";
     mcp.properties := [("name", TString)];
     mcp.required := ["name"] |};
  {| mcp.name := "mikrotik_list_queue_types";
     mcp.properties := [];
     mcp.required := [] |};
  {| mcp.name := "mikrotik_create_queue_type";
     mcp.properties := [("name", TString); ("kind", TString); ("pcq_rate", TString);
         ("pcq_limit", TString); ("pcq_classifier", TString); ("pcq_total_limit", TString)];
     mcp.required := ["name"; "kind"] |};
  {| mcp.name := "mikrotik_remove_queue_type";
     mcp.properties := [("name", TString)];
     mcp.required := ["name"] |};
  {| mcp.name := "mikrotik_reset_queue_counters";
     mcp.properties := [];
     mcp.required := [] |}
].

Definition get_queue_handlers : gmap string handler := list_to_map [
  ("mikrotik_create_simple_queue", fun args =>
     call (pure queue.mikrotik_create_simple_queue <*> item args "name" <*> item args "target"
         <*> item args "max_limit" <*> get args "burst_limit" <*> get args "burst_threshold"
         <*> get args "burst_time" <*> get args "limit_at" <*> get args "priority"
         <*> get args "queue_type" <*> get args "parent" <*> get args "comment"
         <*> get args "disabled"));
  ("mikrotik_list_simple_queues", fun args =>
     call (pure queue.mikrotik_list_simple_queues <*> get args "name_filter"
         <*> get args "target_filter" <*> get args "disabled_only"));
  ("mikrotik_remove_simple_queue", fun args =>
     call (pure queue.mikrotik_remove_simple_queue <*> item args "name"));
  ("mikrotik_enable_simple_queue", fun args =>
     call (pure queue.mikrotik_enable_simple_queue <*> item args "name"));
  ("mikrotik_disable_simple_queue", fun args =>
     call (pure queue.mikrotik_disable_simple_queue <*> item args "name"));
  ("mikrotik_create_queue_tree", fun args =>
     call (pure queue.mikrotik_create_queue_tree <*> item args "name" <*> item args "parent"
         <*> item args "max_limit" <*> get args "burst_limit" <*> get args "burst_threshold"
         <*> get args "burst_time" <*> get args "limit_at" <*> get args "priority"
         <*> get args "queue_type" <*> get args "packet_mark" <*> get args "comment"
         <*> get args "disabled"));
  ("mikrotik_list_queue_tree", fun args =>
     call (pure queue.mikrotik_list_queue_tree <*> get args "name_filter"
         <*> get args "parent_filter" <*> get args "disabled_only"));
  ("mikrotik_remove_queue_tree", fun args =>
     call (pure queue.mikrotik_remove_queue_tree <*> item args "name"));
  ("mikrotik_list_queue_types", fun args =>
     call (pure queue.mikrotik_list_queue_types));
  ("mikrotik_create_queue_type", fun args =>
     call (pure queue.mikrotik_create_queue_type <*> item args "name" <*> item args "kind"
         <*> get args "pcq_rate" <*> get args "pcq_limit" <*> get args "pcq_classifier"
         <*> get args "pcq_total_limit"));
  ("mikrotik_remove_queue_type", fun args =>
     call (pure queue.mikrotik_remove_queue_type <*> item args "name"));
  ("mikrotik_reset_queue_counters", fun args =>
     call (pure queue.mikrotik_reset_queue_counters))
].

End queue_tools.

(** ** tools/routing_advanced_tools.py *)

Module routing_advanced_tools.

Definition get_routing_advanced_tools : list mcp.Tool := [
  {| mcp.name := "mikrotik_create_bgp_instance";
     mcp.properties := [("name", TString); ("as_number", TInteger); ("router_id", TString);
         ("redistribute_connected", TBoolean); ("redistribute_static", TBoolean);
         ("redistribute_ospf", TBoolean); ("client_to_client_reflection", TBoolean);
         ("comment", TString); ("disabled", TBoolean)];
     mcp.required := ["name"; "as_number"] |};
  {| mcp.name := "mikrotik_list_bgp_instances";
     mcp.properties := [];
     mcp.required := [] |};
  {| mcp.name := "mikrotik_remove_bgp_instance";
     mcp.properties := [("name", TString)];
     mcp.required := ["name"] |};
  {| mcp.name := "mikrotik_add_bgp_peer";
     mcp.properties := [("name", TString); ("instance", TString); ("remote_address", TString);
         ("remote_as", TInteger); ("ttl", TInteger); ("multihop", TBoolean);
         ("route_reflect", TBoolean); ("hold_time", TString); ("tcp_md5_key", TString);
         ("update_source", TString); ("comment", TString); ("disabled", TBoolean)];
     mcp.required := ["name"; "instance"; "remote_address"; "remote_as"] |};
  {| mcp.name := "mikrotik_list_bgp_peers";
     mcp.properties := [];
     mcp.required := [] |};
  {| mcp.name := "mikrotik_remove_bgp_peer";
     mcp.properties := [("name", TString)];
     mcp.required := ["name"] |};
  {| mcp.name := "mikrotik_list_bgp_advertisements";
     mcp.properties := [];
     mcp.required := [] |};
  {| mcp.name := "mikrotik_create_ospf_instance";
     mcp.properties := [("name", TString); ("router_id", TString);
         ("redistribute_connected", TBoolean); ("redistribute_static", TBoolean);
         ("redistribute_bgp", TBoolean); ("comment", TString); ("disabled", TBoolean)];
     mcp.required := ["name"] |};
  {| mcp.name := "mikrotik_list_ospf_instances";
     mcp.properties := [];
     mcp.required := [] |};
  {| mcp.name := "mikrotik_remove_ospf_instance";
     mcp.properties := [("name", TString)];
     mcp.required := ["name"] |};
  {| mcp.name := "mikrotik_add_ospf_area";
     mcp.properties := [("name", TString); ("area_id", TString); ("instance", TString);
         ("type", TString); ("comment", TString); ("disabled", TBoolean)];
     mcp.required := ["name"; "area_id"] |};
  {| mcp.name := "mikrotik_list_ospf_areas";
     mcp.properties := [];
     mcp.required := [] |};
  {| mcp.name := "mikrotik_add_ospf_network";
     mcp.properties := [("network", TString); ("area", TString); ("comment", TString);
         ("disabled", TBoolean)];
     mcp.required := ["network"; "area"] |};
  {| mcp.name := "mikrotik_list_ospf_networks";
     mcp.properties := [];
     mcp.required := [] |};
  {| mcp.name := "mikrotik_list_ospf_neighbors";
     mcp.properties := [];
     mcp.required := [] |};
  {| mcp.name := "mikrotik_add_ospf_interface";
     mcp.properties := [("interface", TString); ("network_type", TString);
         ("priority", TInteger); ("cost", TInteger); ("authentication", TString);
         ("authentication_key", TString); ("comment", TString); ("disabled", TBoolean)];
     mcp.required := ["interface"] |};
  {| mcp.name := "mikrotik_list_ospf_interfaces";
     mcp.properties := [];
     mcp.required := [] |};
  {| mcp.name := "mikrotik_create_rip_instance";
     mcp.properties := [("name", TString); ("redistribute_connected", TBoolean);
         ("redistribute_static", TBoolean); ("redistribute_ospf", TBoolean);
         ("redistribute_bgp", TBoolean); ("comment", TString); ("disabled", TBoolean)];
     mcp.required := ["name"] |};
  {| mcp.name := "mikrotik_list_rip_instances";
     mcp.properties := [];
     mcp.required := [] |};
  {| mcp.name := "mikrotik_remove_rip_instance";
     mcp.properties := [("name", TString)];
     mcp.required := ["name"] |};
  {| mcp.name := "mikrotik_add_rip_network";
     mcp.properties := [("network", TString); ("instance", TString); ("comment", TString);
         ("disabled", TBoolean)];
     mcp.required := ["network"] |};
  {| mcp.name := "mikrotik_list_rip_networks";
     mcp.properties := [];
     mcp.required := [] |};
  {| mcp.name := "mikrotik_add_rip_interface";
     mcp.properties := [("interface", TString); ("receive", TString); ("send", TString);
         ("authentication", TString); ("authentication_key", TString); ("comment", TString);
         ("disabled", TBoolean)];
     mcp.required := ["interface"] |};
  {| mcp.name := "mikrotik_list_rip_interfaces";
     mcp.properties := [];
     mcp.required := [] |};
  {| mcp.name := "mikrotik_list_rip_neighbors";
     mcp.properties := [];
     mcp.required := [] |}
].

Definition get_routing_advanced_handlers : gmap string handler := list_to_map [
  ("mikrotik_create_bgp_instance", fun args =>
     call (pure routing_advanced.mikrotik_create_bgp_instance <*> item args "name"
         <*> item args "as_number" <*> get args "router_id"
         <*> get args "redistribute_connected" <*> get args "redistribute_static"
         <*> get args "redistribute_ospf" <*> get args "client_to_client_reflection"
         <*> get args "comment" <*> get args "disabled"));
  ("mikrotik_list_bgp_instances", fun args =>
     call (pure routing_advanced.mikrotik_list_bgp_instances));
  ("mikrotik_remove_bgp_instance", fun args =>
     call (pure routing_advanced.mikrotik_remove_bgp_instance <*> item args "name"));
  ("mikrotik_add_bgp_peer", fun args =>
     call (pure routing_advanced.mikrotik_add_bgp_peer <*> item args "name"
         <*> item args "instance" <*> item args "remote_address" <*> item args "remote_as"
         <*> get args "ttl" <*> get args "multihop" <*> get args "route_reflect"
         <*> get args "hold_time" <*> get args "tcp_md5_key" <*> get args "update_source"
         <*> get args "comment" <*> get args "disabled"));
  ("mikrotik_list_bgp_peers", fun args =>
     call (pure routing_advanced.mikrotik_list_bgp_peers));
  ("mikrotik_remove_bgp_peer", fun args =>
     call (pure routing_advanced.mikrotik_remove_bgp_peer <*> item args "name"));
  ("mikrotik_list_bgp_advertisements", fun args =>
     call (pure routing_advanced.mikrotik_list_bgp_advertisements));
  ("mikrotik_create_ospf_instance", fun args =>
     call (pure routing_advanced.mikrotik_create_ospf_instance <*> item args "name"
         <*> get args "router_id" <*> get args "redistribute_connected"
         <*> get args "redistribute_static" <*> get args "redistribute_bgp"
         <*> get args "comment" <*> get args "disabled"));
  ("mikrotik_list_ospf_instances", fun args =>
     call (pure routing_advanced.mikrotik_list_ospf_instances));
  ("mikrotik_remove_ospf_instance", fun args =>
     call (pure routing_advanced.mikrotik_remove_ospf_instance <*> item args "name"));
  ("mikrotik_add_ospf_area", fun args =>
     call (pure routing_advanced.mikrotik_add_ospf_area <*> item args "name"
         <*> item args "area_id" <*> get args "instance" <*> get args "type"
         <*> get args "comment" <*> get args "disabled"));
  ("mikrotik_list_ospf_areas", fun args =>
     call (pure routing_advanced.mikrotik_list_ospf_areas));
  ("mikrotik_add_ospf_network", fun args =>
     call (pure routing_advanced.mikrotik_add_ospf_network <*> item args "network"
         <*> item args "area" <*> get args "comment" <*> get args "disabled"));
  ("mikrotik_list_ospf_networks", fun args =>
     call (pure routing_advanced.mikrotik_list_ospf_networks));
  ("mikrotik_list_ospf_neighbors", fun args =>
     call (pure routing_advanced.mikrotik_list_ospf_neighbors));
  ("mikrotik_add_ospf_interface", fun args =>
     call (pure routing_advanced.mikrotik_add_ospf_interface <*> item args "interface"
         <*> get args "network_type" <*> get args "priority" <*> get args "cost"
         <*> get args "authentication" <*> get args "authentication_key" <*> get args "comment"
         <*> get args "disabled"));
  ("mikrotik_list_ospf_interfaces", fun args =>
     call (pure routing_advanced.mikrotik_list_ospf_interfaces));
  ("mikrotik_create_rip_instance", fun args =>
     call (pure routing_advanced.mikrotik_create_rip_instance <*> item args "name"
         <*> get args "redistribute_connected" <*> get args "redistribute_static"
         <*> get args "redistribute_ospf" <*> get args "redistribute_bgp" <*> get args "comment"
         <*> get args "disabled"));
  ("mikrotik_list_rip_instances", fun args =>
     call (pure routing_advanced.mikrotik_list_rip_instances));
  ("mikrotik_remove_rip_instance", fun args =>
     call (pure routing_advanced.mikrotik_remove_rip_instance <*> item args "name"));
  ("mikrotik_add_rip_network", fun args =>
     call (pure routing_advanced.mikrotik_add_rip_network <*> item args "network"
         <*> get args "instance" <*> get args "comment" <*> get args "disabled"));
  ("mikrotik_list_rip_networks", fun args =>
     call (pure routing_advanced.mikrotik_list_rip_networks));
  ("mikrotik_add_rip_interface", fun args =>
     call (pure routing_advanced.mikrotik_add_rip_interface <*> item args "interface"
         <*> get args "receive" <*> get args "send" <*> get args "authentication"
         <*> get args "authentication_key" <*> get args "comment" <*> get args "disabled"));
  ("mikrotik_list_rip_interfaces", fun args =>
     call (pure routing_advanced.mikrotik_list_rip_interfaces));
  ("mikrotik_list_rip_neighbors", fun args =>
     call (pure routing_advanced.mikrotik_list_rip_neighbors))
].

End routing_advanced_tools.

(** ** tools/system_tools.py *)

Module system_tools.

Definition get_system_tools : list mcp.Tool := [
  {| mcp.name := "mikrotik_get_system_resource";
     mcp.properties := [];
     mcp.required := [] |};
  {| mcp.name := "mikrotik_get_system_health";
     mcp.properties := [];
     mcp.required := [] |};
  {| mcp.name := "mikrotik_get_system_identity";
     mcp.properties := [];
     mcp.required := [] |};
  {| mcp.name := "mikrotik_set_system_identity";
     mcp.properties := [("name", TString)];
     mcp.required := ["name"] |};
  {| mcp.name := "mikrotik_get_system_clock";
     mcp.properties := [];
     mcp.required := [] |};
  {| mcp.name := "mikrotik_set_system_clock";
     mcp.properties := [("time_zone_name", TString); ("time_zone_autodetect", TBoolean)];
     mcp.required := [] |};
  {| mcp.name := "mikrotik_get_ntp_client";
     mcp.properties := [];
     mcp.required := [] |};
  {| mcp.name := "mikrotik_set_ntp_client";
     mcp.properties := [("enabled", TBoolean); ("servers", TArray); ("mode", TString)];
     mcp.required := [] |};
  {| mcp.name := "mikrotik_system_reboot";
     mcp.properties := [];
     mcp.required := [] |};
  {| mcp.name := "mikrotik_system_shutdown";
     mcp.properties := [];
     mcp.required := [] |};
  {| mcp.name := "mikrotik_list_packages";
     mcp.properties := [];
     mcp.required := [] |};
  {| mcp.name := "mikrotik_enable_package";
     mcp.properties := [("package_name", TString)];
     mcp.required := ["package_name"] |};
  {| mcp.name := "mikrotik_disable_package";
     mcp.properties := [("package_name", TString)];
     mcp.required := ["package_name"] |};
  {| mcp.name := "mikrotik_list_scheduler";
     mcp.properties := [];
     mcp.required := [] |};
  {| mcp.name := "mikrotik_add_scheduler";
     mcp.properties := [("name", TString); ("on_event", TString); ("start_date", TString);
         ("start_time", TString); ("interval", TString); ("policy", TString);
         ("comment", TString); ("disabled", TBoolean)];
     mcp.required := ["name"; "on_event"] |};
  {| mcp.name := "mikrotik_remove_scheduler";
     mcp.properties := [("name", TString)];
     mcp.required := ["name"] |};
  {| mcp.name := "mikrotik_list_scripts";
     mcp.properties := [];
     mcp.required := [] |};
  {| mcp.name := "mikrotik_add_script";
     mcp.properties := [("name", TString); ("source", TString); ("policy", TString);
         ("comment", TString); ("dont_require_permissions", TBoolean)];
     mcp.required := ["name"; "source"] |};
  {| mcp.name := "mikrotik_run_script";
     mcp.properties := [("name", TString)];
     mcp.required := ["name"] |};
  {| mcp.name := "mikrotik_remove_script";
     mcp.properties := [("name", TString)];
     mcp.required := ["name"] |};
  {| mcp.name := "mikrotik_get_system_routerboard";
     mcp.properties := [];
     mcp.required := [] |};
  {| mcp.name := "mikrotik_get_system_license";
     mcp.properties := [];
     mcp.required := [] |};
  {| mcp.name := "mikrotik_get_system_history";
     mcp.properties := [];
     mcp.required := [] |}
].

Definition get_system_handlers : gmap string handler := list_to_map [
  ("mikrotik_get_system_resource", fun args =>
     call (pure system.mikrotik_get_system_resource));
  ("mikrotik_get_system_health", fun args =>
     call (pure system.mikrotik_get_system_health));
  ("mikrotik_get_system_identity", fun args =>
     call (pure system.mikrotik_get_system_identity));
  ("mikrotik_set_system_identity", fun args =>
     call (pure system.mikrotik_set_system_identity <*> item args "name"));
  ("mikrotik_get_system_clock", fun args =>
     call (pure system.mikrotik_get_system_clock));
  ("mikrotik_set_system_clock", fun args =>
     call (pure system.mikrotik_set_system_clock <*> get args "time_zone_name"
         <*> get args "time_zone_autodetect"));
  ("mikrotik_get_ntp_client", fun args =>
     call (pure system.mikrotik_get_ntp_client));
  ("mikrotik_set_ntp_client", fun args =>
     call (pure system.mikrotik_set_ntp_client <*> get args "enabled" <*> get args "servers"
         <*> get args "mode"));
  ("mikrotik_system_reboot", fun args =>
     call (pure system.mikrotik_system_reboot));
  ("mikrotik_system_shutdown", fun args =>
     call (pure system.mikrotik_system_shutdown));
  ("mikrotik_list_packages", fun args =>
     call (pure system.mikrotik_list_packages));
  ("mikrotik_enable_package", fun args =>
     call (pure system.mikrotik_enable_package <*> item args "package_name"));
  ("mikrotik_disable_package", fun args =>
     call (pure system.mikrotik_disable_package <*> item args "package_name"));
  ("mikrotik_list_scheduler", fun args =>
     call (pure system.mikrotik_list_scheduler));
  ("mikrotik_add_scheduler", fun args =>
     call (pure system.mikrotik_add_scheduler <*> item args "name" <*> item args "on_event"
         <*> get args "start_date" <*> get args "start_time" <*> get args "interval"
         <*> get args "policy" <*> get args "comment" <*> get args "disabled"));
  ("mikrotik_remove_scheduler", fun args =>
     call (pure system.mikrotik_remove_scheduler <*> item args "name"));
  ("mikrotik_list_scripts", fun args =>
     call (pure system.mikrotik_list_scripts));
  ("mikrotik_add_script", fun args =>
     call (pure system.mikrotik_add_script <*> item args "name" <*> item args "source"
         <*> get args "policy" <*> get args "comment" <*> get args "dont_require_permissions"));
  ("mikrotik_run_script", fun args =>
     call (pure system.mikrotik_run_script <*> item args "name"));
  ("mikrotik_remove_script", fun args =>
     call (pure system.mikrotik_remove_script <*> item args "name"));
  ("mikrotik_get_system_routerboard", fun args =>
     call (pure system.mikrotik_get_system_routerboard));
  ("mikrotik_get_system_license", fun args =>
     call (pure system.mikrotik_get_system_license));
  ("mikrotik_get_system_history", fun args =>
     call (pure system.mikrotik_get_system_history))
].

End system_tools.

(** ** The adapters of the repository *)

(** Every tool adapter under [tools/]: its declarations and its dispatch
    table. *)
Definition adapters : list (list mcp.Tool * gmap string handler) := [
  (bridge_tools.get_bridge_tools, bridge_tools.get_bridge_handlers);
  (hotspot_tools.get_hotspot_tools, hotspot_tools.get_hotspot_handlers);
  (pppoe_tools.get_pppoe_tools, pppoe_tools.get_pppoe_handlers);
  (queue_tools.get_queue_tools, queue_tools.get_queue_handlers);
  (routing_advanced_tools.get_routing_advanced_tools,
   routing_advanced_tools.get_routing_advanced_handlers);
  (system_tools.get_system_tools, system_tools.get_system_handlers)
].

(** * Vocabulary of the specification *)

(** [m] submits exactly the command [cmd], whatever the device answers and
    whatever was submitted before. *)
Definition submits {A} (m : Conn A) (cmd : string) : Prop :=
  forall dev log, journal m dev log = (log ++ [cmd])%list.

(** [m] submits nothing. *)
Definition quiet {A} (m : Conn A) : Prop :=
  forall dev log, journal m dev log = log.

(** [needle] occurs in [hay]. *)
Definition Substring (needle hay : string) : Prop :=
  exists pre post, hay = pre ++ needle ++ post.

(** The classification of a raw response, in the words of the
    specification: the lower-cased text contains [failure:] or [error]. *)
Definition failure_classified (raw : string) : Prop :=
  Substring "failure:" (lower raw) \/ Substring "error" (lower raw).

(** An operation classifies its response: it submits one command, returns
    [Failed to <action>: <raw>] exactly when the raw response is classified
    as a failure, and its success string otherwise. *)
Definition classified (op : Conn string) (action : string) (success : string -> string)
  : Prop :=
  forall dev log, exists cmd,
    journal op dev log = (log ++ [cmd])%list /\
    (returned op dev log = "Failed to " ++ action ++ ": " ++ dev log cmd
       <-> failure_classified (dev log cmd)) /\
    (~ failure_classified (dev log cmd) ->
       returned op dev log = success (dev log cmd)).

(** How an attribute value is written after [key=], and under which guard
    the source appends the token.
    - [bare]: a string, unquoted, under [if x:];
    - [quoted]: a string within double quotes, under [if x:];
    - [number]: an integer under [if x is not None:];
    - [nonzero_number]: an integer under [if x:];
    - [flag]: a boolean as [yes] or [no], under [if x is not None:];
    - [joined]: a list of strings joined with commas, within double quotes,
      under [if x:]. *)
Inductive rendering : Type -> Type :=
| bare : rendering string
| quoted : rendering string
| number : rendering Z
| nonzero_number : rendering Z
| flag : rendering bool
| joined : rendering (list string).

Definition value_text {A} (r : rendering A) : A -> string :=
  match r with
  | bare => fun v => v
  | quoted => fun v => dq ++ v ++ dq
  | number => fun v => fmt v
  | nonzero_number => fun v => fmt v
  | flag => fun v : bool => if v then "yes" else "no"
  | joined => fun v => dq ++ String.concat "," v ++ dq
  end.

(** The token [ key=value], with its leading blank. *)
Definition token {A} (key : string) (r : rendering A) (v : A) : string :=
  " " ++ key ++ "=" ++ value_text r v.

(** The supplied values for which the token is appended. *)
Definition effective {A} (r : rendering A) : A -> bool :=
  match r with
  | bare => truthy
  | quoted => truthy
  | number => fun _ => true
  | nonzero_number => truthy
  | flag => fun _ => true
  | joined => truthy
  end.

(** The supplied values that the idiom [if x:] on a string or a list treats
    like an absent parameter: the empty ones. *)
Definition blank {A} (r : rendering A) : A -> bool :=
  match r with
  | bare => fun v => negb (truthy v)
  | quoted => fun v => negb (truthy v)
  | joined => fun v => negb (truthy v)
  | number => fun _ => false
  | nonzero_number => fun _ => false
  | flag => fun _ => false
  end.

(** A command: the path and verb followed by tokens. *)
Definition command (path : string) (tokens : list string) : string :=
  path ++ fold_right String.append EmptyString tokens.

(** The token of an optional parameter is spliced into the command at a
    fixed place: [pre] and [post] do not depend on the parameter. *)
Definition splices {A} (f : option A -> Conn string) (key : string) (r : rendering A)
  : Prop :=
  exists pre post,
    submits (f None) (pre ++ post) /\
    (forall v, effective r v = true -> submits (f (Some v)) (pre ++ token key r v ++ post)) /\
    (forall v, blank r v = true -> submits (f (Some v)) (pre ++ post)).

(** The same, of the text of the command as a function of the parameter. *)
Definition optional_token {A} (r : rendering A) (key : string) (cmd : option A -> string)
  : Prop :=
  exists pre post,
    cmd None = pre ++ post /\
    (forall v, effective r v = true -> cmd (Some v) = pre ++ token key r v ++ post) /\
    (forall v, blank r v = true -> cmd (Some v) = pre ++ post).

(** The claim that every supplied value yields its token. *)
Definition splices_whenever_supplied {A} (f : option A -> Conn string) (key : string)
    (r : rendering A) : Prop :=
  exists pre post,
    submits (f None) (pre ++ post) /\
    (forall v, submits (f (Some v)) (pre ++ token key r v ++ post)).

(** Filters of a listing.  [supplied] is the reading of the specification
    (the argument is not absent); [applies] is the test of the source (the
    argument is true in a condition). *)
Record filter : Type := {
  supplied : bool;
  applies : bool;
  clause : string
}.

Definition quoted_filter (lhs : string) (v : option string) : filter :=
  {| supplied := is_not_None v; applies := truthy v; clause := lhs ++ dq ++ fmt v ++ dq |}.
Definition bare_filter (lhs : string) (v : option string) : filter :=
  {| supplied := is_not_None v; applies := truthy v; clause := lhs ++ fmt v |}.
Definition flag_filter (text : string) (v : option bool) : filter :=
  {| supplied := is_not_None v; applies := truthy v; clause := text |}.

(** The [where] clause of the first filter that passes [test], if any. *)
Fixpoint where_clause (test : filter -> bool) (fs : list filter) : string :=
  match fs with
  | [] => EmptyString
  | f :: rest => if test f then " where " ++ clause f else where_clause test rest
  end.

(** How a removal addresses its target. *)
Inductive target : Type :=
| by_find (key value : string)
| by_id (id : string).

Definition remove_command (menu : string) (t : target) : string :=
  match t with
  | by_find key value => menu ++ " remove [find " ++ key ++ "=" ++ dq ++ value ++ dq ++ "]"
  | by_id id => menu ++ " remove " ++ id
  end.

(** The escaping of a script source, character by character. *)
Definition escape_char (c : ascii) : string :=
  if Ascii.eqb c "034"%char then bs ++ dq
  else if Ascii.eqb c "010"%char then bs ++ "n"
  else String c EmptyString.

Fixpoint escape (s : string) : string :=
  match s with
  | EmptyString => EmptyString
  | String c rest => escape_char c ++ escape rest
  end.

(** The first value bound to [key] in a list of bindings: what a lookup in
    the dictionary built from the list yields. *)
Fixpoint assoc {V} (key : string) (l : list (string * V)) : option V :=
  match l with
  | [] => None
  | (k, v) :: rest => if String.eqb k key then Some v else assoc key rest
  end.

Definition raises {A} (o : outcome A) : Prop := exists key, o = Raised (KeyError key).
Definition no_raise {A} (o : outcome A) : Prop := forall e, o <> Raised e.

(** A handler raises an exception and leaves the journal as it was. *)
Definition raises_untouched (h : handler) (args : gmap string value) : Prop :=
  forall dev log, exists key, h args dev log = (Raised (KeyError key), log).

(** A handler raises no exception. *)
Definition never_raises (h : handler) (args : gmap string value) : Prop :=
  forall dev log, no_raise (fst (h args dev log)).

(** A handler does what the domain call [op] does and returns its result. *)
Definition dispatches (h : handler) (args : gmap string value) (op : Conn string) : Prop :=
  forall dev log, h args dev log = (Returned (returned op dev log), journal op dev log).

(** * Catalogues

    The tables of the specification, one entry per operation (or per
    parameter of an operation), filled in from the sources. *)


(** The operations that classify the response of the connector, with the
    action named in the failure message and the success string: every
    function of the ten modules but [reset_queue_counters], [system_reboot]
    and [system_shutdown]. *)
Inductive classifying_operation : Conn string -> string -> (string -> string) -> Prop :=
| cl_create_bridge name mtu arp arp_timeout ageing_time priority protocol_mode vlan_filtering
    comment disabled :
    classifying_operation (bridge.mikrotik_create_bridge name mtu arp arp_timeout ageing_time
      priority protocol_mode vlan_filtering comment disabled) "create bridge"
      (fun result => "Bridge '" ++ name ++ "' created successfully")
| cl_list_bridges name_filter disabled_only :
    classifying_operation (bridge.mikrotik_list_bridges name_filter disabled_only)
      "list bridges"
      (fun result => "Bridge Interfaces:" ++ nl ++ nl ++ result)
| cl_remove_bridge name :
    classifying_operation (bridge.mikrotik_remove_bridge name) "remove bridge"
      (fun result => "Bridge '" ++ name ++ "' removed successfully")
| cl_add_bridge_port bridge interface pvid priority path_cost edge point_to_point horizon
    comment disabled :
    classifying_operation (bridge.mikrotik_add_bridge_port bridge interface pvid priority
      path_cost edge point_to_point horizon comment disabled) "add bridge port"
      (fun result => "Interface '" ++ interface ++ "' added to bridge '" ++ bridge ++
        "' successfully")
| cl_list_bridge_ports bridge_filter interface_filter :
    classifying_operation (bridge.mikrotik_list_bridge_ports bridge_filter interface_filter)
      "list bridge ports"
      (fun result => "Bridge Ports:" ++ nl ++ nl ++ result)
| cl_remove_bridge_port interface :
    classifying_operation (bridge.mikrotik_remove_bridge_port interface) "remove bridge port"
      (fun result => "Interface '" ++ interface ++ "' removed from bridge successfully")
| cl_add_bridge_vlan bridge vlan_ids tagged untagged comment disabled :
    classifying_operation (bridge.mikrotik_add_bridge_vlan bridge vlan_ids tagged untagged
      comment disabled) "add bridge VLAN"
      (fun result => "Bridge VLAN " ++ vlan_ids ++ " added successfully")
| cl_list_bridge_vlans bridge_filter :
    classifying_operation (bridge.mikrotik_list_bridge_vlans bridge_filter) "list bridge VLANs"
      (fun result => "Bridge VLANs:" ++ nl ++ nl ++ result)
| cl_get_bridge_host bridge_filter :
    classifying_operation (bridge.mikrotik_get_bridge_host bridge_filter) "list bridge hosts"
      (fun result => "Bridge Hosts (MAC Table):" ++ nl ++ nl ++ result)
| cl_list_certificates :
    classifying_operation (certificate.mikrotik_list_certificates) "list certificates"
      (fun result => "Certificates:" ++ nl ++ nl ++ result)
| cl_create_certificate name common_name key_size days_valid key_usage subject_alt_name country
    state locality organization unit :
    classifying_operation (certificate.mikrotik_create_certificate name common_name key_size
      days_valid key_usage subject_alt_name country state locality organization unit)
      "create certificate"
      (fun result => "Certificate '" ++ name ++ "' created successfully")
| cl_sign_certificate name ca :
    classifying_operation (certificate.mikrotik_sign_certificate name ca) "sign certificate"
      (fun result => "Certificate '" ++ name ++ "' signed successfully")
| cl_import_certificate file_name passphrase name :
    classifying_operation (certificate.mikrotik_import_certificate file_name passphrase name)
      "import certificate"
      (fun result => "Certificate imported from '" ++ file_name ++ "' successfully")
| cl_export_certificate name file_name export_passphrase type :
    classifying_operation (certificate.mikrotik_export_certificate name file_name
      export_passphrase type) "export certificate"
      (fun result => "Certificate '" ++ name ++ "' exported successfully")
| cl_remove_certificate name :
    classifying_operation (certificate.mikrotik_remove_certificate name) "remove certificate"
      (fun result => "Certificate '" ++ name ++ "' removed successfully")
| cl_enable_ssl_certificate service certificate :
    classifying_operation (certificate.mikrotik_enable_ssl_certificate service certificate)
      "enable SSL certificate"
      (fun result => "SSL certificate '" ++ certificate ++ "' enabled for service '" ++
        service ++ "' successfully")
| cl_create_hotspot_server name interface address_pool profile disabled :
    classifying_operation (hotspot.mikrotik_create_hotspot_server name interface address_pool
      profile disabled) "create hotspot server"
      (fun result => "Hotspot server '" ++ name ++ "' created successfully")
| cl_list_hotspot_servers :
    classifying_operation (hotspot.mikrotik_list_hotspot_servers) "list hotspot servers"
      (fun result => "Hotspot Servers:" ++ nl ++ nl ++ result)
| cl_list_hotspot_users :
    classifying_operation (hotspot.mikrotik_list_hotspot_users) "list hotspot users"
      (fun result => "Hotspot Users:" ++ nl ++ nl ++ result)
| cl_add_hotspot_user name password profile limit_uptime limit_bytes_total comment disabled :
    classifying_operation (hotspot.mikrotik_add_hotspot_user name password profile limit_uptime
      limit_bytes_total comment disabled) "add hotspot user"
      (fun result => "Hotspot user '" ++ name ++ "' added successfully")
| cl_remove_hotspot_user name :
    classifying_operation (hotspot.mikrotik_remove_hotspot_user name) "remove hotspot user"
      (fun result => "Hotspot user '" ++ name ++ "' removed successfully")
| cl_list_hotspot_active :
    classifying_operation (hotspot.mikrotik_list_hotspot_active) "list active sessions"
      (fun result => "Active Hotspot Sessions:" ++ nl ++ nl ++ result)
| cl_remove_hotspot_active user :
    classifying_operation (hotspot.mikrotik_remove_hotspot_active user) "remove active session"
      (fun result => "Active session for user '" ++ user ++ "' removed successfully")
| cl_create_ipsec_peer name address auth_method secret exchange_mode send_initial_contact
    comment disabled :
    classifying_operation (ipsec.mikrotik_create_ipsec_peer name address auth_method secret
      exchange_mode send_initial_contact comment disabled) "create IPsec peer"
      (fun result => "IPsec peer '" ++ name ++ "' created successfully")
| cl_list_ipsec_peers :
    classifying_operation (ipsec.mikrotik_list_ipsec_peers) "list IPsec peers"
      (fun result => "IPsec Peers:" ++ nl ++ nl ++ result)
| cl_remove_ipsec_peer name :
    classifying_operation (ipsec.mikrotik_remove_ipsec_peer name) "remove IPsec peer"
      (fun result => "IPsec peer '" ++ name ++ "' removed successfully")
| cl_create_ipsec_proposal name auth_algorithms enc_algorithms lifetime pfs_group comment
    disabled :
    classifying_operation (ipsec.mikrotik_create_ipsec_proposal name auth_algorithms
      enc_algorithms lifetime pfs_group comment disabled) "create IPsec proposal"
      (fun result => "IPsec proposal '" ++ name ++ "' created successfully")
| cl_list_ipsec_proposals :
    classifying_operation (ipsec.mikrotik_list_ipsec_proposals) "list IPsec proposals"
      (fun result => "IPsec Proposals:" ++ nl ++ nl ++ result)
| cl_list_ipsec_installed_sa :
    classifying_operation (ipsec.mikrotik_list_ipsec_installed_sa) "list IPsec installed SAs"
      (fun result => "IPsec Installed SAs:" ++ nl ++ nl ++ result)
| cl_create_ipsec_policy src_address dst_address action proposal tunnel comment disabled :
    classifying_operation (ipsec.mikrotik_create_ipsec_policy src_address dst_address action
      proposal tunnel comment disabled) "create IPsec policy"
      (fun result => "IPsec policy created successfully")
| cl_list_ipsec_policies :
    classifying_operation (ipsec.mikrotik_list_ipsec_policies) "list IPsec policies"
      (fun result => "IPsec Policies:" ++ nl ++ nl ++ result)
| cl_add_ipv6_address address interface advertise eui_64 no_dad comment disabled :
    classifying_operation (ipv6.mikrotik_add_ipv6_address address interface advertise eui_64
      no_dad comment disabled) "add IPv6 address"
      (fun result => "IPv6 address " ++ address ++ " added to " ++ interface ++ " successfully")
| cl_list_ipv6_addresses interface_filter disabled_only :
    classifying_operation (ipv6.mikrotik_list_ipv6_addresses interface_filter disabled_only)
      "list IPv6 addresses"
      (fun result => "IPv6 Addresses:" ++ nl ++ nl ++ result)
| cl_remove_ipv6_address address_id :
    classifying_operation (ipv6.mikrotik_remove_ipv6_address address_id) "remove IPv6 address"
      (fun result => "IPv6 address " ++ address_id ++ " removed successfully")
| cl_add_ipv6_route dst_address gateway distance comment disabled :
    classifying_operation (ipv6.mikrotik_add_ipv6_route dst_address gateway distance comment
      disabled) "add IPv6 route"
      (fun result => "IPv6 route to " ++ dst_address ++ " added successfully")
| cl_list_ipv6_routes dst_filter gateway_filter active_only :
    classifying_operation (ipv6.mikrotik_list_ipv6_routes dst_filter gateway_filter active_only)
      "list IPv6 routes"
      (fun result => "IPv6 Routes:" ++ nl ++ nl ++ result)
| cl_remove_ipv6_route route_id :
    classifying_operation (ipv6.mikrotik_remove_ipv6_route route_id) "remove IPv6 route"
      (fun result => "IPv6 route " ++ route_id ++ " removed successfully")
| cl_list_ipv6_neighbors :
    classifying_operation (ipv6.mikrotik_list_ipv6_neighbors) "list IPv6 neighbors"
      (fun result => "IPv6 Neighbors:" ++ nl ++ nl ++ result)
| cl_get_ipv6_settings :
    classifying_operation (ipv6.mikrotik_get_ipv6_settings) "get IPv6 settings"
      (fun result => "IPv6 Settings:" ++ nl ++ nl ++ result)
| cl_set_ipv6_settings accept_redirects accept_router_advertisements forward
    max_neighbor_entries :
    classifying_operation (ipv6.mikrotik_set_ipv6_settings accept_redirects
      accept_router_advertisements forward max_neighbor_entries) "set IPv6 settings"
      (fun result => "IPv6 settings configured successfully")
| cl_create_pppoe_server service_name interface default_profile authentication keepalive_timeout
    max_mtu max_mru one_session_per_host disabled :
    classifying_operation (pppoe.mikrotik_create_pppoe_server service_name interface
      default_profile authentication keepalive_timeout max_mtu max_mru one_session_per_host
      disabled) "create PPPoE server"
      (fun result => "PPPoE server '" ++ service_name ++ "' created successfully")
| cl_list_pppoe_servers :
    classifying_operation (pppoe.mikrotik_list_pppoe_servers) "list PPPoE servers"
      (fun result => "PPPoE Servers:" ++ nl ++ nl ++ result)
| cl_remove_pppoe_server service_name :
    classifying_operation (pppoe.mikrotik_remove_pppoe_server service_name)
      "remove PPPoE server"
      (fun result => "PPPoE server '" ++ service_name ++ "' removed successfully")
| cl_add_ppp_secret name password service profile local_address remote_address routes
    limit_bytes_in limit_bytes_out comment disabled :
    classifying_operation (pppoe.mikrotik_add_ppp_secret name password service profile
      local_address remote_address routes limit_bytes_in limit_bytes_out comment disabled)
      "add PPP secret"
      (fun result => "PPP secret '" ++ name ++ "' added successfully")
| cl_list_ppp_secrets service_filter disabled_only :
    classifying_operation (pppoe.mikrotik_list_ppp_secrets service_filter disabled_only)
      "list PPP secrets"
      (fun result => "PPP Secrets:" ++ nl ++ nl ++ result)
| cl_remove_ppp_secret name :
    classifying_operation (pppoe.mikrotik_remove_ppp_secret name) "remove PPP secret"
      (fun result => "PPP secret '" ++ name ++ "' removed successfully")
| cl_list_ppp_active :
    classifying_operation (pppoe.mikrotik_list_ppp_active) "list active PPP connections"
      (fun result => "Active PPP Connections:" ++ nl ++ nl ++ result)
| cl_disconnect_ppp_active name :
    classifying_operation (pppoe.mikrotik_disconnect_ppp_active name) "disconnect PPP user"
      (fun result => "PPP user '" ++ name ++ "' disconnected successfully")
| cl_create_ppp_profile name local_address remote_address dns_server wins_server use_compression
    use_encryption only_one rate_limit comment :
    classifying_operation (pppoe.mikrotik_create_ppp_profile name local_address remote_address
      dns_server wins_server use_compression use_encryption only_one rate_limit comment)
      "create PPP profile"
      (fun result => "PPP profile '" ++ name ++ "' created successfully")
| cl_list_ppp_profiles :
    classifying_operation (pppoe.mikrotik_list_ppp_profiles) "list PPP profiles"
      (fun result => "PPP Profiles:" ++ nl ++ nl ++ result)
| cl_remove_ppp_profile name :
    classifying_operation (pppoe.mikrotik_remove_ppp_profile name) "remove PPP profile"
      (fun result => "PPP profile '" ++ name ++ "' removed successfully")
| cl_create_pppoe_client name interface user password service_name add_default_route
    use_peer_dns profile comment disabled :
    classifying_operation (pppoe.mikrotik_create_pppoe_client name interface user password
      service_name add_default_route use_peer_dns profile comment disabled)
      "create PPPoE client"
      (fun result => "PPPoE client '" ++ name ++ "' created successfully")
| cl_list_pppoe_clients :
    classifying_operation (pppoe.mikrotik_list_pppoe_clients) "list PPPoE clients"
      (fun result => "PPPoE Clients:" ++ nl ++ nl ++ result)
| cl_remove_pppoe_client name :
    classifying_operation (pppoe.mikrotik_remove_pppoe_client name) "remove PPPoE client"
      (fun result => "PPPoE client '" ++ name ++ "' removed successfully")
| cl_create_simple_queue name target max_limit burst_limit burst_threshold burst_time limit_at
    priority queue_type parent comment disabled :
    classifying_operation (queue.mikrotik_create_simple_queue name target max_limit burst_limit
      burst_threshold burst_time limit_at priority queue_type parent comment disabled)
      "create simple queue"
      (fun result => "Simple queue '" ++ name ++ "' created successfully")
| cl_list_simple_queues name_filter target_filter disabled_only :
    classifying_operation (queue.mikrotik_list_simple_queues name_filter target_filter
      disabled_only) "list simple queues"
      (fun result => "Simple Queues:" ++ nl ++ nl ++ result)
| cl_remove_simple_queue name :
    classifying_operation (queue.mikrotik_remove_simple_queue name) "remove simple queue"
      (fun result => "Simple queue '" ++ name ++ "' removed successfully")
| cl_enable_simple_queue name :
    classifying_operation (queue.mikrotik_enable_simple_queue name) "enable simple queue"
      (fun result => "Simple queue '" ++ name ++ "' enabled successfully")
| cl_disable_simple_queue name :
    classifying_operation (queue.mikrotik_disable_simple_queue name) "disable simple queue"
      (fun result => "Simple queue '" ++ name ++ "' disabled successfully")
| cl_create_queue_tree name parent max_limit burst_limit burst_threshold burst_time limit_at
    priority queue_type packet_mark comment disabled :
    classifying_operation (queue.mikrotik_create_queue_tree name parent max_limit burst_limit
      burst_threshold burst_time limit_at priority queue_type packet_mark comment disabled)
      "create queue tree"
      (fun result => "Queue tree '" ++ name ++ "' created successfully")
| cl_list_queue_tree name_filter parent_filter disabled_only :
    classifying_operation (queue.mikrotik_list_queue_tree name_filter parent_filter
      disabled_only) "list queue tree"
      (fun result => "Queue Tree:" ++ nl ++ nl ++ result)
| cl_remove_queue_tree name :
    classifying_operation (queue.mikrotik_remove_queue_tree name) "remove queue tree"
      (fun result => "Queue tree '" ++ name ++ "' removed successfully")
| cl_list_queue_types :
    classifying_operation (queue.mikrotik_list_queue_types) "list queue types"
      (fun result => "Queue Types:" ++ nl ++ nl ++ result)
| cl_create_queue_type name kind pcq_rate pcq_limit pcq_classifier pcq_total_limit :
    classifying_operation (queue.mikrotik_create_queue_type name kind pcq_rate pcq_limit
      pcq_classifier pcq_total_limit) "create queue type"
      (fun result => "Queue type '" ++ name ++ "' created successfully")
| cl_remove_queue_type name :
    classifying_operation (queue.mikrotik_remove_queue_type name) "remove queue type"
      (fun result => "Queue type '" ++ name ++ "' removed successfully")
| cl_create_bgp_instance name as_number router_id redistribute_connected redistribute_static
    redistribute_ospf client_to_client_reflection comment disabled :
    classifying_operation (routing_advanced.mikrotik_create_bgp_instance name as_number
      router_id redistribute_connected redistribute_static redistribute_ospf
      client_to_client_reflection comment disabled) "create BGP instance"
      (fun result => "BGP instance '" ++ name ++ "' created successfully")
| cl_list_bgp_instances :
    classifying_operation (routing_advanced.mikrotik_list_bgp_instances) "list BGP instances"
      (fun result => "BGP Instances:" ++ nl ++ nl ++ result)
| cl_remove_bgp_instance name :
    classifying_operation (routing_advanced.mikrotik_remove_bgp_instance name)
      "remove BGP instance"
      (fun result => "BGP instance '" ++ name ++ "' removed successfully")
| cl_add_bgp_peer name instance remote_address remote_as ttl multihop route_reflect hold_time
    tcp_md5_key update_source comment disabled :
    classifying_operation (routing_advanced.mikrotik_add_bgp_peer name instance remote_address
      remote_as ttl multihop route_reflect hold_time tcp_md5_key update_source comment disabled)
      "add BGP peer"
      (fun result => "BGP peer '" ++ name ++ "' added successfully")
| cl_list_bgp_peers :
    classifying_operation (routing_advanced.mikrotik_list_bgp_peers) "list BGP peers"
      (fun result => "BGP Peers:" ++ nl ++ nl ++ result)
| cl_remove_bgp_peer name :
    classifying_operation (routing_advanced.mikrotik_remove_bgp_peer name) "remove BGP peer"
      (fun result => "BGP peer '" ++ name ++ "' removed successfully")
| cl_list_bgp_advertisements :
    classifying_operation (routing_advanced.mikrotik_list_bgp_advertisements)
      "list BGP advertisements"
      (fun result => "BGP Advertisements:" ++ nl ++ nl ++ result)
| cl_create_ospf_instance name router_id redistribute_connected redistribute_static
    redistribute_bgp comment disabled :
    classifying_operation (routing_advanced.mikrotik_create_ospf_instance name router_id
      redistribute_connected redistribute_static redistribute_bgp comment disabled)
      "create OSPF instance"
      (fun result => "OSPF instance '" ++ name ++ "' created successfully")
| cl_list_ospf_instances :
    classifying_operation (routing_advanced.mikrotik_list_ospf_instances) "list OSPF instances"
      (fun result => "OSPF Instances:" ++ nl ++ nl ++ result)
| cl_remove_ospf_instance name :
    classifying_operation (routing_advanced.mikrotik_remove_ospf_instance name)
      "remove OSPF instance"
      (fun result => "OSPF instance '" ++ name ++ "' removed successfully")
| cl_add_ospf_area name area_id instance type comment disabled :
    classifying_operation (routing_advanced.mikrotik_add_ospf_area name area_id instance type
      comment disabled) "add OSPF area"
      (fun result => "OSPF area '" ++ name ++ "' added successfully")
| cl_list_ospf_areas :
    classifying_operation (routing_advanced.mikrotik_list_ospf_areas) "list OSPF areas"
      (fun result => "OSPF Areas:" ++ nl ++ nl ++ result)
| cl_add_ospf_network network area comment disabled :
    classifying_operation (routing_advanced.mikrotik_add_ospf_network network area comment
      disabled) "add OSPF network"
      (fun result => "OSPF network '" ++ network ++ "' added successfully")
| cl_list_ospf_networks :
    classifying_operation (routing_advanced.mikrotik_list_ospf_networks) "list OSPF networks"
      (fun result => "OSPF Networks:" ++ nl ++ nl ++ result)
| cl_list_ospf_neighbors :
    classifying_operation (routing_advanced.mikrotik_list_ospf_neighbors) "list OSPF neighbors"
      (fun result => "OSPF Neighbors:" ++ nl ++ nl ++ result)
| cl_add_ospf_interface interface network_type priority cost authentication authentication_key
    comment disabled :
    classifying_operation (routing_advanced.mikrotik_add_ospf_interface interface network_type
      priority cost authentication authentication_key comment disabled) "add OSPF interface"
      (fun result => "OSPF interface '" ++ interface ++ "' added successfully")
| cl_list_ospf_interfaces :
    classifying_operation (routing_advanced.mikrotik_list_ospf_interfaces)
      "list OSPF interfaces"
      (fun result => "OSPF Interfaces:" ++ nl ++ nl ++ result)
| cl_create_rip_instance name redistribute_connected redistribute_static redistribute_ospf
    redistribute_bgp comment disabled :
    classifying_operation (routing_advanced.mikrotik_create_rip_instance name
      redistribute_connected redistribute_static redistribute_ospf redistribute_bgp comment
      disabled) "create RIP instance"
      (fun result => "RIP instance '" ++ name ++ "' created successfully")
| cl_list_rip_instances :
    classifying_operation (routing_advanced.mikrotik_list_rip_instances) "list RIP instances"
      (fun result => "RIP Instances:" ++ nl ++ nl ++ result)
| cl_remove_rip_instance name :
    classifying_operation (routing_advanced.mikrotik_remove_rip_instance name)
      "remove RIP instance"
      (fun result => "RIP instance '" ++ name ++ "' removed successfully")
| cl_add_rip_network network instance comment disabled :
    classifying_operation (routing_advanced.mikrotik_add_rip_network network instance comment
      disabled) "add RIP network"
      (fun result => "RIP network '" ++ network ++ "' added successfully")
| cl_list_rip_networks :
    classifying_operation (routing_advanced.mikrotik_list_rip_networks) "list RIP networks"
      (fun result => "RIP Networks:" ++ nl ++ nl ++ result)
| cl_add_rip_interface interface receive send authentication authentication_key comment disabled
    :
    classifying_operation (routing_advanced.mikrotik_add_rip_interface interface receive send
      authentication authentication_key comment disabled) "add RIP interface"
      (fun result => "RIP interface '" ++ interface ++ "' added successfully")
| cl_list_rip_interfaces :
    classifying_operation (routing_advanced.mikrotik_list_rip_interfaces) "list RIP interfaces"
      (fun result => "RIP Interfaces:" ++ nl ++ nl ++ result)
| cl_list_rip_neighbors :
    classifying_operation (routing_advanced.mikrotik_list_rip_neighbors) "list RIP neighbors"
      (fun result => "RIP Neighbors:" ++ nl ++ nl ++ result)
| cl_get_snmp_settings :
    classifying_operation (snmp.mikrotik_get_snmp_settings) "get SNMP settings"
      (fun result => "SNMP Settings:" ++ nl ++ nl ++ result)
| cl_set_snmp_settings enabled contact location engine_id trap_version trap_community
    trap_generators :
    classifying_operation (snmp.mikrotik_set_snmp_settings enabled contact location engine_id
      trap_version trap_community trap_generators) "set SNMP settings"
      (fun result => "SNMP settings configured successfully")
| cl_list_snmp_communities :
    classifying_operation (snmp.mikrotik_list_snmp_communities) "list SNMP communities"
      (fun result => "SNMP Communities:" ++ nl ++ nl ++ result)
| cl_add_snmp_community name addresses read_access write_access authentication_protocol
    authentication_password encryption_protocol encryption_password comment disabled :
    classifying_operation (snmp.mikrotik_add_snmp_community name addresses read_access
      write_access authentication_protocol authentication_password encryption_protocol
      encryption_password comment disabled) "add SNMP community"
      (fun result => "SNMP community '" ++ name ++ "' added successfully")
| cl_remove_snmp_community name :
    classifying_operation (snmp.mikrotik_remove_snmp_community name) "remove SNMP community"
      (fun result => "SNMP community '" ++ name ++ "' removed successfully")
| cl_get_system_resource :
    classifying_operation (system.mikrotik_get_system_resource) "get system resources"
      (fun result => "System Resources:" ++ nl ++ nl ++ result)
| cl_get_system_health :
    classifying_operation (system.mikrotik_get_system_health) "get system health"
      (fun result => "System Health:" ++ nl ++ nl ++ result)
| cl_get_system_identity :
    classifying_operation (system.mikrotik_get_system_identity) "get system identity"
      (fun result => "System Identity:" ++ nl ++ nl ++ result)
| cl_set_system_identity name :
    classifying_operation (system.mikrotik_set_system_identity name) "set system identity"
      (fun result => "System identity set to '" ++ name ++ "' successfully")
| cl_get_system_clock :
    classifying_operation (system.mikrotik_get_system_clock) "get system clock"
      (fun result => "System Clock:" ++ nl ++ nl ++ result)
| cl_set_system_clock time_zone_name time_zone_autodetect :
    classifying_operation (system.mikrotik_set_system_clock time_zone_name time_zone_autodetect)
      "set system clock"
      (fun result => "System clock configured successfully")
| cl_get_ntp_client :
    classifying_operation (system.mikrotik_get_ntp_client) "get NTP client"
      (fun result => "NTP Client Configuration:" ++ nl ++ nl ++ result)
| cl_set_ntp_client enabled servers mode :
    classifying_operation (system.mikrotik_set_ntp_client enabled servers mode) "set NTP client"
      (fun result => "NTP client configured successfully")
| cl_list_packages :
    classifying_operation (system.mikrotik_list_packages) "list packages"
      (fun result => "Installed Packages:" ++ nl ++ nl ++ result)
| cl_enable_package package_name :
    classifying_operation (system.mikrotik_enable_package package_name) "enable package"
      (fun result => "Package '" ++ package_name ++ "' enabled successfully (reboot required)")
| cl_disable_package package_name :
    classifying_operation (system.mikrotik_disable_package package_name) "disable package"
      (fun result => "Package '" ++ package_name ++ "' disabled successfully (reboot required)")
| cl_list_scheduler :
    classifying_operation (system.mikrotik_list_scheduler) "list scheduler"
      (fun result => "Scheduled Tasks:" ++ nl ++ nl ++ result)
| cl_add_scheduler name on_event start_date start_time interval policy comment disabled :
    classifying_operation (system.mikrotik_add_scheduler name on_event start_date start_time
      interval policy comment disabled) "add scheduler task"
      (fun result => "Scheduler task '" ++ name ++ "' added successfully")
| cl_remove_scheduler name :
    classifying_operation (system.mikrotik_remove_scheduler name) "remove scheduler task"
      (fun result => "Scheduler task '" ++ name ++ "' removed successfully")
| cl_list_scripts :
    classifying_operation (system.mikrotik_list_scripts) "list scripts"
      (fun result => "System Scripts:" ++ nl ++ nl ++ result)
| cl_add_script name source policy comment dont_require_permissions :
    classifying_operation (system.mikrotik_add_script name source policy comment
      dont_require_permissions) "add script"
      (fun result => "Script '" ++ name ++ "' added successfully")
| cl_run_script name :
    classifying_operation (system.mikrotik_run_script name) "run script"
      (fun result => "Script '" ++ name ++ "' executed:" ++ nl ++ nl ++ result)
| cl_remove_script name :
    classifying_operation (system.mikrotik_remove_script name) "remove script"
      (fun result => "Script '" ++ name ++ "' removed successfully")
| cl_get_system_routerboard :
    classifying_operation (system.mikrotik_get_system_routerboard) "get RouterBOARD info"
      (fun result => "RouterBOARD Information:" ++ nl ++ nl ++ result)
| cl_get_system_license :
    classifying_operation (system.mikrotik_get_system_license) "get license info"
      (fun result => "System License:" ++ nl ++ nl ++ result)
| cl_get_system_history :
    classifying_operation (system.mikrotik_get_system_history) "get history"
      (fun result => "System History:" ++ nl ++ nl ++ result).

(** The create and add operations called with their required parameters
    only: the path and verb, and the tokens of the required parameters in
    the order in which the function declares them. *)
Inductive required_only : Conn string -> string -> list string -> Prop :=
| ro_create_bridge name :
    required_only (bridge.mikrotik_create_bridge name None None None None None None None None
      None)
      "/interface bridge add" [token "name" quoted name]
| ro_add_bridge_port bridge interface :
    required_only (bridge.mikrotik_add_bridge_port bridge interface None None None None None
      None None None)
      "/interface bridge port add" [token "bridge" quoted bridge;
        token "interface" quoted interface]
| ro_add_bridge_vlan bridge vlan_ids :
    required_only (bridge.mikrotik_add_bridge_vlan bridge vlan_ids None None None None)
      "/interface bridge vlan add" [token "bridge" quoted bridge;
        token "vlan-ids" bare vlan_ids]
| ro_create_certificate name common_name :
    required_only (certificate.mikrotik_create_certificate name common_name None None None None
      None None None None None)
      "/certificate add" [token "name" quoted name; token "common-name" quoted common_name]
| ro_create_hotspot_server name interface address_pool :
    required_only (hotspot.mikrotik_create_hotspot_server name interface address_pool None None)
      "/ip hotspot add" [token "name" quoted name; token "interface" quoted interface;
        token "address-pool" quoted address_pool]
| ro_add_hotspot_user name password :
    required_only (hotspot.mikrotik_add_hotspot_user name password None None None None None)
      "/ip hotspot user add" [token "name" quoted name; token "password" quoted password]
| ro_create_ipsec_peer name address :
    required_only (ipsec.mikrotik_create_ipsec_peer name address None None None None None None)
      "/ip ipsec peer add" [token "name" quoted name; token "address" quoted address]
| ro_create_ipsec_proposal name :
    required_only (ipsec.mikrotik_create_ipsec_proposal name None None None None None None)
      "/ip ipsec proposal add" [token "name" quoted name]
| ro_create_ipsec_policy src_address dst_address :
    required_only (ipsec.mikrotik_create_ipsec_policy src_address dst_address None None None
      None None)
      "/ip ipsec policy add" [token "src-address" quoted src_address;
        token "dst-address" quoted dst_address]
| ro_add_ipv6_address address interface :
    required_only (ipv6.mikrotik_add_ipv6_address address interface None None None None None)
      "/ipv6 address add" [token "address" quoted address; token "interface" quoted interface]
| ro_add_ipv6_route dst_address gateway :
    required_only (ipv6.mikrotik_add_ipv6_route dst_address gateway None None None)
      "/ipv6 route add" [token "dst-address" quoted dst_address; token "gateway" quoted gateway]
| ro_create_pppoe_server service_name interface :
    required_only (pppoe.mikrotik_create_pppoe_server service_name interface None None None None
      None None None)
      "/interface pppoe-server server add" [token "service-name" quoted service_name;
        token "interface" quoted interface]
| ro_add_ppp_secret name password :
    required_only (pppoe.mikrotik_add_ppp_secret name password None None None None None None
      None None None)
      "/ppp secret add" [token "name" quoted name; token "password" quoted password]
| ro_create_ppp_profile name :
    required_only (pppoe.mikrotik_create_ppp_profile name None None None None None None None
      None None)
      "/ppp profile add" [token "name" quoted name]
| ro_create_pppoe_client name interface user password :
    required_only (pppoe.mikrotik_create_pppoe_client name interface user password None None
      None None None None)
      "/interface pppoe-client add" [token "name" quoted name;
        token "interface" quoted interface; token "user" quoted user;
        token "password" quoted password]
| ro_create_simple_queue name target max_limit :
    required_only (queue.mikrotik_create_simple_queue name target max_limit None None None None
      None None None None None)
      "/queue simple add" [token "name" quoted name; token "target" quoted target;
        token "max-limit" bare max_limit]
| ro_create_queue_tree name parent max_limit :
    required_only (queue.mikrotik_create_queue_tree name parent max_limit None None None None
      None None None None None)
      "/queue tree add" [token "name" quoted name; token "parent" quoted parent;
        token "max-limit" bare max_limit]
| ro_create_queue_type name kind :
    required_only (queue.mikrotik_create_queue_type name kind None None None None)
      "/queue type add" [token "name" quoted name; token "kind" bare kind]
| ro_create_bgp_instance name as_number :
    required_only (routing_advanced.mikrotik_create_bgp_instance name as_number None None None
      None None None None)
      "/routing bgp instance add" [token "name" quoted name; token "as" number as_number]
| ro_add_bgp_peer name instance remote_address remote_as :
    required_only (routing_advanced.mikrotik_add_bgp_peer name instance remote_address remote_as
      None None None None None None None None)
      "/routing bgp peer add" [token "name" quoted name; token "instance" quoted instance;
        token "remote-address" quoted remote_address; token "remote-as" number remote_as]
| ro_create_ospf_instance name :
    required_only (routing_advanced.mikrotik_create_ospf_instance name None None None None None
      None)
      "/routing ospf instance add" [token "name" quoted name]
| ro_add_ospf_area name area_id :
    required_only (routing_advanced.mikrotik_add_ospf_area name area_id None None None None)
      "/routing ospf area add" [token "name" quoted name; token "area-id" quoted area_id]
| ro_add_ospf_network network area :
    required_only (routing_advanced.mikrotik_add_ospf_network network area None None)
      "/routing ospf network add" [token "network" quoted network; token "area" quoted area]
| ro_add_ospf_interface interface :
    required_only (routing_advanced.mikrotik_add_ospf_interface interface None None None None
      None None None)
      "/routing ospf interface add" [token "interface" quoted interface]
| ro_create_rip_instance name :
    required_only (routing_advanced.mikrotik_create_rip_instance name None None None None None
      None)
      "/routing rip instance add" [token "name" quoted name]
| ro_add_rip_network network :
    required_only (routing_advanced.mikrotik_add_rip_network network None None None)
      "/routing rip network add" [token "network" quoted network]
| ro_add_rip_interface interface :
    required_only (routing_advanced.mikrotik_add_rip_interface interface None None None None
      None None)
      "/routing rip interface add" [token "interface" quoted interface]
| ro_add_snmp_community name :
    required_only (snmp.mikrotik_add_snmp_community name None None None None None None None None
      None)
      "/snmp community add" [token "name" quoted name]
| ro_add_scheduler name on_event :
    required_only (system.mikrotik_add_scheduler name on_event None None None None None None)
      "/system scheduler add" [token "name" quoted name; token "on-event" quoted on_event]
| ro_add_script name source :
    required_only (system.mikrotik_add_script name source None None None)
      "/system script add" [token "name" quoted name;
        token "source" quoted (replace nl (bs ++ "n") (replace dq (bs ++ dq) source))].

(** The optional attribute parameters of the operations that write (create,
    add, set, sign, import, export): the operation as a function of that
    parameter, the key and the rendering.  The filters of the listings are
    not attributes; those of the listings with several filters follow in
    [filtered_listing]. *)
Inductive optional_parameter
  : forall A : Type, (option A -> Conn string) -> string -> rendering A -> Prop :=
| op_create_bridge_mtu name arp arp_timeout ageing_time priority protocol_mode vlan_filtering
    comment disabled :
    optional_parameter Z (fun mtu => bridge.mikrotik_create_bridge name mtu arp arp_timeout
      ageing_time priority protocol_mode vlan_filtering comment disabled)
      "mtu" nonzero_number
| op_create_bridge_arp name mtu arp_timeout ageing_time priority protocol_mode vlan_filtering
    comment disabled :
    optional_parameter string (fun arp => bridge.mikrotik_create_bridge name mtu arp arp_timeout
      ageing_time priority protocol_mode vlan_filtering comment disabled)
      "arp" bare
| op_create_bridge_arp_timeout name mtu arp ageing_time priority protocol_mode vlan_filtering
    comment disabled :
    optional_parameter string (fun arp_timeout => bridge.mikrotik_create_bridge name mtu arp
      arp_timeout ageing_time priority protocol_mode vlan_filtering comment disabled)
      "arp-timeout" bare
| op_create_bridge_ageing_time name mtu arp arp_timeout priority protocol_mode vlan_filtering
    comment disabled :
    optional_parameter string (fun ageing_time => bridge.mikrotik_create_bridge name mtu arp
      arp_timeout ageing_time priority protocol_mode vlan_filtering comment disabled)
      "ageing-time" bare
| op_create_bridge_priority name mtu arp arp_timeout ageing_time protocol_mode vlan_filtering
    comment disabled :
    optional_parameter Z (fun priority => bridge.mikrotik_create_bridge name mtu arp arp_timeout
      ageing_time priority protocol_mode vlan_filtering comment disabled)
      "priority" number
| op_create_bridge_protocol_mode name mtu arp arp_timeout ageing_time priority vlan_filtering
    comment disabled :
    optional_parameter string (fun protocol_mode => bridge.mikrotik_create_bridge name mtu arp
      arp_timeout ageing_time priority protocol_mode vlan_filtering comment disabled)
      "protocol-mode" bare
| op_create_bridge_vlan_filtering name mtu arp arp_timeout ageing_time priority protocol_mode
    comment disabled :
    optional_parameter bool (fun vlan_filtering => bridge.mikrotik_create_bridge name mtu arp
      arp_timeout ageing_time priority protocol_mode vlan_filtering comment disabled)
      "vlan-filtering" flag
| op_create_bridge_comment name mtu arp arp_timeout ageing_time priority protocol_mode
    vlan_filtering disabled :
    optional_parameter string (fun comment => bridge.mikrotik_create_bridge name mtu arp
      arp_timeout ageing_time priority protocol_mode vlan_filtering comment disabled)
      "comment" quoted
| op_create_bridge_disabled name mtu arp arp_timeout ageing_time priority protocol_mode
    vlan_filtering comment :
    optional_parameter bool (fun disabled => bridge.mikrotik_create_bridge name mtu arp
      arp_timeout ageing_time priority protocol_mode vlan_filtering comment disabled)
      "disabled" flag
| op_add_bridge_port_pvid bridge interface priority path_cost edge point_to_point horizon
    comment disabled :
    optional_parameter Z (fun pvid => bridge.mikrotik_add_bridge_port bridge interface pvid
      priority path_cost edge point_to_point horizon comment disabled)
      "pvid" number
| op_add_bridge_port_priority bridge interface pvid path_cost edge point_to_point horizon
    comment disabled :
    optional_parameter Z (fun priority => bridge.mikrotik_add_bridge_port bridge interface pvid
      priority path_cost edge point_to_point horizon comment disabled)
      "priority" number
| op_add_bridge_port_path_cost bridge interface pvid priority edge point_to_point horizon
    comment disabled :
    optional_parameter Z (fun path_cost => bridge.mikrotik_add_bridge_port bridge interface pvid
      priority path_cost edge point_to_point horizon comment disabled)
      "path-cost" number
| op_add_bridge_port_edge bridge interface pvid priority path_cost point_to_point horizon
    comment disabled :
    optional_parameter bool (fun edge => bridge.mikrotik_add_bridge_port bridge interface pvid
      priority path_cost edge point_to_point horizon comment disabled)
      "edge" flag
| op_add_bridge_port_point_to_point bridge interface pvid priority path_cost edge horizon
    comment disabled :
    optional_parameter string (fun point_to_point => bridge.mikrotik_add_bridge_port bridge
      interface pvid priority path_cost edge point_to_point horizon comment disabled)
      "point-to-point" bare
| op_add_bridge_port_horizon bridge interface pvid priority path_cost edge point_to_point
    comment disabled :
    optional_parameter Z (fun horizon => bridge.mikrotik_add_bridge_port bridge interface pvid
      priority path_cost edge point_to_point horizon comment disabled)
      "horizon" number
| op_add_bridge_port_comment bridge interface pvid priority path_cost edge point_to_point
    horizon disabled :
    optional_parameter string (fun comment => bridge.mikrotik_add_bridge_port bridge interface
      pvid priority path_cost edge point_to_point horizon comment disabled)
      "comment" quoted
| op_add_bridge_port_disabled bridge interface pvid priority path_cost edge point_to_point
    horizon comment :
    optional_parameter bool (fun disabled => bridge.mikrotik_add_bridge_port bridge interface
      pvid priority path_cost edge point_to_point horizon comment disabled)
      "disabled" flag
| op_add_bridge_vlan_tagged bridge vlan_ids untagged comment disabled :
    optional_parameter string (fun tagged => bridge.mikrotik_add_bridge_vlan bridge vlan_ids
      tagged untagged comment disabled)
      "tagged" quoted
| op_add_bridge_vlan_untagged bridge vlan_ids tagged comment disabled :
    optional_parameter string (fun untagged => bridge.mikrotik_add_bridge_vlan bridge vlan_ids
      tagged untagged comment disabled)
      "untagged" quoted
| op_add_bridge_vlan_comment bridge vlan_ids tagged untagged disabled :
    optional_parameter string (fun comment => bridge.mikrotik_add_bridge_vlan bridge vlan_ids
      tagged untagged comment disabled)
      "comment" quoted
| op_add_bridge_vlan_disabled bridge vlan_ids tagged untagged comment :
    optional_parameter bool (fun disabled => bridge.mikrotik_add_bridge_vlan bridge vlan_ids
      tagged untagged comment disabled)
      "disabled" flag
| op_create_certificate_key_size name common_name days_valid key_usage subject_alt_name country
    state locality organization unit :
    optional_parameter Z (fun key_size => certificate.mikrotik_create_certificate name
      common_name key_size days_valid key_usage subject_alt_name country state locality
      organization unit)
      "key-size" nonzero_number
| op_create_certificate_days_valid name common_name key_size key_usage subject_alt_name country
    state locality organization unit :
    optional_parameter Z (fun days_valid => certificate.mikrotik_create_certificate name
      common_name key_size days_valid key_usage subject_alt_name country state locality
      organization unit)
      "days-valid" nonzero_number
| op_create_certificate_key_usage name common_name key_size days_valid subject_alt_name country
    state locality organization unit :
    optional_parameter string (fun key_usage => certificate.mikrotik_create_certificate name
      common_name key_size days_valid key_usage subject_alt_name country state locality
      organization unit)
      "key-usage" quoted
| op_create_certificate_subject_alt_name name common_name key_size days_valid key_usage country
    state locality organization unit :
    optional_parameter string (fun subject_alt_name => certificate.mikrotik_create_certificate
      name common_name key_size days_valid key_usage subject_alt_name country state locality
      organization unit)
      "subject-alt-name" quoted
| op_create_certificate_country name common_name key_size days_valid key_usage subject_alt_name
    state locality organization unit :
    optional_parameter string (fun country => certificate.mikrotik_create_certificate name
      common_name key_size days_valid key_usage subject_alt_name country state locality
      organization unit)
      "country" quoted
| op_create_certificate_state name common_name key_size days_valid key_usage subject_alt_name
    country locality organization unit :
    optional_parameter string (fun state => certificate.mikrotik_create_certificate name
      common_name key_size days_valid key_usage subject_alt_name country state locality
      organization unit)
      "state" quoted
| op_create_certificate_locality name common_name key_size days_valid key_usage subject_alt_name
    country state organization unit :
    optional_parameter string (fun locality => certificate.mikrotik_create_certificate name
      common_name key_size days_valid key_usage subject_alt_name country state locality
      organization unit)
      "locality" quoted
| op_create_certificate_organization name common_name key_size days_valid key_usage
    subject_alt_name country state locality unit :
    optional_parameter string (fun organization => certificate.mikrotik_create_certificate name
      common_name key_size days_valid key_usage subject_alt_name country state locality
      organization unit)
      "organization" quoted
| op_create_certificate_unit name common_name key_size days_valid key_usage subject_alt_name
    country state locality organization :
    optional_parameter string (fun unit => certificate.mikrotik_create_certificate name
      common_name key_size days_valid key_usage subject_alt_name country state locality
      organization unit)
      "unit" quoted
| op_sign_certificate_ca name :
    optional_parameter string (fun ca => certificate.mikrotik_sign_certificate name ca)
      "ca" quoted
| op_import_certificate_passphrase file_name name :
    optional_parameter string (fun passphrase => certificate.mikrotik_import_certificate
      file_name passphrase name)
      "passphrase" quoted
| op_import_certificate_name file_name passphrase :
    optional_parameter string (fun name => certificate.mikrotik_import_certificate file_name
      passphrase name)
      "name" quoted
| op_export_certificate_file_name name export_passphrase type :
    optional_parameter string (fun file_name => certificate.mikrotik_export_certificate name
      file_name export_passphrase type)
      "file-name" quoted
| op_export_certificate_export_passphrase name file_name type :
    optional_parameter string (fun export_passphrase => certificate.mikrotik_export_certificate
      name file_name export_passphrase type)
      "export-passphrase" quoted
| op_export_certificate_type name file_name export_passphrase :
    optional_parameter string (fun type => certificate.mikrotik_export_certificate name
      file_name export_passphrase type)
      "type" bare
| op_create_hotspot_server_profile name interface address_pool disabled :
    optional_parameter string (fun profile => hotspot.mikrotik_create_hotspot_server name
      interface address_pool profile disabled)
      "profile" quoted
| op_create_hotspot_server_disabled name interface address_pool profile :
    optional_parameter bool (fun disabled => hotspot.mikrotik_create_hotspot_server name
      interface address_pool profile disabled)
      "disabled" flag
| op_add_hotspot_user_profile name password limit_uptime limit_bytes_total comment disabled :
    optional_parameter string (fun profile => hotspot.mikrotik_add_hotspot_user name password
      profile limit_uptime limit_bytes_total comment disabled)
      "profile" quoted
| op_add_hotspot_user_limit_uptime name password profile limit_bytes_total comment disabled :
    optional_parameter string (fun limit_uptime => hotspot.mikrotik_add_hotspot_user name
      password profile limit_uptime limit_bytes_total comment disabled)
      "limit-uptime" bare
| op_add_hotspot_user_limit_bytes_total name password profile limit_uptime comment disabled :
    optional_parameter string (fun limit_bytes_total => hotspot.mikrotik_add_hotspot_user name
      password profile limit_uptime limit_bytes_total comment disabled)
      "limit-bytes-total" bare
| op_add_hotspot_user_comment name password profile limit_uptime limit_bytes_total disabled :
    optional_parameter string (fun comment => hotspot.mikrotik_add_hotspot_user name password
      profile limit_uptime limit_bytes_total comment disabled)
      "comment" quoted
| op_add_hotspot_user_disabled name password profile limit_uptime limit_bytes_total comment :
    optional_parameter bool (fun disabled => hotspot.mikrotik_add_hotspot_user name password
      profile limit_uptime limit_bytes_total comment disabled)
      "disabled" flag
| op_create_ipsec_peer_auth_method name address secret exchange_mode send_initial_contact
    comment disabled :
    optional_parameter string (fun auth_method => ipsec.mikrotik_create_ipsec_peer name address
      auth_method secret exchange_mode send_initial_contact comment disabled)
      "auth-method" bare
| op_create_ipsec_peer_secret name address auth_method exchange_mode send_initial_contact
    comment disabled :
    optional_parameter string (fun secret => ipsec.mikrotik_create_ipsec_peer name address
      auth_method secret exchange_mode send_initial_contact comment disabled)
      "secret" quoted
| op_create_ipsec_peer_exchange_mode name address auth_method secret send_initial_contact
    comment disabled :
    optional_parameter string (fun exchange_mode => ipsec.mikrotik_create_ipsec_peer name
      address auth_method secret exchange_mode send_initial_contact comment disabled)
      "exchange-mode" bare
| op_create_ipsec_peer_send_initial_contact name address auth_method secret exchange_mode
    comment disabled :
    optional_parameter bool (fun send_initial_contact => ipsec.mikrotik_create_ipsec_peer name
      address auth_method secret exchange_mode send_initial_contact comment disabled)
      "send-initial-contact" flag
| op_create_ipsec_peer_comment name address auth_method secret exchange_mode
    send_initial_contact disabled :
    optional_parameter string (fun comment => ipsec.mikrotik_create_ipsec_peer name address
      auth_method secret exchange_mode send_initial_contact comment disabled)
      "comment" quoted
| op_create_ipsec_peer_disabled name address auth_method secret exchange_mode
    send_initial_contact comment :
    optional_parameter bool (fun disabled => ipsec.mikrotik_create_ipsec_peer name address
      auth_method secret exchange_mode send_initial_contact comment disabled)
      "disabled" flag
| op_create_ipsec_proposal_auth_algorithms name enc_algorithms lifetime pfs_group comment
    disabled :
    optional_parameter string (fun auth_algorithms => ipsec.mikrotik_create_ipsec_proposal name
      auth_algorithms enc_algorithms lifetime pfs_group comment disabled)
      "auth-algorithms" bare
| op_create_ipsec_proposal_enc_algorithms name auth_algorithms lifetime pfs_group comment
    disabled :
    optional_parameter string (fun enc_algorithms => ipsec.mikrotik_create_ipsec_proposal name
      auth_algorithms enc_algorithms lifetime pfs_group comment disabled)
      "enc-algorithms" bare
| op_create_ipsec_proposal_lifetime name auth_algorithms enc_algorithms pfs_group comment
    disabled :
    optional_parameter string (fun lifetime => ipsec.mikrotik_create_ipsec_proposal name
      auth_algorithms enc_algorithms lifetime pfs_group comment disabled)
      "lifetime" bare
| op_create_ipsec_proposal_pfs_group name auth_algorithms enc_algorithms lifetime comment
    disabled :
    optional_parameter string (fun pfs_group => ipsec.mikrotik_create_ipsec_proposal name
      auth_algorithms enc_algorithms lifetime pfs_group comment disabled)
      "pfs-group" bare
| op_create_ipsec_proposal_comment name auth_algorithms enc_algorithms lifetime pfs_group
    disabled :
    optional_parameter string (fun comment => ipsec.mikrotik_create_ipsec_proposal name
      auth_algorithms enc_algorithms lifetime pfs_group comment disabled)
      "comment" quoted
| op_create_ipsec_proposal_disabled name auth_algorithms enc_algorithms lifetime pfs_group
    comment :
    optional_parameter bool (fun disabled => ipsec.mikrotik_create_ipsec_proposal name
      auth_algorithms enc_algorithms lifetime pfs_group comment disabled)
      "disabled" flag
| op_create_ipsec_policy_action src_address dst_address proposal tunnel comment disabled :
    optional_parameter string (fun action => ipsec.mikrotik_create_ipsec_policy src_address
      dst_address action proposal tunnel comment disabled)
      "action" bare
| op_create_ipsec_policy_proposal src_address dst_address action tunnel comment disabled :
    optional_parameter string (fun proposal => ipsec.mikrotik_create_ipsec_policy src_address
      dst_address action proposal tunnel comment disabled)
      "proposal" quoted
| op_create_ipsec_policy_tunnel src_address dst_address action proposal comment disabled :
    optional_parameter bool (fun tunnel => ipsec.mikrotik_create_ipsec_policy src_address
      dst_address action proposal tunnel comment disabled)
      "tunnel" flag
| op_create_ipsec_policy_comment src_address dst_address action proposal tunnel disabled :
    optional_parameter string (fun comment => ipsec.mikrotik_create_ipsec_policy src_address
      dst_address action proposal tunnel comment disabled)
      "comment" quoted
| op_create_ipsec_policy_disabled src_address dst_address action proposal tunnel comment :
    optional_parameter bool (fun disabled => ipsec.mikrotik_create_ipsec_policy src_address
      dst_address action proposal tunnel comment disabled)
      "disabled" flag
| op_add_ipv6_address_advertise address interface eui_64 no_dad comment disabled :
    optional_parameter bool (fun advertise => ipv6.mikrotik_add_ipv6_address address interface
      advertise eui_64 no_dad comment disabled)
      "advertise" flag
| op_add_ipv6_address_eui_64 address interface advertise no_dad comment disabled :
    optional_parameter bool (fun eui_64 => ipv6.mikrotik_add_ipv6_address address interface
      advertise eui_64 no_dad comment disabled)
      "eui-64" flag
| op_add_ipv6_address_no_dad address interface advertise eui_64 comment disabled :
    optional_parameter bool (fun no_dad => ipv6.mikrotik_add_ipv6_address address interface
      advertise eui_64 no_dad comment disabled)
      "no-dad" flag
| op_add_ipv6_address_comment address interface advertise eui_64 no_dad disabled :
    optional_parameter string (fun comment => ipv6.mikrotik_add_ipv6_address address interface
      advertise eui_64 no_dad comment disabled)
      "comment" quoted
| op_add_ipv6_address_disabled address interface advertise eui_64 no_dad comment :
    optional_parameter bool (fun disabled => ipv6.mikrotik_add_ipv6_address address interface
      advertise eui_64 no_dad comment disabled)
      "disabled" flag
| op_add_ipv6_route_distance dst_address gateway comment disabled :
    optional_parameter Z (fun distance => ipv6.mikrotik_add_ipv6_route dst_address gateway
      distance comment disabled)
      "distance" number
| op_add_ipv6_route_comment dst_address gateway distance disabled :
    optional_parameter string (fun comment => ipv6.mikrotik_add_ipv6_route dst_address gateway
      distance comment disabled)
      "comment" quoted
| op_add_ipv6_route_disabled dst_address gateway distance comment :
    optional_parameter bool (fun disabled => ipv6.mikrotik_add_ipv6_route dst_address gateway
      distance comment disabled)
      "disabled" flag
| op_set_ipv6_settings_accept_redirects accept_router_advertisements forward
    max_neighbor_entries :
    optional_parameter bool (fun accept_redirects => ipv6.mikrotik_set_ipv6_settings
      accept_redirects accept_router_advertisements forward max_neighbor_entries)
      "accept-redirects" flag
| op_set_ipv6_settings_accept_router_advertisements accept_redirects forward
    max_neighbor_entries :
    optional_parameter bool (fun accept_router_advertisements => ipv6.mikrotik_set_ipv6_settings
      accept_redirects accept_router_advertisements forward max_neighbor_entries)
      "accept-router-advertisements" flag
| op_set_ipv6_settings_forward accept_redirects accept_router_advertisements
    max_neighbor_entries :
    optional_parameter bool (fun forward => ipv6.mikrotik_set_ipv6_settings accept_redirects
      accept_router_advertisements forward max_neighbor_entries)
      "forward" flag
| op_set_ipv6_settings_max_neighbor_entries accept_redirects accept_router_advertisements
    forward :
    optional_parameter Z (fun max_neighbor_entries => ipv6.mikrotik_set_ipv6_settings
      accept_redirects accept_router_advertisements forward max_neighbor_entries)
      "max-neighbor-entries" number
| op_create_pppoe_server_default_profile service_name interface authentication keepalive_timeout
    max_mtu max_mru one_session_per_host disabled :
    optional_parameter string (fun default_profile => pppoe.mikrotik_create_pppoe_server
      service_name interface default_profile authentication keepalive_timeout max_mtu max_mru
      one_session_per_host disabled)
      "default-profile" quoted
| op_create_pppoe_server_authentication service_name interface default_profile keepalive_timeout
    max_mtu max_mru one_session_per_host disabled :
    optional_parameter string (fun authentication => pppoe.mikrotik_create_pppoe_server
      service_name interface default_profile authentication keepalive_timeout max_mtu max_mru
      one_session_per_host disabled)
      "authentication" bare
| op_create_pppoe_server_keepalive_timeout service_name interface default_profile authentication
    max_mtu max_mru one_session_per_host disabled :
    optional_parameter Z (fun keepalive_timeout => pppoe.mikrotik_create_pppoe_server
      service_name interface default_profile authentication keepalive_timeout max_mtu max_mru
      one_session_per_host disabled)
      "keepalive-timeout" number
| op_create_pppoe_server_max_mtu service_name interface default_profile authentication
    keepalive_timeout max_mru one_session_per_host disabled :
    optional_parameter Z (fun max_mtu => pppoe.mikrotik_create_pppoe_server service_name
      interface default_profile authentication keepalive_timeout max_mtu max_mru
      one_session_per_host disabled)
      "max-mtu" number
| op_create_pppoe_server_max_mru service_name interface default_profile authentication
    keepalive_timeout max_mtu one_session_per_host disabled :
    optional_parameter Z (fun max_mru => pppoe.mikrotik_create_pppoe_server service_name
      interface default_profile authentication keepalive_timeout max_mtu max_mru
      one_session_per_host disabled)
      "max-mru" number
| op_create_pppoe_server_one_session_per_host service_name interface default_profile
    authentication keepalive_timeout max_mtu max_mru disabled :
    optional_parameter bool (fun one_session_per_host => pppoe.mikrotik_create_pppoe_server
      service_name interface default_profile authentication keepalive_timeout max_mtu max_mru
      one_session_per_host disabled)
      "one-session-per-host" flag
| op_create_pppoe_server_disabled service_name interface default_profile authentication
    keepalive_timeout max_mtu max_mru one_session_per_host :
    optional_parameter bool (fun disabled => pppoe.mikrotik_create_pppoe_server service_name
      interface default_profile authentication keepalive_timeout max_mtu max_mru
      one_session_per_host disabled)
      "disabled" flag
| op_add_ppp_secret_service name password profile local_address remote_address routes
    limit_bytes_in limit_bytes_out comment disabled :
    optional_parameter string (fun service => pppoe.mikrotik_add_ppp_secret name password
      service profile local_address remote_address routes limit_bytes_in limit_bytes_out comment
      disabled)
      "service" bare
| op_add_ppp_secret_profile name password service local_address remote_address routes
    limit_bytes_in limit_bytes_out comment disabled :
    optional_parameter string (fun profile => pppoe.mikrotik_add_ppp_secret name password
      service profile local_address remote_address routes limit_bytes_in limit_bytes_out comment
      disabled)
      "profile" quoted
| op_add_ppp_secret_local_address name password service profile remote_address routes
    limit_bytes_in limit_bytes_out comment disabled :
    optional_parameter string (fun local_address => pppoe.mikrotik_add_ppp_secret name password
      service profile local_address remote_address routes limit_bytes_in limit_bytes_out comment
      disabled)
      "local-address" quoted
| op_add_ppp_secret_remote_address name password service profile local_address routes
    limit_bytes_in limit_bytes_out comment disabled :
    optional_parameter string (fun remote_address => pppoe.mikrotik_add_ppp_secret name password
      service profile local_address remote_address routes limit_bytes_in limit_bytes_out comment
      disabled)
      "remote-address" quoted
| op_add_ppp_secret_routes name password service profile local_address remote_address
    limit_bytes_in limit_bytes_out comment disabled :
    optional_parameter string (fun routes => pppoe.mikrotik_add_ppp_secret name password service
      profile local_address remote_address routes limit_bytes_in limit_bytes_out comment
      disabled)
      "routes" quoted
| op_add_ppp_secret_limit_bytes_in name password service profile local_address remote_address
    routes limit_bytes_out comment disabled :
    optional_parameter string (fun limit_bytes_in => pppoe.mikrotik_add_ppp_secret name password
      service profile local_address remote_address routes limit_bytes_in limit_bytes_out comment
      disabled)
      "limit-bytes-in" bare
| op_add_ppp_secret_limit_bytes_out name password service profile local_address remote_address
    routes limit_bytes_in comment disabled :
    optional_parameter string (fun limit_bytes_out => pppoe.mikrotik_add_ppp_secret name
      password service profile local_address remote_address routes limit_bytes_in
      limit_bytes_out comment disabled)
      "limit-bytes-out" bare
| op_add_ppp_secret_comment name password service profile local_address remote_address routes
    limit_bytes_in limit_bytes_out disabled :
    optional_parameter string (fun comment => pppoe.mikrotik_add_ppp_secret name password
      service profile local_address remote_address routes limit_bytes_in limit_bytes_out comment
      disabled)
      "comment" quoted
| op_add_ppp_secret_disabled name password service profile local_address remote_address routes
    limit_bytes_in limit_bytes_out comment :
    optional_parameter bool (fun disabled => pppoe.mikrotik_add_ppp_secret name password service
      profile local_address remote_address routes limit_bytes_in limit_bytes_out comment
      disabled)
      "disabled" flag
| op_create_ppp_profile_local_address name remote_address dns_server wins_server use_compression
    use_encryption only_one rate_limit comment :
    optional_parameter string (fun local_address => pppoe.mikrotik_create_ppp_profile name
      local_address remote_address dns_server wins_server use_compression use_encryption
      only_one rate_limit comment)
      "local-address" quoted
| op_create_ppp_profile_remote_address name local_address dns_server wins_server use_compression
    use_encryption only_one rate_limit comment :
    optional_parameter string (fun remote_address => pppoe.mikrotik_create_ppp_profile name
      local_address remote_address dns_server wins_server use_compression use_encryption
      only_one rate_limit comment)
      "remote-address" quoted
| op_create_ppp_profile_dns_server name local_address remote_address wins_server use_compression
    use_encryption only_one rate_limit comment :
    optional_parameter string (fun dns_server => pppoe.mikrotik_create_ppp_profile name
      local_address remote_address dns_server wins_server use_compression use_encryption
      only_one rate_limit comment)
      "dns-server" quoted
| op_create_ppp_profile_wins_server name local_address remote_address dns_server use_compression
    use_encryption only_one rate_limit comment :
    optional_parameter string (fun wins_server => pppoe.mikrotik_create_ppp_profile name
      local_address remote_address dns_server wins_server use_compression use_encryption
      only_one rate_limit comment)
      "wins-server" quoted
| op_create_ppp_profile_use_compression name local_address remote_address dns_server wins_server
    use_encryption only_one rate_limit comment :
    optional_parameter bool (fun use_compression => pppoe.mikrotik_create_ppp_profile name
      local_address remote_address dns_server wins_server use_compression use_encryption
      only_one rate_limit comment)
      "use-compression" flag
| op_create_ppp_profile_use_encryption name local_address remote_address dns_server wins_server
    use_compression only_one rate_limit comment :
    optional_parameter bool (fun use_encryption => pppoe.mikrotik_create_ppp_profile name
      local_address remote_address dns_server wins_server use_compression use_encryption
      only_one rate_limit comment)
      "use-encryption" flag
| op_create_ppp_profile_only_one name local_address remote_address dns_server wins_server
    use_compression use_encryption rate_limit comment :
    optional_parameter bool (fun only_one => pppoe.mikrotik_create_ppp_profile name
      local_address remote_address dns_server wins_server use_compression use_encryption
      only_one rate_limit comment)
      "only-one" flag
| op_create_ppp_profile_rate_limit name local_address remote_address dns_server wins_server
    use_compression use_encryption only_one comment :
    optional_parameter string (fun rate_limit => pppoe.mikrotik_create_ppp_profile name
      local_address remote_address dns_server wins_server use_compression use_encryption
      only_one rate_limit comment)
      "rate-limit" quoted
| op_create_ppp_profile_comment name local_address remote_address dns_server wins_server
    use_compression use_encryption only_one rate_limit :
    optional_parameter string (fun comment => pppoe.mikrotik_create_ppp_profile name
      local_address remote_address dns_server wins_server use_compression use_encryption
      only_one rate_limit comment)
      "comment" quoted
| op_create_pppoe_client_service_name name interface user password add_default_route
    use_peer_dns profile comment disabled :
    optional_parameter string (fun service_name => pppoe.mikrotik_create_pppoe_client name
      interface user password service_name add_default_route use_peer_dns profile comment
      disabled)
      "service-name" quoted
| op_create_pppoe_client_add_default_route name interface user password service_name
    use_peer_dns profile comment disabled :
    optional_parameter bool (fun add_default_route => pppoe.mikrotik_create_pppoe_client name
      interface user password service_name add_default_route use_peer_dns profile comment
      disabled)
      "add-default-route" flag
| op_create_pppoe_client_use_peer_dns name interface user password service_name
    add_default_route profile comment disabled :
    optional_parameter bool (fun use_peer_dns => pppoe.mikrotik_create_pppoe_client name
      interface user password service_name add_default_route use_peer_dns profile comment
      disabled)
      "use-peer-dns" flag
| op_create_pppoe_client_profile name interface user password service_name add_default_route
    use_peer_dns comment disabled :
    optional_parameter string (fun profile => pppoe.mikrotik_create_pppoe_client name interface
      user password service_name add_default_route use_peer_dns profile comment disabled)
      "profile" quoted
| op_create_pppoe_client_comment name interface user password service_name add_default_route
    use_peer_dns profile disabled :
    optional_parameter string (fun comment => pppoe.mikrotik_create_pppoe_client name interface
      user password service_name add_default_route use_peer_dns profile comment disabled)
      "comment" quoted
| op_create_pppoe_client_disabled name interface user password service_name add_default_route
    use_peer_dns profile comment :
    optional_parameter bool (fun disabled => pppoe.mikrotik_create_pppoe_client name interface
      user password service_name add_default_route use_peer_dns profile comment disabled)
      "disabled" flag
| op_create_simple_queue_burst_limit name target max_limit burst_threshold burst_time limit_at
    priority queue_type parent comment disabled :
    optional_parameter string (fun burst_limit => queue.mikrotik_create_simple_queue name target
      max_limit burst_limit burst_threshold burst_time limit_at priority queue_type parent
      comment disabled)
      "burst-limit" bare
| op_create_simple_queue_burst_threshold name target max_limit burst_limit burst_time limit_at
    priority queue_type parent comment disabled :
    optional_parameter string (fun burst_threshold => queue.mikrotik_create_simple_queue name
      target max_limit burst_limit burst_threshold burst_time limit_at priority queue_type
      parent comment disabled)
      "burst-threshold" bare
| op_create_simple_queue_burst_time name target max_limit burst_limit burst_threshold limit_at
    priority queue_type parent comment disabled :
    optional_parameter string (fun burst_time => queue.mikrotik_create_simple_queue name target
      max_limit burst_limit burst_threshold burst_time limit_at priority queue_type parent
      comment disabled)
      "burst-time" bare
| op_create_simple_queue_limit_at name target max_limit burst_limit burst_threshold burst_time
    priority queue_type parent comment disabled :
    optional_parameter string (fun limit_at => queue.mikrotik_create_simple_queue name target
      max_limit burst_limit burst_threshold burst_time limit_at priority queue_type parent
      comment disabled)
      "limit-at" bare
| op_create_simple_queue_priority name target max_limit burst_limit burst_threshold burst_time
    limit_at queue_type parent comment disabled :
    optional_parameter Z (fun priority => queue.mikrotik_create_simple_queue name target
      max_limit burst_limit burst_threshold burst_time limit_at priority queue_type parent
      comment disabled)
      "priority" number
| op_create_simple_queue_queue_type name target max_limit burst_limit burst_threshold burst_time
    limit_at priority parent comment disabled :
    optional_parameter string (fun queue_type => queue.mikrotik_create_simple_queue name target
      max_limit burst_limit burst_threshold burst_time limit_at priority queue_type parent
      comment disabled)
      "queue" bare
| op_create_simple_queue_parent name target max_limit burst_limit burst_threshold burst_time
    limit_at priority queue_type comment disabled :
    optional_parameter string (fun parent => queue.mikrotik_create_simple_queue name target
      max_limit burst_limit burst_threshold burst_time limit_at priority queue_type parent
      comment disabled)
      "parent" quoted
| op_create_simple_queue_comment name target max_limit burst_limit burst_threshold burst_time
    limit_at priority queue_type parent disabled :
    optional_parameter string (fun comment => queue.mikrotik_create_simple_queue name target
      max_limit burst_limit burst_threshold burst_time limit_at priority queue_type parent
      comment disabled)
      "comment" quoted
| op_create_simple_queue_disabled name target max_limit burst_limit burst_threshold burst_time
    limit_at priority queue_type parent comment :
    optional_parameter bool (fun disabled => queue.mikrotik_create_simple_queue name target
      max_limit burst_limit burst_threshold burst_time limit_at priority queue_type parent
      comment disabled)
      "disabled" flag
| op_create_queue_tree_burst_limit name parent max_limit burst_threshold burst_time limit_at
    priority queue_type packet_mark comment disabled :
    optional_parameter string (fun burst_limit => queue.mikrotik_create_queue_tree name parent
      max_limit burst_limit burst_threshold burst_time limit_at priority queue_type packet_mark
      comment disabled)
      "burst-limit" bare
| op_create_queue_tree_burst_threshold name parent max_limit burst_limit burst_time limit_at
    priority queue_type packet_mark comment disabled :
    optional_parameter string (fun burst_threshold => queue.mikrotik_create_queue_tree name
      parent max_limit burst_limit burst_threshold burst_time limit_at priority queue_type
      packet_mark comment disabled)
      "burst-threshold" bare
| op_create_queue_tree_burst_time name parent max_limit burst_limit burst_threshold limit_at
    priority queue_type packet_mark comment disabled :
    optional_parameter string (fun burst_time => queue.mikrotik_create_queue_tree name parent
      max_limit burst_limit burst_threshold burst_time limit_at priority queue_type packet_mark
      comment disabled)
      "burst-time" bare
| op_create_queue_tree_limit_at name parent max_limit burst_limit burst_threshold burst_time
    priority queue_type packet_mark comment disabled :
    optional_parameter string (fun limit_at => queue.mikrotik_create_queue_tree name parent
      max_limit burst_limit burst_threshold burst_time limit_at priority queue_type packet_mark
      comment disabled)
      "limit-at" bare
| op_create_queue_tree_priority name parent max_limit burst_limit burst_threshold burst_time
    limit_at queue_type packet_mark comment disabled :
    optional_parameter Z (fun priority => queue.mikrotik_create_queue_tree name parent max_limit
      burst_limit burst_threshold burst_time limit_at priority queue_type packet_mark comment
      disabled)
      "priority" number
| op_create_queue_tree_queue_type name parent max_limit burst_limit burst_threshold burst_time
    limit_at priority packet_mark comment disabled :
    optional_parameter string (fun queue_type => queue.mikrotik_create_queue_tree name parent
      max_limit burst_limit burst_threshold burst_time limit_at priority queue_type packet_mark
      comment disabled)
      "queue" bare
| op_create_queue_tree_packet_mark name parent max_limit burst_limit burst_threshold burst_time
    limit_at priority queue_type comment disabled :
    optional_parameter string (fun packet_mark => queue.mikrotik_create_queue_tree name parent
      max_limit burst_limit burst_threshold burst_time limit_at priority queue_type packet_mark
      comment disabled)
      "packet-mark" quoted
| op_create_queue_tree_comment name parent max_limit burst_limit burst_threshold burst_time
    limit_at priority queue_type packet_mark disabled :
    optional_parameter string (fun comment => queue.mikrotik_create_queue_tree name parent
      max_limit burst_limit burst_threshold burst_time limit_at priority queue_type packet_mark
      comment disabled)
      "comment" quoted
| op_create_queue_tree_disabled name parent max_limit burst_limit burst_threshold burst_time
    limit_at priority queue_type packet_mark comment :
    optional_parameter bool (fun disabled => queue.mikrotik_create_queue_tree name parent
      max_limit burst_limit burst_threshold burst_time limit_at priority queue_type packet_mark
      comment disabled)
      "disabled" flag
| op_create_queue_type_pcq_rate name kind pcq_limit pcq_classifier pcq_total_limit :
    optional_parameter string (fun pcq_rate => queue.mikrotik_create_queue_type name kind
      pcq_rate pcq_limit pcq_classifier pcq_total_limit)
      "pcq-rate" bare
| op_create_queue_type_pcq_limit name kind pcq_rate pcq_classifier pcq_total_limit :
    optional_parameter string (fun pcq_limit => queue.mikrotik_create_queue_type name kind
      pcq_rate pcq_limit pcq_classifier pcq_total_limit)
      "pcq-limit" bare
| op_create_queue_type_pcq_classifier name kind pcq_rate pcq_limit pcq_total_limit :
    optional_parameter string (fun pcq_classifier => queue.mikrotik_create_queue_type name kind
      pcq_rate pcq_limit pcq_classifier pcq_total_limit)
      "pcq-classifier" bare
| op_create_queue_type_pcq_total_limit name kind pcq_rate pcq_limit pcq_classifier :
    optional_parameter string (fun pcq_total_limit => queue.mikrotik_create_queue_type name kind
      pcq_rate pcq_limit pcq_classifier pcq_total_limit)
      "pcq-total-limit" bare
| op_create_bgp_instance_router_id name as_number redistribute_connected redistribute_static
    redistribute_ospf client_to_client_reflection comment disabled :
    optional_parameter string (fun router_id => routing_advanced.mikrotik_create_bgp_instance
      name as_number router_id redistribute_connected redistribute_static redistribute_ospf
      client_to_client_reflection comment disabled)
      "router-id" quoted
| op_create_bgp_instance_redistribute_connected name as_number router_id redistribute_static
    redistribute_ospf client_to_client_reflection comment disabled :
    optional_parameter bool (fun redistribute_connected =>
      routing_advanced.mikrotik_create_bgp_instance name as_number router_id
      redistribute_connected redistribute_static redistribute_ospf client_to_client_reflection
      comment disabled)
      "redistribute-connected" flag
| op_create_bgp_instance_redistribute_static name as_number router_id redistribute_connected
    redistribute_ospf client_to_client_reflection comment disabled :
    optional_parameter bool (fun redistribute_static =>
      routing_advanced.mikrotik_create_bgp_instance name as_number router_id
      redistribute_connected redistribute_static redistribute_ospf client_to_client_reflection
      comment disabled)
      "redistribute-static" flag
| op_create_bgp_instance_redistribute_ospf name as_number router_id redistribute_connected
    redistribute_static client_to_client_reflection comment disabled :
    optional_parameter bool (fun redistribute_ospf =>
      routing_advanced.mikrotik_create_bgp_instance name as_number router_id
      redistribute_connected redistribute_static redistribute_ospf client_to_client_reflection
      comment disabled)
      "redistribute-ospf" flag
| op_create_bgp_instance_client_to_client_reflection name as_number router_id
    redistribute_connected redistribute_static redistribute_ospf comment disabled :
    optional_parameter bool (fun client_to_client_reflection =>
      routing_advanced.mikrotik_create_bgp_instance name as_number router_id
      redistribute_connected redistribute_static redistribute_ospf client_to_client_reflection
      comment disabled)
      "client-to-client-reflection" flag
| op_create_bgp_instance_comment name as_number router_id redistribute_connected
    redistribute_static redistribute_ospf client_to_client_reflection disabled :
    optional_parameter string (fun comment => routing_advanced.mikrotik_create_bgp_instance name
      as_number router_id redistribute_connected redistribute_static redistribute_ospf
      client_to_client_reflection comment disabled)
      "comment" quoted
| op_create_bgp_instance_disabled name as_number router_id redistribute_connected
    redistribute_static redistribute_ospf client_to_client_reflection comment :
    optional_parameter bool (fun disabled => routing_advanced.mikrotik_create_bgp_instance name
      as_number router_id redistribute_connected redistribute_static redistribute_ospf
      client_to_client_reflection comment disabled)
      "disabled" flag
| op_add_bgp_peer_ttl name instance remote_address remote_as multihop route_reflect hold_time
    tcp_md5_key update_source comment disabled :
    optional_parameter Z (fun ttl => routing_advanced.mikrotik_add_bgp_peer name instance
      remote_address remote_as ttl multihop route_reflect hold_time tcp_md5_key update_source
      comment disabled)
      "ttl" number
| op_add_bgp_peer_multihop name instance remote_address remote_as ttl route_reflect hold_time
    tcp_md5_key update_source comment disabled :
    optional_parameter bool (fun multihop => routing_advanced.mikrotik_add_bgp_peer name
      instance remote_address remote_as ttl multihop route_reflect hold_time tcp_md5_key
      update_source comment disabled)
      "multihop" flag
| op_add_bgp_peer_route_reflect name instance remote_address remote_as ttl multihop hold_time
    tcp_md5_key update_source comment disabled :
    optional_parameter bool (fun route_reflect => routing_advanced.mikrotik_add_bgp_peer name
      instance remote_address remote_as ttl multihop route_reflect hold_time tcp_md5_key
      update_source comment disabled)
      "route-reflect" flag
| op_add_bgp_peer_hold_time name instance remote_address remote_as ttl multihop route_reflect
    tcp_md5_key update_source comment disabled :
    optional_parameter string (fun hold_time => routing_advanced.mikrotik_add_bgp_peer name
      instance remote_address remote_as ttl multihop route_reflect hold_time tcp_md5_key
      update_source comment disabled)
      "hold-time" bare
| op_add_bgp_peer_tcp_md5_key name instance remote_address remote_as ttl multihop route_reflect
    hold_time update_source comment disabled :
    optional_parameter string (fun tcp_md5_key => routing_advanced.mikrotik_add_bgp_peer name
      instance remote_address remote_as ttl multihop route_reflect hold_time tcp_md5_key
      update_source comment disabled)
      "tcp-md5-key" quoted
| op_add_bgp_peer_update_source name instance remote_address remote_as ttl multihop
    route_reflect hold_time tcp_md5_key comment disabled :
    optional_parameter string (fun update_source => routing_advanced.mikrotik_add_bgp_peer name
      instance remote_address remote_as ttl multihop route_reflect hold_time tcp_md5_key
      update_source comment disabled)
      "update-source" quoted
| op_add_bgp_peer_comment name instance remote_address remote_as ttl multihop route_reflect
    hold_time tcp_md5_key update_source disabled :
    optional_parameter string (fun comment => routing_advanced.mikrotik_add_bgp_peer name
      instance remote_address remote_as ttl multihop route_reflect hold_time tcp_md5_key
      update_source comment disabled)
      "comment" quoted
| op_add_bgp_peer_disabled name instance remote_address remote_as ttl multihop route_reflect
    hold_time tcp_md5_key update_source comment :
    optional_parameter bool (fun disabled => routing_advanced.mikrotik_add_bgp_peer name
      instance remote_address remote_as ttl multihop route_reflect hold_time tcp_md5_key
      update_source comment disabled)
      "disabled" flag
| op_create_ospf_instance_router_id name redistribute_connected redistribute_static
    redistribute_bgp comment disabled :
    optional_parameter string (fun router_id => routing_advanced.mikrotik_create_ospf_instance
      name router_id redistribute_connected redistribute_static redistribute_bgp comment
      disabled)
      "router-id" quoted
| op_create_ospf_instance_redistribute_connected name router_id redistribute_static
    redistribute_bgp comment disabled :
    optional_parameter bool (fun redistribute_connected =>
      routing_advanced.mikrotik_create_ospf_instance name router_id redistribute_connected
      redistribute_static redistribute_bgp comment disabled)
      "redistribute-connected" flag
| op_create_ospf_instance_redistribute_static name router_id redistribute_connected
    redistribute_bgp comment disabled :
    optional_parameter bool (fun redistribute_static =>
      routing_advanced.mikrotik_create_ospf_instance name router_id redistribute_connected
      redistribute_static redistribute_bgp comment disabled)
      "redistribute-static" flag
| op_create_ospf_instance_redistribute_bgp name router_id redistribute_connected
    redistribute_static comment disabled :
    optional_parameter bool (fun redistribute_bgp =>
      routing_advanced.mikrotik_create_ospf_instance name router_id redistribute_connected
      redistribute_static redistribute_bgp comment disabled)
      "redistribute-bgp" flag
| op_create_ospf_instance_comment name router_id redistribute_connected redistribute_static
    redistribute_bgp disabled :
    optional_parameter string (fun comment => routing_advanced.mikrotik_create_ospf_instance
      name router_id redistribute_connected redistribute_static redistribute_bgp comment
      disabled)
      "comment" quoted
| op_create_ospf_instance_disabled name router_id redistribute_connected redistribute_static
    redistribute_bgp comment :
    optional_parameter bool (fun disabled => routing_advanced.mikrotik_create_ospf_instance name
      router_id redistribute_connected redistribute_static redistribute_bgp comment disabled)
      "disabled" flag
| op_add_ospf_area_instance name area_id type comment disabled :
    optional_parameter string (fun instance => routing_advanced.mikrotik_add_ospf_area name
      area_id instance type comment disabled)
      "instance" quoted
| op_add_ospf_area_type name area_id instance comment disabled :
    optional_parameter string (fun type => routing_advanced.mikrotik_add_ospf_area name area_id
      instance type comment disabled)
      "type" bare
| op_add_ospf_area_comment name area_id instance type disabled :
    optional_parameter string (fun comment => routing_advanced.mikrotik_add_ospf_area name
      area_id instance type comment disabled)
      "comment" quoted
| op_add_ospf_area_disabled name area_id instance type comment :
    optional_parameter bool (fun disabled => routing_advanced.mikrotik_add_ospf_area name
      area_id instance type comment disabled)
      "disabled" flag
| op_add_ospf_network_comment network area disabled :
    optional_parameter string (fun comment => routing_advanced.mikrotik_add_ospf_network network
      area comment disabled)
      "comment" quoted
| op_add_ospf_network_disabled network area comment :
    optional_parameter bool (fun disabled => routing_advanced.mikrotik_add_ospf_network network
      area comment disabled)
      "disabled" flag
| op_add_ospf_interface_network_type interface priority cost authentication authentication_key
    comment disabled :
    optional_parameter string (fun network_type => routing_advanced.mikrotik_add_ospf_interface
      interface network_type priority cost authentication authentication_key comment disabled)
      "network-type" bare
| op_add_ospf_interface_priority interface network_type cost authentication authentication_key
    comment disabled :
    optional_parameter Z (fun priority => routing_advanced.mikrotik_add_ospf_interface interface
      network_type priority cost authentication authentication_key comment disabled)
      "priority" number
| op_add_ospf_interface_cost interface network_type priority authentication authentication_key
    comment disabled :
    optional_parameter Z (fun cost => routing_advanced.mikrotik_add_ospf_interface interface
      network_type priority cost authentication authentication_key comment disabled)
      "cost" number
| op_add_ospf_interface_authentication interface network_type priority cost authentication_key
    comment disabled :
    optional_parameter string (fun authentication =>
      routing_advanced.mikrotik_add_ospf_interface interface network_type priority cost
      authentication authentication_key comment disabled)
      "authentication" bare
| op_add_ospf_interface_authentication_key interface network_type priority cost authentication
    comment disabled :
    optional_parameter string (fun authentication_key =>
      routing_advanced.mikrotik_add_ospf_interface interface network_type priority cost
      authentication authentication_key comment disabled)
      "authentication-key" quoted
| op_add_ospf_interface_comment interface network_type priority cost authentication
    authentication_key disabled :
    optional_parameter string (fun comment => routing_advanced.mikrotik_add_ospf_interface
      interface network_type priority cost authentication authentication_key comment disabled)
      "comment" quoted
| op_add_ospf_interface_disabled interface network_type priority cost authentication
    authentication_key comment :
    optional_parameter bool (fun disabled => routing_advanced.mikrotik_add_ospf_interface
      interface network_type priority cost authentication authentication_key comment disabled)
      "disabled" flag
| op_create_rip_instance_redistribute_connected name redistribute_static redistribute_ospf
    redistribute_bgp comment disabled :
    optional_parameter bool (fun redistribute_connected =>
      routing_advanced.mikrotik_create_rip_instance name redistribute_connected
      redistribute_static redistribute_ospf redistribute_bgp comment disabled)
      "redistribute-connected" flag
| op_create_rip_instance_redistribute_static name redistribute_connected redistribute_ospf
    redistribute_bgp comment disabled :
    optional_parameter bool (fun redistribute_static =>
      routing_advanced.mikrotik_create_rip_instance name redistribute_connected
      redistribute_static redistribute_ospf redistribute_bgp comment disabled)
      "redistribute-static" flag
| op_create_rip_instance_redistribute_ospf name redistribute_connected redistribute_static
    redistribute_bgp comment disabled :
    optional_parameter bool (fun redistribute_ospf =>
      routing_advanced.mikrotik_create_rip_instance name redistribute_connected
      redistribute_static redistribute_ospf redistribute_bgp comment disabled)
      "redistribute-ospf" flag
| op_create_rip_instance_redistribute_bgp name redistribute_connected redistribute_static
    redistribute_ospf comment disabled :
    optional_parameter bool (fun redistribute_bgp =>
      routing_advanced.mikrotik_create_rip_instance name redistribute_connected
      redistribute_static redistribute_ospf redistribute_bgp comment disabled)
      "redistribute-bgp" flag
| op_create_rip_instance_comment name redistribute_connected redistribute_static
    redistribute_ospf redistribute_bgp disabled :
    optional_parameter string (fun comment => routing_advanced.mikrotik_create_rip_instance name
      redistribute_connected redistribute_static redistribute_ospf redistribute_bgp comment
      disabled)
      "comment" quoted
| op_create_rip_instance_disabled name redistribute_connected redistribute_static
    redistribute_ospf redistribute_bgp comment :
    optional_parameter bool (fun disabled => routing_advanced.mikrotik_create_rip_instance name
      redistribute_connected redistribute_static redistribute_ospf redistribute_bgp comment
      disabled)
      "disabled" flag
| op_add_rip_network_instance network comment disabled :
    optional_parameter string (fun instance => routing_advanced.mikrotik_add_rip_network network
      instance comment disabled)
      "instance" quoted
| op_add_rip_network_comment network instance disabled :
    optional_parameter string (fun comment => routing_advanced.mikrotik_add_rip_network network
      instance comment disabled)
      "comment" quoted
| op_add_rip_network_disabled network instance comment :
    optional_parameter bool (fun disabled => routing_advanced.mikrotik_add_rip_network network
      instance comment disabled)
      "disabled" flag
| op_add_rip_interface_receive interface send authentication authentication_key comment disabled
    :
    optional_parameter string (fun receive => routing_advanced.mikrotik_add_rip_interface
      interface receive send authentication authentication_key comment disabled)
      "receive" bare
| op_add_rip_interface_send interface receive authentication authentication_key comment disabled
    :
    optional_parameter string (fun send => routing_advanced.mikrotik_add_rip_interface interface
      receive send authentication authentication_key comment disabled)
      "send" bare
| op_add_rip_interface_authentication interface receive send authentication_key comment disabled
    :
    optional_parameter string (fun authentication => routing_advanced.mikrotik_add_rip_interface
      interface receive send authentication authentication_key comment disabled)
      "authentication" bare
| op_add_rip_interface_authentication_key interface receive send authentication comment disabled
    :
    optional_parameter string (fun authentication_key =>
      routing_advanced.mikrotik_add_rip_interface interface receive send authentication
      authentication_key comment disabled)
      "authentication-key" quoted
| op_add_rip_interface_comment interface receive send authentication authentication_key disabled
    :
    optional_parameter string (fun comment => routing_advanced.mikrotik_add_rip_interface
      interface receive send authentication authentication_key comment disabled)
      "comment" quoted
| op_add_rip_interface_disabled interface receive send authentication authentication_key comment
    :
    optional_parameter bool (fun disabled => routing_advanced.mikrotik_add_rip_interface
      interface receive send authentication authentication_key comment disabled)
      "disabled" flag
| op_set_snmp_settings_enabled contact location engine_id trap_version trap_community
    trap_generators :
    optional_parameter bool (fun enabled => snmp.mikrotik_set_snmp_settings enabled contact
      location engine_id trap_version trap_community trap_generators)
      "enabled" flag
| op_set_snmp_settings_contact enabled location engine_id trap_version trap_community
    trap_generators :
    optional_parameter string (fun contact => snmp.mikrotik_set_snmp_settings enabled contact
      location engine_id trap_version trap_community trap_generators)
      "contact" quoted
| op_set_snmp_settings_location enabled contact engine_id trap_version trap_community
    trap_generators :
    optional_parameter string (fun location => snmp.mikrotik_set_snmp_settings enabled contact
      location engine_id trap_version trap_community trap_generators)
      "location" quoted
| op_set_snmp_settings_engine_id enabled contact location trap_version trap_community
    trap_generators :
    optional_parameter string (fun engine_id => snmp.mikrotik_set_snmp_settings enabled contact
      location engine_id trap_version trap_community trap_generators)
      "engine-id" quoted
| op_set_snmp_settings_trap_version enabled contact location engine_id trap_community
    trap_generators :
    optional_parameter Z (fun trap_version => snmp.mikrotik_set_snmp_settings enabled contact
      location engine_id trap_version trap_community trap_generators)
      "trap-version" number
| op_set_snmp_settings_trap_community enabled contact location engine_id trap_version
    trap_generators :
    optional_parameter string (fun trap_community => snmp.mikrotik_set_snmp_settings enabled
      contact location engine_id trap_version trap_community trap_generators)
      "trap-community" quoted
| op_set_snmp_settings_trap_generators enabled contact location engine_id trap_version
    trap_community :
    optional_parameter string (fun trap_generators => snmp.mikrotik_set_snmp_settings enabled
      contact location engine_id trap_version trap_community trap_generators)
      "trap-generators" quoted
| op_add_snmp_community_addresses name read_access write_access authentication_protocol
    authentication_password encryption_protocol encryption_password comment disabled :
    optional_parameter string (fun addresses => snmp.mikrotik_add_snmp_community name addresses
      read_access write_access authentication_protocol authentication_password
      encryption_protocol encryption_password comment disabled)
      "addresses" quoted
| op_add_snmp_community_read_access name addresses write_access authentication_protocol
    authentication_password encryption_protocol encryption_password comment disabled :
    optional_parameter bool (fun read_access => snmp.mikrotik_add_snmp_community name addresses
      read_access write_access authentication_protocol authentication_password
      encryption_protocol encryption_password comment disabled)
      "read-access" flag
| op_add_snmp_community_write_access name addresses read_access authentication_protocol
    authentication_password encryption_protocol encryption_password comment disabled :
    optional_parameter bool (fun write_access => snmp.mikrotik_add_snmp_community name addresses
      read_access write_access authentication_protocol authentication_password
      encryption_protocol encryption_password comment disabled)
      "write-access" flag
| op_add_snmp_community_authentication_protocol name addresses read_access write_access
    authentication_password encryption_protocol encryption_password comment disabled :
    optional_parameter string (fun authentication_protocol => snmp.mikrotik_add_snmp_community
      name addresses read_access write_access authentication_protocol authentication_password
      encryption_protocol encryption_password comment disabled)
      "authentication-protocol" bare
| op_add_snmp_community_authentication_password name addresses read_access write_access
    authentication_protocol encryption_protocol encryption_password comment disabled :
    optional_parameter string (fun authentication_password => snmp.mikrotik_add_snmp_community
      name addresses read_access write_access authentication_protocol authentication_password
      encryption_protocol encryption_password comment disabled)
      "authentication-password" quoted
| op_add_snmp_community_encryption_protocol name addresses read_access write_access
    authentication_protocol authentication_password encryption_password comment disabled :
    optional_parameter string (fun encryption_protocol => snmp.mikrotik_add_snmp_community name
      addresses read_access write_access authentication_protocol authentication_password
      encryption_protocol encryption_password comment disabled)
      "encryption-protocol" bare
| op_add_snmp_community_encryption_password name addresses read_access write_access
    authentication_protocol authentication_password encryption_protocol comment disabled :
    optional_parameter string (fun encryption_password => snmp.mikrotik_add_snmp_community name
      addresses read_access write_access authentication_protocol authentication_password
      encryption_protocol encryption_password comment disabled)
      "encryption-password" quoted
| op_add_snmp_community_comment name addresses read_access write_access authentication_protocol
    authentication_password encryption_protocol encryption_password disabled :
    optional_parameter string (fun comment => snmp.mikrotik_add_snmp_community name addresses
      read_access write_access authentication_protocol authentication_password
      encryption_protocol encryption_password comment disabled)
      "comment" quoted
| op_add_snmp_community_disabled name addresses read_access write_access authentication_protocol
    authentication_password encryption_protocol encryption_password comment :
    optional_parameter bool (fun disabled => snmp.mikrotik_add_snmp_community name addresses
      read_access write_access authentication_protocol authentication_password
      encryption_protocol encryption_password comment disabled)
      "disabled" flag
| op_set_system_clock_time_zone_name time_zone_autodetect :
    optional_parameter string (fun time_zone_name => system.mikrotik_set_system_clock
      time_zone_name time_zone_autodetect)
      "time-zone-name" quoted
| op_set_system_clock_time_zone_autodetect time_zone_name :
    optional_parameter bool (fun time_zone_autodetect => system.mikrotik_set_system_clock
      time_zone_name time_zone_autodetect)
      "time-zone-autodetect" flag
| op_set_ntp_client_enabled servers mode :
    optional_parameter bool (fun enabled => system.mikrotik_set_ntp_client enabled servers mode)
      "enabled" flag
| op_set_ntp_client_servers enabled mode :
    optional_parameter (list string) (fun servers => system.mikrotik_set_ntp_client enabled
      servers mode)
      "servers" joined
| op_set_ntp_client_mode enabled servers :
    optional_parameter string (fun mode => system.mikrotik_set_ntp_client enabled servers mode)
      "mode" bare
| op_add_scheduler_start_date name on_event start_time interval policy comment disabled :
    optional_parameter string (fun start_date => system.mikrotik_add_scheduler name on_event
      start_date start_time interval policy comment disabled)
      "start-date" quoted
| op_add_scheduler_start_time name on_event start_date interval policy comment disabled :
    optional_parameter string (fun start_time => system.mikrotik_add_scheduler name on_event
      start_date start_time interval policy comment disabled)
      "start-time" quoted
| op_add_scheduler_interval name on_event start_date start_time policy comment disabled :
    optional_parameter string (fun interval => system.mikrotik_add_scheduler name on_event
      start_date start_time interval policy comment disabled)
      "interval" bare
| op_add_scheduler_policy name on_event start_date start_time interval comment disabled :
    optional_parameter string (fun policy => system.mikrotik_add_scheduler name on_event
      start_date start_time interval policy comment disabled)
      "policy" bare
| op_add_scheduler_comment name on_event start_date start_time interval policy disabled :
    optional_parameter string (fun comment => system.mikrotik_add_scheduler name on_event
      start_date start_time interval policy comment disabled)
      "comment" quoted
| op_add_scheduler_disabled name on_event start_date start_time interval policy comment :
    optional_parameter bool (fun disabled => system.mikrotik_add_scheduler name on_event
      start_date start_time interval policy comment disabled)
      "disabled" flag
| op_add_script_policy name source comment dont_require_permissions :
    optional_parameter string (fun policy => system.mikrotik_add_script name source policy
      comment dont_require_permissions)
      "policy" bare
| op_add_script_comment name source policy dont_require_permissions :
    optional_parameter string (fun comment => system.mikrotik_add_script name source policy
      comment dont_require_permissions)
      "comment" quoted
| op_add_script_dont_require_permissions name source policy comment :
    optional_parameter bool (fun dont_require_permissions => system.mikrotik_add_script name
      source policy comment dont_require_permissions)
      "dont-require-permissions" flag.

(** The listings that accept more than one filter, with their filters in
    the order of the [if]/[elif] chain. *)
Inductive filtered_listing : Conn string -> string -> list filter -> Prop :=
| fl_list_bridges name_filter disabled_only :
    filtered_listing (bridge.mikrotik_list_bridges name_filter disabled_only)
      "/interface bridge print" [quoted_filter "name~" name_filter;
        flag_filter "disabled=yes" disabled_only]
| fl_list_bridge_ports bridge_filter interface_filter :
    filtered_listing (bridge.mikrotik_list_bridge_ports bridge_filter interface_filter)
      "/interface bridge port print" [quoted_filter "bridge~" bridge_filter;
        quoted_filter "interface~" interface_filter]
| fl_list_ipv6_addresses interface_filter disabled_only :
    filtered_listing (ipv6.mikrotik_list_ipv6_addresses interface_filter disabled_only)
      "/ipv6 address print" [quoted_filter "interface~" interface_filter;
        flag_filter "disabled=yes" disabled_only]
| fl_list_ipv6_routes dst_filter gateway_filter active_only :
    filtered_listing (ipv6.mikrotik_list_ipv6_routes dst_filter gateway_filter active_only)
      "/ipv6 route print" [quoted_filter "dst-address~" dst_filter;
        quoted_filter "gateway~" gateway_filter; flag_filter "active=yes" active_only]
| fl_list_ppp_secrets service_filter disabled_only :
    filtered_listing (pppoe.mikrotik_list_ppp_secrets service_filter disabled_only)
      "/ppp secret print" [bare_filter "service=" service_filter;
        flag_filter "disabled=yes" disabled_only]
| fl_list_simple_queues name_filter target_filter disabled_only :
    filtered_listing (queue.mikrotik_list_simple_queues name_filter target_filter disabled_only)
      "/queue simple print" [quoted_filter "name~" name_filter;
        quoted_filter "target~" target_filter; flag_filter "disabled=yes" disabled_only]
| fl_list_queue_tree name_filter parent_filter disabled_only :
    filtered_listing (queue.mikrotik_list_queue_tree name_filter parent_filter disabled_only)
      "/queue tree print" [quoted_filter "name~" name_filter;
        quoted_filter "parent~" parent_filter; flag_filter "disabled=yes" disabled_only].

(** The [remove_*] operations: the menu and the way the target is
    addressed. *)
Inductive remove_operation : Conn string -> string -> target -> Prop :=
| rm_remove_bridge name :
    remove_operation (bridge.mikrotik_remove_bridge name) "/interface bridge"
      (by_find "name" name)
| rm_remove_bridge_port interface :
    remove_operation (bridge.mikrotik_remove_bridge_port interface) "/interface bridge port"
      (by_find "interface" interface)
| rm_remove_certificate name :
    remove_operation (certificate.mikrotik_remove_certificate name) "/certificate"
      (by_find "name" name)
| rm_remove_hotspot_user name :
    remove_operation (hotspot.mikrotik_remove_hotspot_user name) "/ip hotspot user"
      (by_find "name" name)
| rm_remove_hotspot_active user :
    remove_operation (hotspot.mikrotik_remove_hotspot_active user) "/ip hotspot active"
      (by_find "user" user)
| rm_remove_ipsec_peer name :
    remove_operation (ipsec.mikrotik_remove_ipsec_peer name) "/ip ipsec peer"
      (by_find "name" name)
| rm_remove_ipv6_address address_id :
    remove_operation (ipv6.mikrotik_remove_ipv6_address address_id) "/ipv6 address"
      (by_id address_id)
| rm_remove_ipv6_route route_id :
    remove_operation (ipv6.mikrotik_remove_ipv6_route route_id) "/ipv6 route" (by_id route_id)
| rm_remove_pppoe_server service_name :
    remove_operation (pppoe.mikrotik_remove_pppoe_server service_name)
      "/interface pppoe-server server" (by_find "service-name" service_name)
| rm_remove_ppp_secret name :
    remove_operation (pppoe.mikrotik_remove_ppp_secret name) "/ppp secret" (by_find "name" name)
| rm_remove_ppp_profile name :
    remove_operation (pppoe.mikrotik_remove_ppp_profile name) "/ppp profile"
      (by_find "name" name)
| rm_remove_pppoe_client name :
    remove_operation (pppoe.mikrotik_remove_pppoe_client name) "/interface pppoe-client"
      (by_find "name" name)
| rm_remove_simple_queue name :
    remove_operation (queue.mikrotik_remove_simple_queue name) "/queue simple"
      (by_find "name" name)
| rm_remove_queue_tree name :
    remove_operation (queue.mikrotik_remove_queue_tree name) "/queue tree" (by_find "name" name)
| rm_remove_queue_type name :
    remove_operation (queue.mikrotik_remove_queue_type name) "/queue type" (by_find "name" name)
| rm_remove_bgp_instance name :
    remove_operation (routing_advanced.mikrotik_remove_bgp_instance name)
      "/routing bgp instance" (by_find "name" name)
| rm_remove_bgp_peer name :
    remove_operation (routing_advanced.mikrotik_remove_bgp_peer name) "/routing bgp peer"
      (by_find "name" name)
| rm_remove_ospf_instance name :
    remove_operation (routing_advanced.mikrotik_remove_ospf_instance name)
      "/routing ospf instance" (by_find "name" name)
| rm_remove_rip_instance name :
    remove_operation (routing_advanced.mikrotik_remove_rip_instance name)
      "/routing rip instance" (by_find "name" name)
| rm_remove_snmp_community name :
    remove_operation (snmp.mikrotik_remove_snmp_community name) "/snmp community"
      (by_find "name" name)
| rm_remove_scheduler name :
    remove_operation (system.mikrotik_remove_scheduler name) "/system scheduler"
      (by_find "name" name)
| rm_remove_script name :
    remove_operation (system.mikrotik_remove_script name) "/system script" (by_find "name" name).

(** The tools invoked with a bag that holds the required properties and
    nothing else, and the domain call this amounts to. *)
Inductive required_only_call : string -> gmap string value -> Conn string -> Prop :=
| rc_create_bridge name :
    required_only_call "mikrotik_create_bridge" (list_to_map [("name", VStr name)])
      (bridge.mikrotik_create_bridge name None None None None None None None None None)
| rc_list_bridges :
    required_only_call "mikrotik_list_bridges" (list_to_map [])
      (bridge.mikrotik_list_bridges None None)
| rc_remove_bridge name :
    required_only_call "mikrotik_remove_bridge" (list_to_map [("name", VStr name)])
      (bridge.mikrotik_remove_bridge name)
| rc_add_bridge_port bridge interface :
    required_only_call "mikrotik_add_bridge_port" (list_to_map [("bridge", VStr bridge);
        ("interface", VStr interface)])
      (bridge.mikrotik_add_bridge_port bridge interface None None None None None None None None)
| rc_list_bridge_ports :
    required_only_call "mikrotik_list_bridge_ports" (list_to_map [])
      (bridge.mikrotik_list_bridge_ports None None)
| rc_remove_bridge_port interface :
    required_only_call "mikrotik_remove_bridge_port" (list_to_map [
        ("interface", VStr interface)])
      (bridge.mikrotik_remove_bridge_port interface)
| rc_add_bridge_vlan bridge vlan_ids :
    required_only_call "mikrotik_add_bridge_vlan" (list_to_map [("bridge", VStr bridge);
        ("vlan_ids", VStr vlan_ids)])
      (bridge.mikrotik_add_bridge_vlan bridge vlan_ids None None None None)
| rc_list_bridge_vlans :
    required_only_call "mikrotik_list_bridge_vlans" (list_to_map [])
      (bridge.mikrotik_list_bridge_vlans None)
| rc_get_bridge_host :
    required_only_call "mikrotik_get_bridge_host" (list_to_map [])
      (bridge.mikrotik_get_bridge_host None)
| rc_create_hotspot_server name interface address_pool :
    required_only_call "mikrotik_create_hotspot_server" (list_to_map [("name", VStr name);
        ("interface", VStr interface); ("address_pool", VStr address_pool)])
      (hotspot.mikrotik_create_hotspot_server name interface address_pool None None)
| rc_list_hotspot_servers :
    required_only_call "mikrotik_list_hotspot_servers" (list_to_map [])
      (hotspot.mikrotik_list_hotspot_servers)
| rc_list_hotspot_users :
    required_only_call "mikrotik_list_hotspot_users" (list_to_map [])
      (hotspot.mikrotik_list_hotspot_users)
| rc_add_hotspot_user name password :
    required_only_call "mikrotik_add_hotspot_user" (list_to_map [("name", VStr name);
        ("password", VStr password)])
      (hotspot.mikrotik_add_hotspot_user name password None None None None None)
| rc_remove_hotspot_user name :
    required_only_call "mikrotik_remove_hotspot_user" (list_to_map [("name", VStr name)])
      (hotspot.mikrotik_remove_hotspot_user name)
| rc_list_hotspot_active :
    required_only_call "mikrotik_list_hotspot_active" (list_to_map [])
      (hotspot.mikrotik_list_hotspot_active)
| rc_remove_hotspot_active user :
    required_only_call "mikrotik_remove_hotspot_active" (list_to_map [("user", VStr user)])
      (hotspot.mikrotik_remove_hotspot_active user)
| rc_create_pppoe_server service_name interface :
    required_only_call "mikrotik_create_pppoe_server" (list_to_map [
        ("service_name", VStr service_name); ("interface", VStr interface)])
      (pppoe.mikrotik_create_pppoe_server service_name interface None None None None None None
        None)
| rc_list_pppoe_servers :
    required_only_call "mikrotik_list_pppoe_servers" (list_to_map [])
      (pppoe.mikrotik_list_pppoe_servers)
| rc_remove_pppoe_server service_name :
    required_only_call "mikrotik_remove_pppoe_server" (list_to_map [
        ("service_name", VStr service_name)])
      (pppoe.mikrotik_remove_pppoe_server service_name)
| rc_add_ppp_secret name password :
    required_only_call "mikrotik_add_ppp_secret" (list_to_map [("name", VStr name);
        ("password", VStr password)])
      (pppoe.mikrotik_add_ppp_secret name password None None None None None None None None None)
| rc_list_ppp_secrets :
    required_only_call "mikrotik_list_ppp_secrets" (list_to_map [])
      (pppoe.mikrotik_list_ppp_secrets None None)
| rc_remove_ppp_secret name :
    required_only_call "mikrotik_remove_ppp_secret" (list_to_map [("name", VStr name)])
      (pppoe.mikrotik_remove_ppp_secret name)
| rc_list_ppp_active :
    required_only_call "mikrotik_list_ppp_active" (list_to_map [])
      (pppoe.mikrotik_list_ppp_active)
| rc_disconnect_ppp_active name :
    required_only_call "mikrotik_disconnect_ppp_active" (list_to_map [("name", VStr name)])
      (pppoe.mikrotik_disconnect_ppp_active name)
| rc_create_ppp_profile name :
    required_only_call "mikrotik_create_ppp_profile" (list_to_map [("name", VStr name)])
      (pppoe.mikrotik_create_ppp_profile name None None None None None None None None None)
| rc_list_ppp_profiles :
    required_only_call "mikrotik_list_ppp_profiles" (list_to_map [])
      (pppoe.mikrotik_list_ppp_profiles)
| rc_remove_ppp_profile name :
    required_only_call "mikrotik_remove_ppp_profile" (list_to_map [("name", VStr name)])
      (pppoe.mikrotik_remove_ppp_profile name)
| rc_create_pppoe_client name interface user password :
    required_only_call "mikrotik_create_pppoe_client" (list_to_map [("name", VStr name);
        ("interface", VStr interface); ("user", VStr user); ("password", VStr password)])
      (pppoe.mikrotik_create_pppoe_client name interface user password None None None None None
        None)
| rc_list_pppoe_clients :
    required_only_call "mikrotik_list_pppoe_clients" (list_to_map [])
      (pppoe.mikrotik_list_pppoe_clients)
| rc_remove_pppoe_client name :
    required_only_call "mikrotik_remove_pppoe_client" (list_to_map [("name", VStr name)])
      (pppoe.mikrotik_remove_pppoe_client name)
| rc_create_simple_queue name target max_limit :
    required_only_call "mikrotik_create_simple_queue" (list_to_map [("name", VStr name);
        ("target", VStr target); ("max_limit", VStr max_limit)])
      (queue.mikrotik_create_simple_queue name target max_limit None None None None None None
        None None None)
| rc_list_simple_queues :
    required_only_call "mikrotik_list_simple_queues" (list_to_map [])
      (queue.mikrotik_list_simple_queues None None None)
| rc_remove_simple_queue name :
    required_only_call "mikrotik_remove_simple_queue" (list_to_map [("name", VStr name)])
      (queue.mikrotik_remove_simple_queue name)
| rc_enable_simple_queue name :
    required_only_call "mikrotik_enable_simple_queue" (list_to_map [("name", VStr name)])
      (queue.mikrotik_enable_simple_queue name)
| rc_disable_simple_queue name :
    required_only_call "mikrotik_disable_simple_queue" (list_to_map [("name", VStr name)])
      (queue.mikrotik_disable_simple_queue name)
| rc_create_queue_tree name parent max_limit :
    required_only_call "mikrotik_create_queue_tree" (list_to_map [("name", VStr name);
        ("parent", VStr parent); ("max_limit", VStr max_limit)])
      (queue.mikrotik_create_queue_tree name parent max_limit None None None None None None None
        None None)
| rc_list_queue_tree :
    required_only_call "mikrotik_list_queue_tree" (list_to_map [])
      (queue.mikrotik_list_queue_tree None None None)
| rc_remove_queue_tree name :
    required_only_call "mikrotik_remove_queue_tree" (list_to_map [("name", VStr name)])
      (queue.mikrotik_remove_queue_tree name)
| rc_list_queue_types :
    required_only_call "mikrotik_list_queue_types" (list_to_map [])
      (queue.mikrotik_list_queue_types)
| rc_create_queue_type name kind :
    required_only_call "mikrotik_create_queue_type" (list_to_map [("name", VStr name);
        ("kind", VStr kind)])
      (queue.mikrotik_create_queue_type name kind None None None None)
| rc_remove_queue_type name :
    required_only_call "mikrotik_remove_queue_type" (list_to_map [("name", VStr name)])
      (queue.mikrotik_remove_queue_type name)
| rc_reset_queue_counters :
    required_only_call "mikrotik_reset_queue_counters" (list_to_map [])
      (queue.mikrotik_reset_queue_counters)
| rc_create_bgp_instance name as_number :
    required_only_call "mikrotik_create_bgp_instance" (list_to_map [("name", VStr name);
        ("as_number", VInt as_number)])
      (routing_advanced.mikrotik_create_bgp_instance name as_number None None None None None
        None None)
| rc_list_bgp_instances :
    required_only_call "mikrotik_list_bgp_instances" (list_to_map [])
      (routing_advanced.mikrotik_list_bgp_instances)
| rc_remove_bgp_instance name :
    required_only_call "mikrotik_remove_bgp_instance" (list_to_map [("name", VStr name)])
      (routing_advanced.mikrotik_remove_bgp_instance name)
| rc_add_bgp_peer name instance remote_address remote_as :
    required_only_call "mikrotik_add_bgp_peer" (list_to_map [("name", VStr name);
        ("instance", VStr instance); ("remote_address", VStr remote_address);
        ("remote_as", VInt remote_as)])
      (routing_advanced.mikrotik_add_bgp_peer name instance remote_address remote_as None None
        None None None None None None)
| rc_list_bgp_peers :
    required_only_call "mikrotik_list_bgp_peers" (list_to_map [])
      (routing_advanced.mikrotik_list_bgp_peers)
| rc_remove_bgp_peer name :
    required_only_call "mikrotik_remove_bgp_peer" (list_to_map [("name", VStr name)])
      (routing_advanced.mikrotik_remove_bgp_peer name)
| rc_list_bgp_advertisements :
    required_only_call "mikrotik_list_bgp_advertisements" (list_to_map [])
      (routing_advanced.mikrotik_list_bgp_advertisements)
| rc_create_ospf_instance name :
    required_only_call "mikrotik_create_ospf_instance" (list_to_map [("name", VStr name)])
      (routing_advanced.mikrotik_create_ospf_instance name None None None None None None)
| rc_list_ospf_instances :
    required_only_call "mikrotik_list_ospf_instances" (list_to_map [])
      (routing_advanced.mikrotik_list_ospf_instances)
| rc_remove_ospf_instance name :
    required_only_call "mikrotik_remove_ospf_instance" (list_to_map [("name", VStr name)])
      (routing_advanced.mikrotik_remove_ospf_instance name)
| rc_add_ospf_area name area_id :
    required_only_call "mikrotik_add_ospf_area" (list_to_map [("name", VStr name);
        ("area_id", VStr area_id)])
      (routing_advanced.mikrotik_add_ospf_area name area_id None None None None)
| rc_list_ospf_areas :
    required_only_call "mikrotik_list_ospf_areas" (list_to_map [])
      (routing_advanced.mikrotik_list_ospf_areas)
| rc_add_ospf_network network area :
    required_only_call "mikrotik_add_ospf_network" (list_to_map [("network", VStr network);
        ("area", VStr area)])
      (routing_advanced.mikrotik_add_ospf_network network area None None)
| rc_list_ospf_networks :
    required_only_call "mikrotik_list_ospf_networks" (list_to_map [])
      (routing_advanced.mikrotik_list_ospf_networks)
| rc_list_ospf_neighbors :
    required_only_call "mikrotik_list_ospf_neighbors" (list_to_map [])
      (routing_advanced.mikrotik_list_ospf_neighbors)
| rc_add_ospf_interface interface :
    required_only_call "mikrotik_add_ospf_interface" (list_to_map [
        ("interface", VStr interface)])
      (routing_advanced.mikrotik_add_ospf_interface interface None None None None None None
        None)
| rc_list_ospf_interfaces :
    required_only_call "mikrotik_list_ospf_interfaces" (list_to_map [])
      (routing_advanced.mikrotik_list_ospf_interfaces)
| rc_create_rip_instance name :
    required_only_call "mikrotik_create_rip_instance" (list_to_map [("name", VStr name)])
      (routing_advanced.mikrotik_create_rip_instance name None None None None None None)
| rc_list_rip_instances :
    required_only_call "mikrotik_list_rip_instances" (list_to_map [])
      (routing_advanced.mikrotik_list_rip_instances)
| rc_remove_rip_instance name :
    required_only_call "mikrotik_remove_rip_instance" (list_to_map [("name", VStr name)])
      (routing_advanced.mikrotik_remove_rip_instance name)
| rc_add_rip_network network :
    required_only_call "mikrotik_add_rip_network" (list_to_map [("network", VStr network)])
      (routing_advanced.mikrotik_add_rip_network network None None None)
| rc_list_rip_networks :
    required_only_call "mikrotik_list_rip_networks" (list_to_map [])
      (routing_advanced.mikrotik_list_rip_networks)
| rc_add_rip_interface interface :
    required_only_call "mikrotik_add_rip_interface" (list_to_map [
        ("interface", VStr interface)])
      (routing_advanced.mikrotik_add_rip_interface interface None None None None None None)
| rc_list_rip_interfaces :
    required_only_call "mikrotik_list_rip_interfaces" (list_to_map [])
      (routing_advanced.mikrotik_list_rip_interfaces)
| rc_list_rip_neighbors :
    required_only_call "mikrotik_list_rip_neighbors" (list_to_map [])
      (routing_advanced.mikrotik_list_rip_neighbors)
| rc_get_system_resource :
    required_only_call "mikrotik_get_system_resource" (list_to_map [])
      (system.mikrotik_get_system_resource)
| rc_get_system_health :
    required_only_call "mikrotik_get_system_health" (list_to_map [])
      (system.mikrotik_get_system_health)
| rc_get_system_identity :
    required_only_call "mikrotik_get_system_identity" (list_to_map [])
      (system.mikrotik_get_system_identity)
| rc_set_system_identity name :
    required_only_call "mikrotik_set_system_identity" (list_to_map [("name", VStr name)])
      (system.mikrotik_set_system_identity name)
| rc_get_system_clock :
    required_only_call "mikrotik_get_system_clock" (list_to_map [])
      (system.mikrotik_get_system_clock)
| rc_set_system_clock :
    required_only_call "mikrotik_set_system_clock" (list_to_map [])
      (system.mikrotik_set_system_clock None None)
| rc_get_ntp_client :
    required_only_call "mikrotik_get_ntp_client" (list_to_map [])
      (system.mikrotik_get_ntp_client)
| rc_set_ntp_client :
    required_only_call "mikrotik_set_ntp_client" (list_to_map [])
      (system.mikrotik_set_ntp_client None None None)
| rc_system_reboot :
    required_only_call "mikrotik_system_reboot" (list_to_map [])
      (system.mikrotik_system_reboot)
| rc_system_shutdown :
    required_only_call "mikrotik_system_shutdown" (list_to_map [])
      (system.mikrotik_system_shutdown)
| rc_list_packages :
    required_only_call "mikrotik_list_packages" (list_to_map [])
      (system.mikrotik_list_packages)
| rc_enable_package package_name :
    required_only_call "mikrotik_enable_package" (list_to_map [
        ("package_name", VStr package_name)])
      (system.mikrotik_enable_package package_name)
| rc_disable_package package_name :
    required_only_call "mikrotik_disable_package" (list_to_map [
        ("package_name", VStr package_name)])
      (system.mikrotik_disable_package package_name)
| rc_list_scheduler :
    required_only_call "mikrotik_list_scheduler" (list_to_map [])
      (system.mikrotik_list_scheduler)
| rc_add_scheduler name on_event :
    required_only_call "mikrotik_add_scheduler" (list_to_map [("name", VStr name);
        ("on_event", VStr on_event)])
      (system.mikrotik_add_scheduler name on_event None None None None None None)
| rc_remove_scheduler name :
    required_only_call "mikrotik_remove_scheduler" (list_to_map [("name", VStr name)])
      (system.mikrotik_remove_scheduler name)
| rc_list_scripts :
    required_only_call "mikrotik_list_scripts" (list_to_map [])
      (system.mikrotik_list_scripts)
| rc_add_script name source :
    required_only_call "mikrotik_add_script" (list_to_map [("name", VStr name);
        ("source", VStr source)])
      (system.mikrotik_add_script name source None None None)
| rc_run_script name :
    required_only_call "mikrotik_run_script" (list_to_map [("name", VStr name)])
      (system.mikrotik_run_script name)
| rc_remove_script name :
    required_only_call "mikrotik_remove_script" (list_to_map [("name", VStr name)])
      (system.mikrotik_remove_script name)
| rc_get_system_routerboard :
    required_only_call "mikrotik_get_system_routerboard" (list_to_map [])
      (system.mikrotik_get_system_routerboard)
| rc_get_system_license :
    required_only_call "mikrotik_get_system_license" (list_to_map [])
      (system.mikrotik_get_system_license)
| rc_get_system_history :
    required_only_call "mikrotik_get_system_history" (list_to_map [])
      (system.mikrotik_get_system_history).

(** * Further vocabulary *)

(** What an optional parameter contributes to a command: its token when it
    is supplied with a value that passes the guard of the source, nothing
    otherwise. *)
Definition optional_text {A} (key : string) (r : rendering A) (o : option A) : string :=
  match o with
  | Some v => if effective r v then token key r v else EmptyString
  | None => EmptyString
  end.

(** A verb applied to the entries that an inline [find] selects. *)
Definition find_command (menu verb key value : string) : string :=
  menu ++ " " ++ verb ++ " [find " ++ key ++ "=" ++ dq ++ value ++ dq ++ "]".

(** A bag value is of a declared JSON type. *)
Definition has_type (ty : json_type) (v : value) : Prop :=
  match ty, v with
  | TString, VStr _ => True
  | TInteger, VInt _ => True
  | TBoolean, VBool _ => True
  | TArray, VArr _ => True
  | _, _ => False
  end.

(** Every value of the declared type [ty] reads at the annotated type [A]. *)
Definition reads_as (ty : json_type) (A : Type) `{Annotated A} : Prop :=
  forall v, has_type ty v -> exists a : A, of_value v = Some a.

(** A bag that conforms to the input schema of a tool: the required
    properties are there and every declared property that is there has its
    declared type. *)
Definition conforms (t : mcp.Tool) (args : gmap string value) : Prop :=
  (forall key, In key (mcp.required t) -> args !! key <> None)
  /\ (forall key ty v, In (key, ty) (mcp.properties t) -> args !! key = Some v ->
        has_type ty v).

(** Two bags that a handler cannot tell apart: they agree on the required
    properties and, null and absent being the same to [args.get], on the
    declared ones. *)
Definition same_view (t : mcp.Tool) (args args' : gmap string value) : Prop :=
  (forall key, In key (mcp.required t) -> args !! key = args' !! key)
  /\ (forall key, In key (map fst (mcp.properties t)) ->
        default VNull (args !! key) = default VNull (args' !! key)).

(** The names a list of tools declares. *)
Definition declared_names (tools : list mcp.Tool) : list string := map mcp.name tools.

(** The text of a script source as [add_script] embeds it. *)
Definition source_escaped (source : string) : string :=
  replace nl (bs ++ "n") (replace dq (bs ++ dq) source).


(** The first of [keys], in their order, that a bag does not hold. *)
Fixpoint first_missing (args : gmap string value) (keys : list string) : option string :=
  match keys with
  | [] => None
  | key :: rest =>
      match args !! key with
      | None => Some key
      | Some _ => first_missing args rest
      end
  end.

(** The names of all the tools of the repository, adapter after adapter. *)
Definition all_declared_names : list string :=
  concat (map (fun a => declared_names (fst a)) adapters).

(** The bag that holds the entries that have a value. *)
Definition bag (entries : list (string * option value)) : gmap string value :=
  list_to_map
    (omap (fun e => match snd e with Some v => Some (fst e, v) | None => None end) entries).

(** Every function of the ten domain modules. *)
Inductive operation : Conn string -> Prop :=
| fn_classifying op action success :
    classifying_operation op action success -> operation op
| fn_reset_queue_counters : operation queue.mikrotik_reset_queue_counters
| fn_system_reboot : operation system.mikrotik_system_reboot
| fn_system_shutdown : operation system.mikrotik_system_shutdown.

(** The operations that are neither listings nor removals, for all their
    arguments: the base of the command (path and verb, with the [find] of
    the entry where there is one) and, in the order of the source, the
    tokens of the required parameters and the contributions of the optional
    ones. *)
Inductive write_operation : Conn string -> string -> list string -> Prop :=
| wr_create_bridge name mtu arp arp_timeout ageing_time priority protocol_mode vlan_filtering
    comment disabled :
    write_operation (bridge.mikrotik_create_bridge name mtu arp arp_timeout ageing_time priority
      protocol_mode vlan_filtering comment disabled)
      "/interface bridge add" [token "name" quoted name; optional_text "mtu" nonzero_number mtu;
        optional_text "arp" bare arp; optional_text "arp-timeout" bare arp_timeout;
        optional_text "ageing-time" bare ageing_time; optional_text "priority" number priority;
        optional_text "protocol-mode" bare protocol_mode;
        optional_text "vlan-filtering" flag vlan_filtering;
        optional_text "comment" quoted comment; optional_text "disabled" flag disabled]
| wr_add_bridge_port bridge interface pvid priority path_cost edge point_to_point horizon
    comment disabled :
    write_operation (bridge.mikrotik_add_bridge_port bridge interface pvid priority path_cost
      edge point_to_point horizon comment disabled)
      "/interface bridge port add" [token "bridge" quoted bridge;
        token "interface" quoted interface; optional_text "pvid" number pvid;
        optional_text "priority" number priority; optional_text "path-cost" number path_cost;
        optional_text "edge" flag edge; optional_text "point-to-point" bare point_to_point;
        optional_text "horizon" number horizon; optional_text "comment" quoted comment;
        optional_text "disabled" flag disabled]
| wr_add_bridge_vlan bridge vlan_ids tagged untagged comment disabled :
    write_operation (bridge.mikrotik_add_bridge_vlan bridge vlan_ids tagged untagged comment
      disabled)
      "/interface bridge vlan add" [token "bridge" quoted bridge;
        token "vlan-ids" bare vlan_ids; optional_text "tagged" quoted tagged;
        optional_text "untagged" quoted untagged; optional_text "comment" quoted comment;
        optional_text "disabled" flag disabled]
| wr_create_certificate name common_name key_size days_valid key_usage subject_alt_name country
    state locality organization unit :
    write_operation (certificate.mikrotik_create_certificate name common_name key_size
      days_valid key_usage subject_alt_name country state locality organization unit)
      "/certificate add" [token "name" quoted name; token "common-name" quoted common_name;
        optional_text "key-size" nonzero_number key_size;
        optional_text "days-valid" nonzero_number days_valid;
        optional_text "key-usage" quoted key_usage;
        optional_text "subject-alt-name" quoted subject_alt_name;
        optional_text "country" quoted country; optional_text "state" quoted state;
        optional_text "locality" quoted locality;
        optional_text "organization" quoted organization; optional_text "unit" quoted unit]
| wr_sign_certificate name ca :
    write_operation (certificate.mikrotik_sign_certificate name ca)
      (find_command "/certificate" "sign" "name" name) [optional_text "ca" quoted ca]
| wr_import_certificate file_name passphrase name :
    write_operation (certificate.mikrotik_import_certificate file_name passphrase name)
      "/certificate import" [token "file-name" quoted file_name;
        optional_text "passphrase" quoted passphrase; optional_text "name" quoted name]
| wr_export_certificate name file_name export_passphrase type :
    write_operation (certificate.mikrotik_export_certificate name file_name export_passphrase
      type)
      (find_command "/certificate" "export" "name" name) [
        optional_text "file-name" quoted file_name;
        optional_text "export-passphrase" quoted export_passphrase;
        optional_text "type" bare type]
| wr_enable_ssl_certificate service certificate :
    write_operation (certificate.mikrotik_enable_ssl_certificate service certificate)
      (find_command "/certificate" "enable-ssl-certificate" "name" certificate) [
        token "service" bare service]
| wr_create_hotspot_server name interface address_pool profile disabled :
    write_operation (hotspot.mikrotik_create_hotspot_server name interface address_pool profile
      disabled)
      "/ip hotspot add" [token "name" quoted name; token "interface" quoted interface;
        token "address-pool" quoted address_pool; optional_text "profile" quoted profile;
        optional_text "disabled" flag disabled]
| wr_add_hotspot_user name password profile limit_uptime limit_bytes_total comment disabled :
    write_operation (hotspot.mikrotik_add_hotspot_user name password profile limit_uptime
      limit_bytes_total comment disabled)
      "/ip hotspot user add" [token "name" quoted name; token "password" quoted password;
        optional_text "profile" quoted profile; optional_text "limit-uptime" bare limit_uptime;
        optional_text "limit-bytes-total" bare limit_bytes_total;
        optional_text "comment" quoted comment; optional_text "disabled" flag disabled]
| wr_create_ipsec_peer name address auth_method secret exchange_mode send_initial_contact
    comment disabled :
    write_operation (ipsec.mikrotik_create_ipsec_peer name address auth_method secret
      exchange_mode send_initial_contact comment disabled)
      "/ip ipsec peer add" [token "name" quoted name; token "address" quoted address;
        optional_text "auth-method" bare auth_method; optional_text "secret" quoted secret;
        optional_text "exchange-mode" bare exchange_mode;
        optional_text "send-initial-contact" flag send_initial_contact;
        optional_text "comment" quoted comment; optional_text "disabled" flag disabled]
| wr_create_ipsec_proposal name auth_algorithms enc_algorithms lifetime pfs_group comment
    disabled :
    write_operation (ipsec.mikrotik_create_ipsec_proposal name auth_algorithms enc_algorithms
      lifetime pfs_group comment disabled)
      "/ip ipsec proposal add" [token "name" quoted name;
        optional_text "auth-algorithms" bare auth_algorithms;
        optional_text "enc-algorithms" bare enc_algorithms;
        optional_text "lifetime" bare lifetime; optional_text "pfs-group" bare pfs_group;
        optional_text "comment" quoted comment; optional_text "disabled" flag disabled]
| wr_create_ipsec_policy src_address dst_address action proposal tunnel comment disabled :
    write_operation (ipsec.mikrotik_create_ipsec_policy src_address dst_address action proposal
      tunnel comment disabled)
      "/ip ipsec policy add" [token "src-address" quoted src_address;
        token "dst-address" quoted dst_address; optional_text "action" bare action;
        optional_text "proposal" quoted proposal; optional_text "tunnel" flag tunnel;
        optional_text "comment" quoted comment; optional_text "disabled" flag disabled]
| wr_add_ipv6_address address interface advertise eui_64 no_dad comment disabled :
    write_operation (ipv6.mikrotik_add_ipv6_address address interface advertise eui_64 no_dad
      comment disabled)
      "/ipv6 address add" [token "address" quoted address; token "interface" quoted interface;
        optional_text "advertise" flag advertise; optional_text "eui-64" flag eui_64;
        optional_text "no-dad" flag no_dad; optional_text "comment" quoted comment;
        optional_text "disabled" flag disabled]
| wr_add_ipv6_route dst_address gateway distance comment disabled :
    write_operation (ipv6.mikrotik_add_ipv6_route dst_address gateway distance comment disabled)
      "/ipv6 route add" [token "dst-address" quoted dst_address; token "gateway" quoted gateway;
        optional_text "distance" number distance; optional_text "comment" quoted comment;
        optional_text "disabled" flag disabled]
| wr_set_ipv6_settings accept_redirects accept_router_advertisements forward
    max_neighbor_entries :
    write_operation (ipv6.mikrotik_set_ipv6_settings accept_redirects
      accept_router_advertisements forward max_neighbor_entries)
      "/ipv6 settings set" [optional_text "accept-redirects" flag accept_redirects;
        optional_text "accept-router-advertisements" flag accept_router_advertisements;
        optional_text "forward" flag forward;
        optional_text "max-neighbor-entries" number max_neighbor_entries]
| wr_create_pppoe_server service_name interface default_profile authentication keepalive_timeout
    max_mtu max_mru one_session_per_host disabled :
    write_operation (pppoe.mikrotik_create_pppoe_server service_name interface default_profile
      authentication keepalive_timeout max_mtu max_mru one_session_per_host disabled)
      "/interface pppoe-server server add" [token "service-name" quoted service_name;
        token "interface" quoted interface;
        optional_text "default-profile" quoted default_profile;
        optional_text "authentication" bare authentication;
        optional_text "keepalive-timeout" number keepalive_timeout;
        optional_text "max-mtu" number max_mtu; optional_text "max-mru" number max_mru;
        optional_text "one-session-per-host" flag one_session_per_host;
        optional_text "disabled" flag disabled]
| wr_add_ppp_secret name password service profile local_address remote_address routes
    limit_bytes_in limit_bytes_out comment disabled :
    write_operation (pppoe.mikrotik_add_ppp_secret name password service profile local_address
      remote_address routes limit_bytes_in limit_bytes_out comment disabled)
      "/ppp secret add" [token "name" quoted name; token "password" quoted password;
        optional_text "service" bare service; optional_text "profile" quoted profile;
        optional_text "local-address" quoted local_address;
        optional_text "remote-address" quoted remote_address;
        optional_text "routes" quoted routes;
        optional_text "limit-bytes-in" bare limit_bytes_in;
        optional_text "limit-bytes-out" bare limit_bytes_out;
        optional_text "comment" quoted comment; optional_text "disabled" flag disabled]
| wr_disconnect_ppp_active name :
    write_operation (pppoe.mikrotik_disconnect_ppp_active name)
      (find_command "/ppp active" "remove" "name" name) []
| wr_create_ppp_profile name local_address remote_address dns_server wins_server use_compression
    use_encryption only_one rate_limit comment :
    write_operation (pppoe.mikrotik_create_ppp_profile name local_address remote_address
      dns_server wins_server use_compression use_encryption only_one rate_limit comment)
      "/ppp profile add" [token "name" quoted name;
        optional_text "local-address" quoted local_address;
        optional_text "remote-address" quoted remote_address;
        optional_text "dns-server" quoted dns_server;
        optional_text "wins-server" quoted wins_server;
        optional_text "use-compression" flag use_compression;
        optional_text "use-encryption" flag use_encryption;
        optional_text "only-one" flag only_one; optional_text "rate-limit" quoted rate_limit;
        optional_text "comment" quoted comment]
| wr_create_pppoe_client name interface user password service_name add_default_route
    use_peer_dns profile comment disabled :
    write_operation (pppoe.mikrotik_create_pppoe_client name interface user password
      service_name add_default_route use_peer_dns profile comment disabled)
      "/interface pppoe-client add" [token "name" quoted name;
        token "interface" quoted interface; token "user" quoted user;
        token "password" quoted password; optional_text "service-name" quoted service_name;
        optional_text "add-default-route" flag add_default_route;
        optional_text "use-peer-dns" flag use_peer_dns; optional_text "profile" quoted profile;
        optional_text "comment" quoted comment; optional_text "disabled" flag disabled]
| wr_create_simple_queue name target max_limit burst_limit burst_threshold burst_time limit_at
    priority queue_type parent comment disabled :
    write_operation (queue.mikrotik_create_simple_queue name target max_limit burst_limit
      burst_threshold burst_time limit_at priority queue_type parent comment disabled)
      "/queue simple add" [token "name" quoted name; token "target" quoted target;
        token "max-limit" bare max_limit; optional_text "burst-limit" bare burst_limit;
        optional_text "burst-threshold" bare burst_threshold;
        optional_text "burst-time" bare burst_time; optional_text "limit-at" bare limit_at;
        optional_text "priority" number priority; optional_text "queue" bare queue_type;
        optional_text "parent" quoted parent; optional_text "comment" quoted comment;
        optional_text "disabled" flag disabled]
| wr_enable_simple_queue name :
    write_operation (queue.mikrotik_enable_simple_queue name)
      (find_command "/queue simple" "enable" "name" name) []
| wr_disable_simple_queue name :
    write_operation (queue.mikrotik_disable_simple_queue name)
      (find_command "/queue simple" "disable" "name" name) []
| wr_create_queue_tree name parent max_limit burst_limit burst_threshold burst_time limit_at
    priority queue_type packet_mark comment disabled :
    write_operation (queue.mikrotik_create_queue_tree name parent max_limit burst_limit
      burst_threshold burst_time limit_at priority queue_type packet_mark comment disabled)
      "/queue tree add" [token "name" quoted name; token "parent" quoted parent;
        token "max-limit" bare max_limit; optional_text "burst-limit" bare burst_limit;
        optional_text "burst-threshold" bare burst_threshold;
        optional_text "burst-time" bare burst_time; optional_text "limit-at" bare limit_at;
        optional_text "priority" number priority; optional_text "queue" bare queue_type;
        optional_text "packet-mark" quoted packet_mark; optional_text "comment" quoted comment;
        optional_text "disabled" flag disabled]
| wr_create_queue_type name kind pcq_rate pcq_limit pcq_classifier pcq_total_limit :
    write_operation (queue.mikrotik_create_queue_type name kind pcq_rate pcq_limit
      pcq_classifier pcq_total_limit)
      "/queue type add" [token "name" quoted name; token "kind" bare kind;
        optional_text "pcq-rate" bare pcq_rate; optional_text "pcq-limit" bare pcq_limit;
        optional_text "pcq-classifier" bare pcq_classifier;
        optional_text "pcq-total-limit" bare pcq_total_limit]
| wr_reset_queue_counters :
    write_operation (queue.mikrotik_reset_queue_counters)
      "/queue simple reset-counters" []
| wr_create_bgp_instance name as_number router_id redistribute_connected redistribute_static
    redistribute_ospf client_to_client_reflection comment disabled :
    write_operation (routing_advanced.mikrotik_create_bgp_instance name as_number router_id
      redistribute_connected redistribute_static redistribute_ospf client_to_client_reflection
      comment disabled)
      "/routing bgp instance add" [token "name" quoted name; token "as" number as_number;
        optional_text "router-id" quoted router_id;
        optional_text "redistribute-connected" flag redistribute_connected;
        optional_text "redistribute-static" flag redistribute_static;
        optional_text "redistribute-ospf" flag redistribute_ospf;
        optional_text "client-to-client-reflection" flag client_to_client_reflection;
        optional_text "comment" quoted comment; optional_text "disabled" flag disabled]
| wr_add_bgp_peer name instance remote_address remote_as ttl multihop route_reflect hold_time
    tcp_md5_key update_source comment disabled :
    write_operation (routing_advanced.mikrotik_add_bgp_peer name instance remote_address
      remote_as ttl multihop route_reflect hold_time tcp_md5_key update_source comment disabled)
      "/routing bgp peer add" [token "name" quoted name; token "instance" quoted instance;
        token "remote-address" quoted remote_address; token "remote-as" number remote_as;
        optional_text "ttl" number ttl; optional_text "multihop" flag multihop;
        optional_text "route-reflect" flag route_reflect;
        optional_text "hold-time" bare hold_time;
        optional_text "tcp-md5-key" quoted tcp_md5_key;
        optional_text "update-source" quoted update_source;
        optional_text "comment" quoted comment; optional_text "disabled" flag disabled]
| wr_create_ospf_instance name router_id redistribute_connected redistribute_static
    redistribute_bgp comment disabled :
    write_operation (routing_advanced.mikrotik_create_ospf_instance name router_id
      redistribute_connected redistribute_static redistribute_bgp comment disabled)
      "/routing ospf instance add" [token "name" quoted name;
        optional_text "router-id" quoted router_id;
        optional_text "redistribute-connected" flag redistribute_connected;
        optional_text "redistribute-static" flag redistribute_static;
        optional_text "redistribute-bgp" flag redistribute_bgp;
        optional_text "comment" quoted comment; optional_text "disabled" flag disabled]
| wr_add_ospf_area name area_id instance type comment disabled :
    write_operation (routing_advanced.mikrotik_add_ospf_area name area_id instance type comment
      disabled)
      "/routing ospf area add" [token "name" quoted name; token "area-id" quoted area_id;
        optional_text "instance" quoted instance; optional_text "type" bare type;
        optional_text "comment" quoted comment; optional_text "disabled" flag disabled]
| wr_add_ospf_network network area comment disabled :
    write_operation (routing_advanced.mikrotik_add_ospf_network network area comment disabled)
      "/routing ospf network add" [token "network" quoted network; token "area" quoted area;
        optional_text "comment" quoted comment; optional_text "disabled" flag disabled]
| wr_add_ospf_interface interface network_type priority cost authentication authentication_key
    comment disabled :
    write_operation (routing_advanced.mikrotik_add_ospf_interface interface network_type
      priority cost authentication authentication_key comment disabled)
      "/routing ospf interface add" [token "interface" quoted interface;
        optional_text "network-type" bare network_type;
        optional_text "priority" number priority; optional_text "cost" number cost;
        optional_text "authentication" bare authentication;
        optional_text "authentication-key" quoted authentication_key;
        optional_text "comment" quoted comment; optional_text "disabled" flag disabled]
| wr_create_rip_instance name redistribute_connected redistribute_static redistribute_ospf
    redistribute_bgp comment disabled :
    write_operation (routing_advanced.mikrotik_create_rip_instance name redistribute_connected
      redistribute_static redistribute_ospf redistribute_bgp comment disabled)
      "/routing rip instance add" [token "name" quoted name;
        optional_text "redistribute-connected" flag redistribute_connected;
        optional_text "redistribute-static" flag redistribute_static;
        optional_text "redistribute-ospf" flag redistribute_ospf;
        optional_text "redistribute-bgp" flag redistribute_bgp;
        optional_text "comment" quoted comment; optional_text "disabled" flag disabled]
| wr_add_rip_network network instance comment disabled :
    write_operation (routing_advanced.mikrotik_add_rip_network network instance comment
      disabled)
      "/routing rip network add" [token "network" quoted network;
        optional_text "instance" quoted instance; optional_text "comment" quoted comment;
        optional_text "disabled" flag disabled]
| wr_add_rip_interface interface receive send authentication authentication_key comment disabled
    :
    write_operation (routing_advanced.mikrotik_add_rip_interface interface receive send
      authentication authentication_key comment disabled)
      "/routing rip interface add" [token "interface" quoted interface;
        optional_text "receive" bare receive; optional_text "send" bare send;
        optional_text "authentication" bare authentication;
        optional_text "authentication-key" quoted authentication_key;
        optional_text "comment" quoted comment; optional_text "disabled" flag disabled]
| wr_set_snmp_settings enabled contact location engine_id trap_version trap_community
    trap_generators :
    write_operation (snmp.mikrotik_set_snmp_settings enabled contact location engine_id
      trap_version trap_community trap_generators)
      "/snmp set" [optional_text "enabled" flag enabled; optional_text "contact" quoted contact;
        optional_text "location" quoted location; optional_text "engine-id" quoted engine_id;
        optional_text "trap-version" number trap_version;
        optional_text "trap-community" quoted trap_community;
        optional_text "trap-generators" quoted trap_generators]
| wr_add_snmp_community name addresses read_access write_access authentication_protocol
    authentication_password encryption_protocol encryption_password comment disabled :
    write_operation (snmp.mikrotik_add_snmp_community name addresses read_access write_access
      authentication_protocol authentication_password encryption_protocol encryption_password
      comment disabled)
      "/snmp community add" [token "name" quoted name;
        optional_text "addresses" quoted addresses;
        optional_text "read-access" flag read_access;
        optional_text "write-access" flag write_access;
        optional_text "authentication-protocol" bare authentication_protocol;
        optional_text "authentication-password" quoted authentication_password;
        optional_text "encryption-protocol" bare encryption_protocol;
        optional_text "encryption-password" quoted encryption_password;
        optional_text "comment" quoted comment; optional_text "disabled" flag disabled]
| wr_set_system_identity name :
    write_operation (system.mikrotik_set_system_identity name)
      "/system identity set" [token "name" quoted name]
| wr_set_system_clock time_zone_name time_zone_autodetect :
    write_operation (system.mikrotik_set_system_clock time_zone_name time_zone_autodetect)
      "/system clock set" [optional_text "time-zone-name" quoted time_zone_name;
        optional_text "time-zone-autodetect" flag time_zone_autodetect]
| wr_set_ntp_client enabled servers mode :
    write_operation (system.mikrotik_set_ntp_client enabled servers mode)
      "/system ntp client set" [optional_text "enabled" flag enabled;
        optional_text "servers" joined servers; optional_text "mode" bare mode]
| wr_system_reboot :
    write_operation (system.mikrotik_system_reboot)
      "/system reboot" []
| wr_system_shutdown :
    write_operation (system.mikrotik_system_shutdown)
      "/system shutdown" []
| wr_enable_package package_name :
    write_operation (system.mikrotik_enable_package package_name)
      (find_command "/system package" "enable" "name" package_name) []
| wr_disable_package package_name :
    write_operation (system.mikrotik_disable_package package_name)
      (find_command "/system package" "disable" "name" package_name) []
| wr_add_scheduler name on_event start_date start_time interval policy comment disabled :
    write_operation (system.mikrotik_add_scheduler name on_event start_date start_time interval
      policy comment disabled)
      "/system scheduler add" [token "name" quoted name; token "on-event" quoted on_event;
        optional_text "start-date" quoted start_date;
        optional_text "start-time" quoted start_time; optional_text "interval" bare interval;
        optional_text "policy" bare policy; optional_text "comment" quoted comment;
        optional_text "disabled" flag disabled]
| wr_add_script name source policy comment dont_require_permissions :
    write_operation (system.mikrotik_add_script name source policy comment
      dont_require_permissions)
      "/system script add" [token "name" quoted name; token "source" quoted (escape source);
        optional_text "policy" bare policy; optional_text "comment" quoted comment;
        optional_text "dont-require-permissions" flag dont_require_permissions]
| wr_run_script name :
    write_operation (system.mikrotik_run_script name)
      (find_command "/system script" "run" "name" name) [].

(** The [list_*] and [get_*] operations: the menu they print and their
    filters in the order of the source. *)
Inductive read_operation : Conn string -> string -> list filter -> Prop :=
| rd_list_bridges name_filter disabled_only :
    read_operation (bridge.mikrotik_list_bridges name_filter disabled_only)
      "/interface bridge" [quoted_filter "name~" name_filter;
        flag_filter "disabled=yes" disabled_only]
| rd_list_bridge_ports bridge_filter interface_filter :
    read_operation (bridge.mikrotik_list_bridge_ports bridge_filter interface_filter)
      "/interface bridge port" [quoted_filter "bridge~" bridge_filter;
        quoted_filter "interface~" interface_filter]
| rd_list_bridge_vlans bridge_filter :
    read_operation (bridge.mikrotik_list_bridge_vlans bridge_filter)
      "/interface bridge vlan" [quoted_filter "bridge~" bridge_filter]
| rd_get_bridge_host bridge_filter :
    read_operation (bridge.mikrotik_get_bridge_host bridge_filter)
      "/interface bridge host" [quoted_filter "bridge~" bridge_filter]
| rd_list_certificates :
    read_operation certificate.mikrotik_list_certificates
      "/certificate" []
| rd_list_hotspot_servers :
    read_operation hotspot.mikrotik_list_hotspot_servers
      "/ip hotspot" []
| rd_list_hotspot_users :
    read_operation hotspot.mikrotik_list_hotspot_users
      "/ip hotspot user" []
| rd_list_hotspot_active :
    read_operation hotspot.mikrotik_list_hotspot_active
      "/ip hotspot active" []
| rd_list_ipsec_peers :
    read_operation ipsec.mikrotik_list_ipsec_peers
      "/ip ipsec peer" []
| rd_list_ipsec_proposals :
    read_operation ipsec.mikrotik_list_ipsec_proposals
      "/ip ipsec proposal" []
| rd_list_ipsec_installed_sa :
    read_operation ipsec.mikrotik_list_ipsec_installed_sa
      "/ip ipsec installed-sa" []
| rd_list_ipsec_policies :
    read_operation ipsec.mikrotik_list_ipsec_policies
      "/ip ipsec policy" []
| rd_list_ipv6_addresses interface_filter disabled_only :
    read_operation (ipv6.mikrotik_list_ipv6_addresses interface_filter disabled_only)
      "/ipv6 address" [quoted_filter "interface~" interface_filter;
        flag_filter "disabled=yes" disabled_only]
| rd_list_ipv6_routes dst_filter gateway_filter active_only :
    read_operation (ipv6.mikrotik_list_ipv6_routes dst_filter gateway_filter active_only)
      "/ipv6 route" [quoted_filter "dst-address~" dst_filter;
        quoted_filter "gateway~" gateway_filter; flag_filter "active=yes" active_only]
| rd_list_ipv6_neighbors :
    read_operation ipv6.mikrotik_list_ipv6_neighbors
      "/ipv6 neighbor" []
| rd_get_ipv6_settings :
    read_operation ipv6.mikrotik_get_ipv6_settings
      "/ipv6 settings" []
| rd_list_pppoe_servers :
    read_operation pppoe.mikrotik_list_pppoe_servers
      "/interface pppoe-server server" []
| rd_list_ppp_secrets service_filter disabled_only :
    read_operation (pppoe.mikrotik_list_ppp_secrets service_filter disabled_only)
      "/ppp secret" [bare_filter "service=" service_filter;
        flag_filter "disabled=yes" disabled_only]
| rd_list_ppp_active :
    read_operation pppoe.mikrotik_list_ppp_active
      "/ppp active" []
| rd_list_ppp_profiles :
    read_operation pppoe.mikrotik_list_ppp_profiles
      "/ppp profile" []
| rd_list_pppoe_clients :
    read_operation pppoe.mikrotik_list_pppoe_clients
      "/interface pppoe-client" []
| rd_list_simple_queues name_filter target_filter disabled_only :
    read_operation (queue.mikrotik_list_simple_queues name_filter target_filter disabled_only)
      "/queue simple" [quoted_filter "name~" name_filter; quoted_filter "target~" target_filter;
        flag_filter "disabled=yes" disabled_only]
| rd_list_queue_tree name_filter parent_filter disabled_only :
    read_operation (queue.mikrotik_list_queue_tree name_filter parent_filter disabled_only)
      "/queue tree" [quoted_filter "name~" name_filter; quoted_filter "parent~" parent_filter;
        flag_filter "disabled=yes" disabled_only]
| rd_list_queue_types :
    read_operation queue.mikrotik_list_queue_types
      "/queue type" []
| rd_list_bgp_instances :
    read_operation routing_advanced.mikrotik_list_bgp_instances
      "/routing bgp instance" []
| rd_list_bgp_peers :
    read_operation routing_advanced.mikrotik_list_bgp_peers
      "/routing bgp peer" []
| rd_list_bgp_advertisements :
    read_operation routing_advanced.mikrotik_list_bgp_advertisements
      "/routing bgp advertisements" []
| rd_list_ospf_instances :
    read_operation routing_advanced.mikrotik_list_ospf_instances
      "/routing ospf instance" []
| rd_list_ospf_areas :
    read_operation routing_advanced.mikrotik_list_ospf_areas
      "/routing ospf area" []
| rd_list_ospf_networks :
    read_operation routing_advanced.mikrotik_list_ospf_networks
      "/routing ospf network" []
| rd_list_ospf_neighbors :
    read_operation routing_advanced.mikrotik_list_ospf_neighbors
      "/routing ospf neighbor" []
| rd_list_ospf_interfaces :
    read_operation routing_advanced.mikrotik_list_ospf_interfaces
      "/routing ospf interface" []
| rd_list_rip_instances :
    read_operation routing_advanced.mikrotik_list_rip_instances
      "/routing rip instance" []
| rd_list_rip_networks :
    read_operation routing_advanced.mikrotik_list_rip_networks
      "/routing rip network" []
| rd_list_rip_interfaces :
    read_operation routing_advanced.mikrotik_list_rip_interfaces
      "/routing rip interface" []
| rd_list_rip_neighbors :
    read_operation routing_advanced.mikrotik_list_rip_neighbors
      "/routing rip neighbor" []
| rd_get_snmp_settings :
    read_operation snmp.mikrotik_get_snmp_settings
      "/snmp" []
| rd_list_snmp_communities :
    read_operation snmp.mikrotik_list_snmp_communities
      "/snmp community" []
| rd_get_system_resource :
    read_operation system.mikrotik_get_system_resource
      "/system resource" []
| rd_get_system_health :
    read_operation system.mikrotik_get_system_health
      "/system health" []
| rd_get_system_identity :
    read_operation system.mikrotik_get_system_identity
      "/system identity" []
| rd_get_system_clock :
    read_operation system.mikrotik_get_system_clock
      "/system clock" []
| rd_get_ntp_client :
    read_operation system.mikrotik_get_ntp_client
      "/system ntp client" []
| rd_list_packages :
    read_operation system.mikrotik_list_packages
      "/system package" []
| rd_list_scheduler :
    read_operation system.mikrotik_list_scheduler
      "/system scheduler" []
| rd_list_scripts :
    read_operation system.mikrotik_list_scripts
      "/system script" []
| rd_get_system_routerboard :
    read_operation system.mikrotik_get_system_routerboard
      "/system routerboard" []
| rd_get_system_license :
    read_operation system.mikrotik_get_system_license
      "/system license" []
| rd_get_system_history :
    read_operation system.mikrotik_get_system_history
      "/system history" [].

(** The tools invoked with a bag that holds the required properties and any
    of the optional ones, each at its declared type, and the domain call
    this amounts to: every property goes to the parameter of its name. *)
Inductive tool_call : string -> gmap string value -> Conn string -> Prop :=
| tc_create_bridge name mtu arp arp_timeout ageing_time priority protocol_mode vlan_filtering
    comment disabled :
    tool_call "mikrotik_create_bridge" (bag [("name", Some (VStr name)); ("mtu", VInt <$> mtu);
        ("arp", VStr <$> arp); ("arp_timeout", VStr <$> arp_timeout);
        ("ageing_time", VStr <$> ageing_time); ("priority", VInt <$> priority);
        ("protocol_mode", VStr <$> protocol_mode); ("vlan_filtering", VBool <$> vlan_filtering);
        ("comment", VStr <$> comment); ("disabled", VBool <$> disabled)])
      (bridge.mikrotik_create_bridge name mtu arp arp_timeout ageing_time priority protocol_mode
        vlan_filtering comment disabled)
| tc_list_bridges name_filter disabled_only :
    tool_call "mikrotik_list_bridges" (bag [("name_filter", VStr <$> name_filter);
        ("disabled_only", VBool <$> disabled_only)])
      (bridge.mikrotik_list_bridges name_filter disabled_only)
| tc_remove_bridge name :
    tool_call "mikrotik_remove_bridge" (bag [("name", Some (VStr name))])
      (bridge.mikrotik_remove_bridge name)
| tc_add_bridge_port bridge interface pvid priority path_cost edge point_to_point horizon
    comment disabled :
    tool_call "mikrotik_add_bridge_port" (bag [("bridge", Some (VStr bridge));
        ("interface", Some (VStr interface)); ("pvid", VInt <$> pvid);
        ("priority", VInt <$> priority); ("path_cost", VInt <$> path_cost);
        ("edge", VBool <$> edge); ("point_to_point", VStr <$> point_to_point);
        ("horizon", VInt <$> horizon); ("comment", VStr <$> comment);
        ("disabled", VBool <$> disabled)])
      (bridge.mikrotik_add_bridge_port bridge interface pvid priority path_cost edge
        point_to_point horizon comment disabled)
| tc_list_bridge_ports bridge_filter interface_filter :
    tool_call "mikrotik_list_bridge_ports" (bag [("bridge_filter", VStr <$> bridge_filter);
        ("interface_filter", VStr <$> interface_filter)])
      (bridge.mikrotik_list_bridge_ports bridge_filter interface_filter)
| tc_remove_bridge_port interface :
    tool_call "mikrotik_remove_bridge_port" (bag [("interface", Some (VStr interface))])
      (bridge.mikrotik_remove_bridge_port interface)
| tc_add_bridge_vlan bridge vlan_ids tagged untagged comment disabled :
    tool_call "mikrotik_add_bridge_vlan" (bag [("bridge", Some (VStr bridge));
        ("vlan_ids", Some (VStr vlan_ids)); ("tagged", VStr <$> tagged);
        ("untagged", VStr <$> untagged); ("comment", VStr <$> comment);
        ("disabled", VBool <$> disabled)])
      (bridge.mikrotik_add_bridge_vlan bridge vlan_ids tagged untagged comment disabled)
| tc_list_bridge_vlans bridge_filter :
    tool_call "mikrotik_list_bridge_vlans" (bag [("bridge_filter", VStr <$> bridge_filter)])
      (bridge.mikrotik_list_bridge_vlans bridge_filter)
| tc_get_bridge_host bridge_filter :
    tool_call "mikrotik_get_bridge_host" (bag [("bridge_filter", VStr <$> bridge_filter)])
      (bridge.mikrotik_get_bridge_host bridge_filter)
| tc_create_hotspot_server name interface address_pool profile disabled :
    tool_call "mikrotik_create_hotspot_server" (bag [("name", Some (VStr name));
        ("interface", Some (VStr interface)); ("address_pool", Some (VStr address_pool));
        ("profile", VStr <$> profile); ("disabled", VBool <$> disabled)])
      (hotspot.mikrotik_create_hotspot_server name interface address_pool profile disabled)
| tc_list_hotspot_servers :
    tool_call "mikrotik_list_hotspot_servers" (bag [])
      hotspot.mikrotik_list_hotspot_servers
| tc_list_hotspot_users :
    tool_call "mikrotik_list_hotspot_users" (bag [])
      hotspot.mikrotik_list_hotspot_users
| tc_add_hotspot_user name password profile limit_uptime limit_bytes_total comment disabled :
    tool_call "mikrotik_add_hotspot_user" (bag [("name", Some (VStr name));
        ("password", Some (VStr password)); ("profile", VStr <$> profile);
        ("limit_uptime", VStr <$> limit_uptime);
        ("limit_bytes_total", VStr <$> limit_bytes_total); ("comment", VStr <$> comment);
        ("disabled", VBool <$> disabled)])
      (hotspot.mikrotik_add_hotspot_user name password profile limit_uptime limit_bytes_total
        comment disabled)
| tc_remove_hotspot_user name :
    tool_call "mikrotik_remove_hotspot_user" (bag [("name", Some (VStr name))])
      (hotspot.mikrotik_remove_hotspot_user name)
| tc_list_hotspot_active :
    tool_call "mikrotik_list_hotspot_active" (bag [])
      hotspot.mikrotik_list_hotspot_active
| tc_remove_hotspot_active user :
    tool_call "mikrotik_remove_hotspot_active" (bag [("user", Some (VStr user))])
      (hotspot.mikrotik_remove_hotspot_active user)
| tc_create_pppoe_server service_name interface default_profile authentication keepalive_timeout
    max_mtu max_mru one_session_per_host disabled :
    tool_call "mikrotik_create_pppoe_server" (bag [("service_name", Some (VStr service_name));
        ("interface", Some (VStr interface)); ("default_profile", VStr <$> default_profile);
        ("authentication", VStr <$> authentication);
        ("keepalive_timeout", VInt <$> keepalive_timeout); ("max_mtu", VInt <$> max_mtu);
        ("max_mru", VInt <$> max_mru); ("one_session_per_host", VBool <$> one_session_per_host);
        ("disabled", VBool <$> disabled)])
      (pppoe.mikrotik_create_pppoe_server service_name interface default_profile authentication
        keepalive_timeout max_mtu max_mru one_session_per_host disabled)
| tc_list_pppoe_servers :
    tool_call "mikrotik_list_pppoe_servers" (bag [])
      pppoe.mikrotik_list_pppoe_servers
| tc_remove_pppoe_server service_name :
    tool_call "mikrotik_remove_pppoe_server" (bag [("service_name", Some (VStr service_name))])
      (pppoe.mikrotik_remove_pppoe_server service_name)
| tc_add_ppp_secret name password service profile local_address remote_address routes
    limit_bytes_in limit_bytes_out comment disabled :
    tool_call "mikrotik_add_ppp_secret" (bag [("name", Some (VStr name));
        ("password", Some (VStr password)); ("service", VStr <$> service);
        ("profile", VStr <$> profile); ("local_address", VStr <$> local_address);
        ("remote_address", VStr <$> remote_address); ("routes", VStr <$> routes);
        ("limit_bytes_in", VStr <$> limit_bytes_in);
        ("limit_bytes_out", VStr <$> limit_bytes_out); ("comment", VStr <$> comment);
        ("disabled", VBool <$> disabled)])
      (pppoe.mikrotik_add_ppp_secret name password service profile local_address remote_address
        routes limit_bytes_in limit_bytes_out comment disabled)
| tc_list_ppp_secrets service_filter disabled_only :
    tool_call "mikrotik_list_ppp_secrets" (bag [("service_filter", VStr <$> service_filter);
        ("disabled_only", VBool <$> disabled_only)])
      (pppoe.mikrotik_list_ppp_secrets service_filter disabled_only)
| tc_remove_ppp_secret name :
    tool_call "mikrotik_remove_ppp_secret" (bag [("name", Some (VStr name))])
      (pppoe.mikrotik_remove_ppp_secret name)
| tc_list_ppp_active :
    tool_call "mikrotik_list_ppp_active" (bag [])
      pppoe.mikrotik_list_ppp_active
| tc_disconnect_ppp_active name :
    tool_call "mikrotik_disconnect_ppp_active" (bag [("name", Some (VStr name))])
      (pppoe.mikrotik_disconnect_ppp_active name)
| tc_create_ppp_profile name local_address remote_address dns_server wins_server use_compression
    use_encryption only_one rate_limit comment :
    tool_call "mikrotik_create_ppp_profile" (bag [("name", Some (VStr name));
        ("local_address", VStr <$> local_address); ("remote_address", VStr <$> remote_address);
        ("dns_server", VStr <$> dns_server); ("wins_server", VStr <$> wins_server);
        ("use_compression", VBool <$> use_compression);
        ("use_encryption", VBool <$> use_encryption); ("only_one", VBool <$> only_one);
        ("rate_limit", VStr <$> rate_limit); ("comment", VStr <$> comment)])
      (pppoe.mikrotik_create_ppp_profile name local_address remote_address dns_server
        wins_server use_compression use_encryption only_one rate_limit comment)
| tc_list_ppp_profiles :
    tool_call "mikrotik_list_ppp_profiles" (bag [])
      pppoe.mikrotik_list_ppp_profiles
| tc_remove_ppp_profile name :
    tool_call "mikrotik_remove_ppp_profile" (bag [("name", Some (VStr name))])
      (pppoe.mikrotik_remove_ppp_profile name)
| tc_create_pppoe_client name interface user password service_name add_default_route
    use_peer_dns profile comment disabled :
    tool_call "mikrotik_create_pppoe_client" (bag [("name", Some (VStr name));
        ("interface", Some (VStr interface)); ("user", Some (VStr user));
        ("password", Some (VStr password)); ("service_name", VStr <$> service_name);
        ("add_default_route", VBool <$> add_default_route);
        ("use_peer_dns", VBool <$> use_peer_dns); ("profile", VStr <$> profile);
        ("comment", VStr <$> comment); ("disabled", VBool <$> disabled)])
      (pppoe.mikrotik_create_pppoe_client name interface user password service_name
        add_default_route use_peer_dns profile comment disabled)
| tc_list_pppoe_clients :
    tool_call "mikrotik_list_pppoe_clients" (bag [])
      pppoe.mikrotik_list_pppoe_clients
| tc_remove_pppoe_client name :
    tool_call "mikrotik_remove_pppoe_client" (bag [("name", Some (VStr name))])
      (pppoe.mikrotik_remove_pppoe_client name)
| tc_create_simple_queue name target max_limit burst_limit burst_threshold burst_time limit_at
    priority queue_type parent comment disabled :
    tool_call "mikrotik_create_simple_queue" (bag [("name", Some (VStr name));
        ("target", Some (VStr target)); ("max_limit", Some (VStr max_limit));
        ("burst_limit", VStr <$> burst_limit); ("burst_threshold", VStr <$> burst_threshold);
        ("burst_time", VStr <$> burst_time); ("limit_at", VStr <$> limit_at);
        ("priority", VInt <$> priority); ("queue_type", VStr <$> queue_type);
        ("parent", VStr <$> parent); ("comment", VStr <$> comment);
        ("disabled", VBool <$> disabled)])
      (queue.mikrotik_create_simple_queue name target max_limit burst_limit burst_threshold
        burst_time limit_at priority queue_type parent comment disabled)
| tc_list_simple_queues name_filter target_filter disabled_only :
    tool_call "mikrotik_list_simple_queues" (bag [("name_filter", VStr <$> name_filter);
        ("target_filter", VStr <$> target_filter); ("disabled_only", VBool <$> disabled_only)])
      (queue.mikrotik_list_simple_queues name_filter target_filter disabled_only)
| tc_remove_simple_queue name :
    tool_call "mikrotik_remove_simple_queue" (bag [("name", Some (VStr name))])
      (queue.mikrotik_remove_simple_queue name)
| tc_enable_simple_queue name :
    tool_call "mikrotik_enable_simple_queue" (bag [("name", Some (VStr name))])
      (queue.mikrotik_enable_simple_queue name)
| tc_disable_simple_queue name :
    tool_call "mikrotik_disable_simple_queue" (bag [("name", Some (VStr name))])
      (queue.mikrotik_disable_simple_queue name)
| tc_create_queue_tree name parent max_limit burst_limit burst_threshold burst_time limit_at
    priority queue_type packet_mark comment disabled :
    tool_call "mikrotik_create_queue_tree" (bag [("name", Some (VStr name));
        ("parent", Some (VStr parent)); ("max_limit", Some (VStr max_limit));
        ("burst_limit", VStr <$> burst_limit); ("burst_threshold", VStr <$> burst_threshold);
        ("burst_time", VStr <$> burst_time); ("limit_at", VStr <$> limit_at);
        ("priority", VInt <$> priority); ("queue_type", VStr <$> queue_type);
        ("packet_mark", VStr <$> packet_mark); ("comment", VStr <$> comment);
        ("disabled", VBool <$> disabled)])
      (queue.mikrotik_create_queue_tree name parent max_limit burst_limit burst_threshold
        burst_time limit_at priority queue_type packet_mark comment disabled)
| tc_list_queue_tree name_filter parent_filter disabled_only :
    tool_call "mikrotik_list_queue_tree" (bag [("name_filter", VStr <$> name_filter);
        ("parent_filter", VStr <$> parent_filter); ("disabled_only", VBool <$> disabled_only)])
      (queue.mikrotik_list_queue_tree name_filter parent_filter disabled_only)
| tc_remove_queue_tree name :
    tool_call "mikrotik_remove_queue_tree" (bag [("name", Some (VStr name))])
      (queue.mikrotik_remove_queue_tree name)
| tc_list_queue_types :
    tool_call "mikrotik_list_queue_types" (bag [])
      queue.mikrotik_list_queue_types
| tc_create_queue_type name kind pcq_rate pcq_limit pcq_classifier pcq_total_limit :
    tool_call "mikrotik_create_queue_type" (bag [("name", Some (VStr name));
        ("kind", Some (VStr kind)); ("pcq_rate", VStr <$> pcq_rate);
        ("pcq_limit", VStr <$> pcq_limit); ("pcq_classifier", VStr <$> pcq_classifier);
        ("pcq_total_limit", VStr <$> pcq_total_limit)])
      (queue.mikrotik_create_queue_type name kind pcq_rate pcq_limit pcq_classifier
        pcq_total_limit)
| tc_remove_queue_type name :
    tool_call "mikrotik_remove_queue_type" (bag [("name", Some (VStr name))])
      (queue.mikrotik_remove_queue_type name)
| tc_reset_queue_counters :
    tool_call "mikrotik_reset_queue_counters" (bag [])
      queue.mikrotik_reset_queue_counters
| tc_create_bgp_instance name as_number router_id redistribute_connected redistribute_static
    redistribute_ospf client_to_client_reflection comment disabled :
    tool_call "mikrotik_create_bgp_instance" (bag [("name", Some (VStr name));
        ("as_number", Some (VInt as_number)); ("router_id", VStr <$> router_id);
        ("redistribute_connected", VBool <$> redistribute_connected);
        ("redistribute_static", VBool <$> redistribute_static);
        ("redistribute_ospf", VBool <$> redistribute_ospf);
        ("client_to_client_reflection", VBool <$> client_to_client_reflection);
        ("comment", VStr <$> comment); ("disabled", VBool <$> disabled)])
      (routing_advanced.mikrotik_create_bgp_instance name as_number router_id
        redistribute_connected redistribute_static redistribute_ospf client_to_client_reflection
        comment disabled)
| tc_list_bgp_instances :
    tool_call "mikrotik_list_bgp_instances" (bag [])
      routing_advanced.mikrotik_list_bgp_instances
| tc_remove_bgp_instance name :
    tool_call "mikrotik_remove_bgp_instance" (bag [("name", Some (VStr name))])
      (routing_advanced.mikrotik_remove_bgp_instance name)
| tc_add_bgp_peer name instance remote_address remote_as ttl multihop route_reflect hold_time
    tcp_md5_key update_source comment disabled :
    tool_call "mikrotik_add_bgp_peer" (bag [("name", Some (VStr name));
        ("instance", Some (VStr instance)); ("remote_address", Some (VStr remote_address));
        ("remote_as", Some (VInt remote_as)); ("ttl", VInt <$> ttl);
        ("multihop", VBool <$> multihop); ("route_reflect", VBool <$> route_reflect);
        ("hold_time", VStr <$> hold_time); ("tcp_md5_key", VStr <$> tcp_md5_key);
        ("update_source", VStr <$> update_source); ("comment", VStr <$> comment);
        ("disabled", VBool <$> disabled)])
      (routing_advanced.mikrotik_add_bgp_peer name instance remote_address remote_as ttl
        multihop route_reflect hold_time tcp_md5_key update_source comment disabled)
| tc_list_bgp_peers :
    tool_call "mikrotik_list_bgp_peers" (bag [])
      routing_advanced.mikrotik_list_bgp_peers
| tc_remove_bgp_peer name :
    tool_call "mikrotik_remove_bgp_peer" (bag [("name", Some (VStr name))])
      (routing_advanced.mikrotik_remove_bgp_peer name)
| tc_list_bgp_advertisements :
    tool_call "mikrotik_list_bgp_advertisements" (bag [])
      routing_advanced.mikrotik_list_bgp_advertisements
| tc_create_ospf_instance name router_id redistribute_connected redistribute_static
    redistribute_bgp comment disabled :
    tool_call "mikrotik_create_ospf_instance" (bag [("name", Some (VStr name));
        ("router_id", VStr <$> router_id);
        ("redistribute_connected", VBool <$> redistribute_connected);
        ("redistribute_static", VBool <$> redistribute_static);
        ("redistribute_bgp", VBool <$> redistribute_bgp); ("comment", VStr <$> comment);
        ("disabled", VBool <$> disabled)])
      (routing_advanced.mikrotik_create_ospf_instance name router_id redistribute_connected
        redistribute_static redistribute_bgp comment disabled)
| tc_list_ospf_instances :
    tool_call "mikrotik_list_ospf_instances" (bag [])
      routing_advanced.mikrotik_list_ospf_instances
| tc_remove_ospf_instance name :
    tool_call "mikrotik_remove_ospf_instance" (bag [("name", Some (VStr name))])
      (routing_advanced.mikrotik_remove_ospf_instance name)
| tc_add_ospf_area name area_id instance type comment disabled :
    tool_call "mikrotik_add_ospf_area" (bag [("name", Some (VStr name));
        ("area_id", Some (VStr area_id)); ("instance", VStr <$> instance);
        ("type", VStr <$> type); ("comment", VStr <$> comment);
        ("disabled", VBool <$> disabled)])
      (routing_advanced.mikrotik_add_ospf_area name area_id instance type comment disabled)
| tc_list_ospf_areas :
    tool_call "mikrotik_list_ospf_areas" (bag [])
      routing_advanced.mikrotik_list_ospf_areas
| tc_add_ospf_network network area comment disabled :
    tool_call "mikrotik_add_ospf_network" (bag [("network", Some (VStr network));
        ("area", Some (VStr area)); ("comment", VStr <$> comment);
        ("disabled", VBool <$> disabled)])
      (routing_advanced.mikrotik_add_ospf_network network area comment disabled)
| tc_list_ospf_networks :
    tool_call "mikrotik_list_ospf_networks" (bag [])
      routing_advanced.mikrotik_list_ospf_networks
| tc_list_ospf_neighbors :
    tool_call "mikrotik_list_ospf_neighbors" (bag [])
      routing_advanced.mikrotik_list_ospf_neighbors
| tc_add_ospf_interface interface network_type priority cost authentication authentication_key
    comment disabled :
    tool_call "mikrotik_add_ospf_interface" (bag [("interface", Some (VStr interface));
        ("network_type", VStr <$> network_type); ("priority", VInt <$> priority);
        ("cost", VInt <$> cost); ("authentication", VStr <$> authentication);
        ("authentication_key", VStr <$> authentication_key); ("comment", VStr <$> comment);
        ("disabled", VBool <$> disabled)])
      (routing_advanced.mikrotik_add_ospf_interface interface network_type priority cost
        authentication authentication_key comment disabled)
| tc_list_ospf_interfaces :
    tool_call "mikrotik_list_ospf_interfaces" (bag [])
      routing_advanced.mikrotik_list_ospf_interfaces
| tc_create_rip_instance name redistribute_connected redistribute_static redistribute_ospf
    redistribute_bgp comment disabled :
    tool_call "mikrotik_create_rip_instance" (bag [("name", Some (VStr name));
        ("redistribute_connected", VBool <$> redistribute_connected);
        ("redistribute_static", VBool <$> redistribute_static);
        ("redistribute_ospf", VBool <$> redistribute_ospf);
        ("redistribute_bgp", VBool <$> redistribute_bgp); ("comment", VStr <$> comment);
        ("disabled", VBool <$> disabled)])
      (routing_advanced.mikrotik_create_rip_instance name redistribute_connected
        redistribute_static redistribute_ospf redistribute_bgp comment disabled)
| tc_list_rip_instances :
    tool_call "mikrotik_list_rip_instances" (bag [])
      routing_advanced.mikrotik_list_rip_instances
| tc_remove_rip_instance name :
    tool_call "mikrotik_remove_rip_instance" (bag [("name", Some (VStr name))])
      (routing_advanced.mikrotik_remove_rip_instance name)
| tc_add_rip_network network instance comment disabled :
    tool_call "mikrotik_add_rip_network" (bag [("network", Some (VStr network));
        ("instance", VStr <$> instance); ("comment", VStr <$> comment);
        ("disabled", VBool <$> disabled)])
      (routing_advanced.mikrotik_add_rip_network network instance comment disabled)
| tc_list_rip_networks :
    tool_call "mikrotik_list_rip_networks" (bag [])
      routing_advanced.mikrotik_list_rip_networks
| tc_add_rip_interface interface receive send authentication authentication_key comment disabled
    :
    tool_call "mikrotik_add_rip_interface" (bag [("interface", Some (VStr interface));
        ("receive", VStr <$> receive); ("send", VStr <$> send);
        ("authentication", VStr <$> authentication);
        ("authentication_key", VStr <$> authentication_key); ("comment", VStr <$> comment);
        ("disabled", VBool <$> disabled)])
      (routing_advanced.mikrotik_add_rip_interface interface receive send authentication
        authentication_key comment disabled)
| tc_list_rip_interfaces :
    tool_call "mikrotik_list_rip_interfaces" (bag [])
      routing_advanced.mikrotik_list_rip_interfaces
| tc_list_rip_neighbors :
    tool_call "mikrotik_list_rip_neighbors" (bag [])
      routing_advanced.mikrotik_list_rip_neighbors
| tc_get_system_resource :
    tool_call "mikrotik_get_system_resource" (bag [])
      system.mikrotik_get_system_resource
| tc_get_system_health :
    tool_call "mikrotik_get_system_health" (bag [])
      system.mikrotik_get_system_health
| tc_get_system_identity :
    tool_call "mikrotik_get_system_identity" (bag [])
      system.mikrotik_get_system_identity
| tc_set_system_identity name :
    tool_call "mikrotik_set_system_identity" (bag [("name", Some (VStr name))])
      (system.mikrotik_set_system_identity name)
| tc_get_system_clock :
    tool_call "mikrotik_get_system_clock" (bag [])
      system.mikrotik_get_system_clock
| tc_set_system_clock time_zone_name time_zone_autodetect :
    tool_call "mikrotik_set_system_clock" (bag [("time_zone_name", VStr <$> time_zone_name);
        ("time_zone_autodetect", VBool <$> time_zone_autodetect)])
      (system.mikrotik_set_system_clock time_zone_name time_zone_autodetect)
| tc_get_ntp_client :
    tool_call "mikrotik_get_ntp_client" (bag [])
      system.mikrotik_get_ntp_client
| tc_set_ntp_client enabled servers mode :
    tool_call "mikrotik_set_ntp_client" (bag [("enabled", VBool <$> enabled);
        ("servers", VArr <$> servers); ("mode", VStr <$> mode)])
      (system.mikrotik_set_ntp_client enabled servers mode)
| tc_system_reboot :
    tool_call "mikrotik_system_reboot" (bag [])
      system.mikrotik_system_reboot
| tc_system_shutdown :
    tool_call "mikrotik_system_shutdown" (bag [])
      system.mikrotik_system_shutdown
| tc_list_packages :
    tool_call "mikrotik_list_packages" (bag [])
      system.mikrotik_list_packages
| tc_enable_package package_name :
    tool_call "mikrotik_enable_package" (bag [("package_name", Some (VStr package_name))])
      (system.mikrotik_enable_package package_name)
| tc_disable_package package_name :
    tool_call "mikrotik_disable_package" (bag [("package_name", Some (VStr package_name))])
      (system.mikrotik_disable_package package_name)
| tc_list_scheduler :
    tool_call "mikrotik_list_scheduler" (bag [])
      system.mikrotik_list_scheduler
| tc_add_scheduler name on_event start_date start_time interval policy comment disabled :
    tool_call "mikrotik_add_scheduler" (bag [("name", Some (VStr name));
        ("on_event", Some (VStr on_event)); ("start_date", VStr <$> start_date);
        ("start_time", VStr <$> start_time); ("interval", VStr <$> interval);
        ("policy", VStr <$> policy); ("comment", VStr <$> comment);
        ("disabled", VBool <$> disabled)])
      (system.mikrotik_add_scheduler name on_event start_date start_time interval policy comment
        disabled)
| tc_remove_scheduler name :
    tool_call "mikrotik_remove_scheduler" (bag [("name", Some (VStr name))])
      (system.mikrotik_remove_scheduler name)
| tc_list_scripts :
    tool_call "mikrotik_list_scripts" (bag [])
      system.mikrotik_list_scripts
| tc_add_script name source policy comment dont_require_permissions :
    tool_call "mikrotik_add_script" (bag [("name", Some (VStr name));
        ("source", Some (VStr source)); ("policy", VStr <$> policy);
        ("comment", VStr <$> comment);
        ("dont_require_permissions", VBool <$> dont_require_permissions)])
      (system.mikrotik_add_script name source policy comment dont_require_permissions)
| tc_run_script name :
    tool_call "mikrotik_run_script" (bag [("name", Some (VStr name))])
      (system.mikrotik_run_script name)
| tc_remove_script name :
    tool_call "mikrotik_remove_script" (bag [("name", Some (VStr name))])
      (system.mikrotik_remove_script name)
| tc_get_system_routerboard :
    tool_call "mikrotik_get_system_routerboard" (bag [])
      system.mikrotik_get_system_routerboard
| tc_get_system_license :
    tool_call "mikrotik_get_system_license" (bag [])
      system.mikrotik_get_system_license
| tc_get_system_history :
    tool_call "mikrotik_get_system_history" (bag [])
      system.mikrotik_get_system_history.

(** * Properties *)

(** ** Strings *)

Section Strings.

Implicit Types a b c s : string.

Lemma app_cons (x : ascii) a b : String x a ++ b = String x (a ++ b).
Proof. reflexivity. Qed.

Lemma app_assoc a b c : (a ++ b) ++ c = a ++ b ++ c.
Proof. induction a as [|x a IH]; [reflexivity | rewrite !app_cons; now rewrite IH]. Qed.

Lemma app_nil_r a : a ++ EmptyString = a.
Proof. induction a as [|x a IH]; [reflexivity | rewrite app_cons; now rewrite IH]. Qed.

Lemma length_app a b : String.length (a ++ b) = (String.length a + String.length b)%nat.
Proof.
  induction a as [|x a IH]; [reflexivity|].
  rewrite app_cons. cbn [String.length]. now rewrite IH.
Qed.

(** A string differs from itself with something non-empty spliced in. *)
Lemma splice_neq a b t : t <> EmptyString -> a ++ b <> a ++ t ++ b.
Proof.
  intros Ht H. apply (f_equal String.length) in H.
  rewrite !length_app in H. destruct t; [congruence|]. cbn [String.length] in H. lia.
Qed.

Lemma splice_length_neq a b t u :
  String.length t <> String.length u -> a ++ t ++ b <> a ++ u ++ b.
Proof.
  intros Hl H. apply (f_equal String.length) in H. rewrite !length_app in H. lia.
Qed.

Lemma first_char_neq (x y : ascii) a b : x <> y -> String x a <> String y b.
Proof. congruence. Qed.

Lemma prefix_iff a b : String.prefix a b = true <-> exists r, b = a ++ r.
Proof.
  revert b; induction a as [|x a IH]; intros b.
  - destruct b; simpl; split; eauto.
  - destruct b as [|y b]; simpl.
    + split; [discriminate | intros [r H]; discriminate].
    + destruct (ascii_dec x y) as [->|n].
      * rewrite IH. split; intros [r H]; exists r; rewrite app_cons in *; congruence.
      * split; [discriminate | intros [r H]; rewrite app_cons in H; congruence].
Qed.

(** [py_in] decides the occurrence of a substring. *)
Lemma py_in_iff needle hay : py_in needle hay = true <-> Substring needle hay.
Proof.
  induction hay as [|c hay IH].
  - change (py_in needle EmptyString) with (String.prefix needle EmptyString || false).
    rewrite orb_false_r, prefix_iff. split.
    + intros [r H]. exists EmptyString, r. exact H.
    + intros (pre & post & H). destruct pre as [|d pre].
      * exists post. exact H.
      * rewrite app_cons in H. discriminate.
  - change (py_in needle (String c hay))
      with (String.prefix needle (String c hay) || py_in needle hay).
    rewrite orb_true_iff, IH, prefix_iff. split.
    + intros [[r H] | (pre & post & H)].
      * exists EmptyString, r. exact H.
      * exists (String c pre), post. rewrite app_cons. now rewrite H.
    + intros (pre & post & H). destruct pre as [|d pre].
      * left. exists post. exact H.
      * right. rewrite app_cons in H. injection H as _ H. exists pre, post. exact H.
Qed.

Lemma failure_test_iff raw :
  py_in "failure:" (lower raw) || py_in "error" (lower raw) = true
  <-> failure_classified raw.
Proof. unfold failure_classified. now rewrite orb_true_iff, !py_in_iff. Qed.

End Strings.

(** Equality of two commands written with different bracketing. *)
Ltac same_text :=
  cbv beta delta [command token value_text fold_right remove_command where_clause];
  cbv beta iota;
  rewrite ?app_assoc, ?app_nil_r; reflexivity.

(** ** The connector monad *)

Lemma quiet_ret {A} (a : A) : quiet (ret a).
Proof. intros dev log. reflexivity. Qed.

Lemma quiet_if {A} (b : bool) (m1 m2 : Conn A) :
  quiet m1 -> quiet m2 -> quiet (if b then m1 else m2).
Proof. destruct b; auto. Qed.

Lemma submits_exec {A} (cmd cmd' : string) (k : string -> Conn A) :
  cmd = cmd' -> (forall r, quiet (k r)) ->
  submits (do r <- execute_mikrotik_command cmd ;; k r) cmd'.
Proof.
  intros <- H dev log. unfold journal, bind, execute_mikrotik_command. apply H.
Qed.

Lemma submits_unique {A} (m : Conn A) (c1 c2 : string) :
  submits m c1 -> submits m c2 -> c1 = c2.
Proof.
  intros H1 H2.
  specialize (H1 (fun _ _ => EmptyString) []). specialize (H2 (fun _ _ => EmptyString) []).
  rewrite H1 in H2. now injection H2.
Qed.

Ltac quiet_tac := intros; repeat first [apply quiet_ret | apply quiet_if].

(** The head constant of an application. *)
Ltac head_of t := lazymatch t with ?f _ => head_of f | _ => t end.

(** Unfolds the domain function a goal about [submits] or [classified] is
    stated on, up to the call of the connector. *)
Ltac enter_operation :=
  lazymatch goal with
  | |- submits ?op _ => let h := head_of op in unfold h
  | |- classified ?op _ _ => let h := head_of op in unfold h
  end;
  cbv zeta.

(** An operation called on given arguments submits the command at hand. *)
Ltac submits_tac :=
  enter_operation;
  cbv beta iota delta [truthy is_not_None optional_truthy];
  apply submits_exec; [same_text | quiet_tac].

(** ** Classification of the response (C1) *)

Lemma classified_intro (cmd action : string) (success : string -> string) :
  (forall raw, success raw <> "Failed to " ++ action ++ ": " ++ raw) ->
  classified
    (do result <- execute_mikrotik_command cmd ;;
     if py_in "failure:" (lower result) || py_in "error" (lower result)
     then ret ("Failed to " ++ action ++ ": " ++ result)
     else ret (success result))
    action success.
Proof.
  intros Hne dev log. exists cmd.
  unfold journal, returned, bind, execute_mikrotik_command, ret.
  pose proof (failure_test_iff (dev log cmd)) as Hf.
  destruct (py_in "failure:" (lower (dev log cmd)) || py_in "error" (lower (dev log cmd)));
    cbn [fst snd].
  - split; [reflexivity|]. split; [tauto|]. intros H. exfalso. apply H, Hf. reflexivity.
  - split; [reflexivity|]. split.
    + split; [intros H; exfalso; exact (Hne _ H) | intros H; apply Hf in H; discriminate].
    + reflexivity.
Qed.

Lemma classifying_operation_classified op action success :
  classifying_operation op action success -> classified op action success.
Proof.
  intros H. destruct H; enter_operation;
    lazymatch goal with
    | |- classified (bind (execute_mikrotik_command ?c) _) ?a ?s =>
        apply (classified_intro c a s)
    end;
    intros raw; apply first_char_neq; discriminate.
Qed.

(** C1.  Every operation of the domain modules that classifies the response
    of the connector returns [Failed to <action>: <raw response>] if and only
    if the lower-cased raw response contains [failure:] or [error], and
    returns its success string otherwise; it submits one command.  A response
    such as [no error here, all good] is a failure. *)
Theorem failure_classification (op : Conn string) (action : string)
    (success : string -> string) :
  classifying_operation op action success ->
  classified op action success /\ failure_classified "no error here, all good".
Proof.
  intros H. split.
  - now apply classifying_operation_classified.
  - right. exists "no ", " here, all good". reflexivity.
Qed.

Lemma failure_classification_witness :
  classifying_operation (bridge.mikrotik_remove_bridge "br0") "remove bridge"
    (fun _ => "Bridge 'br0' removed successfully")
  /\ classified (bridge.mikrotik_remove_bridge "br0") "remove bridge"
       (fun _ => "Bridge 'br0' removed successfully")
  /\ failure_classified "no error here, all good".
Proof.
  split; [exact (cl_remove_bridge "br0")|].
  apply (failure_classification _ _ _ (cl_remove_bridge "br0")).
Defined.

(** ** Commands built from the required parameters (C2) *)

(** C2.  A create or add operation invoked with its required parameters only
    submits the path and verb followed by the tokens of the required
    parameters, in the order of declaration, and nothing else.  (For
    [add_script] the value of [source] is the escaped source.) *)
Theorem required_only_command (op : Conn string) (path : string) (tokens : list string) :
  required_only op path tokens -> submits op (command path tokens).
Proof. intros H. destruct H; submits_tac. Qed.

Lemma required_only_command_witness :
  required_only
    (bridge.mikrotik_create_bridge "br0" None None None None None None None None None)
    "/interface bridge add" [token "name" quoted "br0"]
  /\ submits
       (bridge.mikrotik_create_bridge "br0" None None None None None None None None None)
       ("/interface bridge add name=" ++ dq ++ "br0" ++ dq).
Proof.
  split; [exact (ro_create_bridge "br0")|].
  exact (required_only_command _ _ _ (ro_create_bridge "br0")).
Defined.

(** ** Removals (C6) *)

(** C6.  A [remove_*] operation addresses its target with an inline
    [[find key="value"]] filter; [remove_ipv6_address] and
    [remove_ipv6_route], the two entries of the catalogue with [by_id], put
    the identifier they are given right after [remove ]. *)
Theorem remove_addressing (op : Conn string) (menu : string) (t : target) :
  remove_operation op menu t -> submits op (remove_command menu t).
Proof. intros H. destruct H; submits_tac. Qed.

Lemma remove_addressing_witness :
  (remove_operation (bridge.mikrotik_remove_bridge "br0") "/interface bridge"
     (by_find "name" "br0")
   /\ submits (bridge.mikrotik_remove_bridge "br0")
        ("/interface bridge remove [find name=" ++ dq ++ "br0" ++ dq ++ "]"))
  /\ (remove_operation (ipv6.mikrotik_remove_ipv6_address "*1") "/ipv6 address" (by_id "*1")
      /\ submits (ipv6.mikrotik_remove_ipv6_address "*1") "/ipv6 address remove *1").
Proof.
  split; (split; [constructor|]).
  - exact (remove_addressing _ _ _ (rm_remove_bridge "br0")).
  - exact (remove_addressing _ _ _ (rm_remove_ipv6_address "*1")).
Defined.

(** ** Operations that never inspect the response (C7) *)

(** C7.  [reset_queue_counters], [system_reboot] and [system_shutdown] submit
    their command and return their success text whatever the device
    answers. *)
Theorem unconditional_success (dev : device) (log : list string) :
  (returned queue.mikrotik_reset_queue_counters dev log = "Queue counters reset successfully"
   /\ journal queue.mikrotik_reset_queue_counters dev log
      = (log ++ ["/queue simple reset-counters"])%list)
  /\ (returned system.mikrotik_system_reboot dev log = "System reboot initiated"
      /\ journal system.mikrotik_system_reboot dev log = (log ++ ["/system reboot"])%list)
  /\ (returned system.mikrotik_system_shutdown dev log = "System shutdown initiated"
      /\ journal system.mikrotik_system_shutdown dev log
         = (log ++ ["/system shutdown"])%list).
Proof. repeat split. Qed.

(** ** Optional parameters (C3, C5) *)

Section OptionalToken.

Context {A : Type} (r : rendering A) (key : string).

(** The parameter's own statement: [if G x: cmd = Y else: cmd = X], where
    [Y] is [X] followed by the token. *)
Lemma optional_token_here (G : option A -> bool) (Y : option A -> string) (X : string) :
  G None = false ->
  (forall v, effective r v = true -> G (Some v) = true) ->
  (forall v, blank r v = true -> G (Some v) = false) ->
  (forall v, Y (Some v) = X ++ token key r v) ->
  optional_token r key (fun o => if G o then Y o else X).
Proof.
  intros HN He Hb HY. exists X, EmptyString. rewrite HN. repeat split.
  - now rewrite app_nil_r.
  - intros v Hv. now rewrite (He v Hv), HY, app_nil_r.
  - intros v Hv. now rewrite (Hb v Hv), app_nil_r.
Qed.

(** A later statement [if g: cmd += t] on another parameter. *)
Lemma optional_token_later (cmd : option A -> string) (g : bool) (t : string) :
  optional_token r key cmd ->
  optional_token r key (fun o => if g then cmd o ++ t else cmd o).
Proof.
  intros (pre & post & HN & He & Hb).
  exists pre, (post ++ if g then t else EmptyString). repeat split.
  - rewrite HN. destruct g; now rewrite ?app_nil_r, ?app_assoc.
  - intros v Hv. rewrite (He v Hv). destruct g; now rewrite ?app_nil_r, ?app_assoc.
  - intros v Hv. rewrite (Hb v Hv). destruct g; now rewrite ?app_nil_r, ?app_assoc.
Qed.

Lemma splices_intro (f : option A -> Conn string) (cmd : option A -> string) :
  (forall o, submits (f o) (cmd o)) -> optional_token r key cmd -> splices f key r.
Proof.
  intros Hs (pre & post & HN & He & Hb). exists pre, post. repeat split.
  - rewrite <- HN. apply Hs.
  - intros v Hv. rewrite <- (He v Hv). apply Hs.
  - intros v Hv. rewrite <- (Hb v Hv). apply Hs.
Qed.

End OptionalToken.

Ltac guard_tac :=
  let v := fresh "v" in
  let H := fresh "H" in
  intros v H;
  first [ exact H | reflexivity | discriminate H | apply negb_true_iff in H; exact H ].

Ltac optional_token_tac :=
  cbv beta;
  repeat apply optional_token_later;
  apply optional_token_here;
  [ reflexivity | guard_tac | guard_tac
  | intros; first [ reflexivity
                  | cbv beta delta [token value_text]; cbv beta iota;
                    rewrite ?app_assoc; reflexivity ] ].

(** Every optional attribute parameter is spliced into the command under the
    guard of its rendering. *)
Lemma optional_parameter_splices (A : Type) (f : option A -> Conn string) (key : string)
    (r : rendering A) :
  optional_parameter A f key r -> splices f key r.
Proof.
  intros H. destruct H.
  all: eapply splices_intro;
    [ intro o; lazymatch goal with |- submits ?op _ => let h := head_of op in unfold h end;
      cbv zeta; apply submits_exec; [reflexivity | quiet_tac]
    | optional_token_tac ].
Qed.

(** C3.  Every optional boolean attribute has three observable outcomes at a
    fixed place of the command: [True] appends [key=yes], [False] appends
    [key=no], and an unset parameter appends nothing. *)
Theorem boolean_attribute_three_outcomes (f : option bool -> Conn string) (key : string) :
  optional_parameter bool f key flag ->
  exists pre post : string,
    let yes := pre ++ (" " ++ key ++ "=yes") ++ post in
    let no := pre ++ (" " ++ key ++ "=no") ++ post in
    let unset := pre ++ post in
    submits (f (Some true)) yes /\ submits (f (Some false)) no /\ submits (f None) unset
    /\ yes <> no /\ unset <> yes /\ unset <> no.
Proof.
  intros H. apply optional_parameter_splices in H as (pre & post & HN & He & _).
  exists pre, post. cbv zeta. repeat split.
  - exact (He true eq_refl).
  - exact (He false eq_refl).
  - exact HN.
  - apply splice_length_neq. rewrite !length_app. cbn [String.length]. lia.
  - apply splice_neq. discriminate.
  - apply splice_neq. discriminate.
Qed.

Lemma boolean_attribute_three_outcomes_witness :
  optional_parameter bool
    (fun vlan_filtering =>
       bridge.mikrotik_create_bridge "br0" None None None None None None vlan_filtering
         None None)
    "vlan-filtering" flag
  /\ exists pre post : string,
       submits
         (bridge.mikrotik_create_bridge "br0" None None None None None None (Some true)
            None None)
         (pre ++ " vlan-filtering=yes" ++ post)
       /\ submits
            (bridge.mikrotik_create_bridge "br0" None None None None None None (Some false)
               None None)
            (pre ++ " vlan-filtering=no" ++ post)
       /\ submits
            (bridge.mikrotik_create_bridge "br0" None None None None None None None
               None None)
            (pre ++ post).
Proof.
  split; [constructor|].
  destruct (boolean_attribute_three_outcomes _ _
              (op_create_bridge_vlan_filtering "br0" None None None None None None None None))
    as (pre & post & Hyes & Hno & Hunset & _).
  exists pre, post. exact (conj Hyes (conj Hno Hunset)).
Defined.

(** C5, as the code has it.  For every operation that writes and every
    optional attribute parameter, the token is spliced into the command when
    the parameter is supplied with a value that its guard lets through: any
    value under [is not None] (booleans and most integers), a non-empty
    string or list, a non-zero integer under [if x:]; nothing is appended
    when the parameter is absent, and an empty string or list counts as
    absent. *)
Theorem effective_optional_token (A : Type) (f : option A -> Conn string) (key : string)
    (r : rendering A) :
  optional_parameter A f key r -> splices f key r.
Proof. exact (optional_parameter_splices A f key r). Qed.

Lemma effective_optional_token_witness :
  optional_parameter string
    (fun comment =>
       bridge.mikrotik_create_bridge "br0" None None None None None None None comment None)
    "comment" quoted
  /\ splices
       (fun comment =>
          bridge.mikrotik_create_bridge "br0" None None None None None None None comment None)
       "comment" quoted.
Proof.
  split; [constructor|].
  apply (effective_optional_token _ _ _ _
           (op_create_bridge_comment "br0" None None None None None None None None)).
Defined.

(** C5 as stated fails: a comment supplied as the empty string and an MTU
    supplied as 0 leave the command of [create_bridge] without their
    token. *)
Lemma supplied_falsy_counterexample :
  (optional_parameter string
     (fun comment =>
        bridge.mikrotik_create_bridge "br0" None None None None None None None comment None)
     "comment" quoted
   /\ submits
        (bridge.mikrotik_create_bridge "br0" None None None None None None None
           (Some EmptyString) None)
        ("/interface bridge add name=" ++ dq ++ "br0" ++ dq)
   /\ ~ splices_whenever_supplied
          (fun comment =>
             bridge.mikrotik_create_bridge "br0" None None None None None None None comment
               None)
          "comment" quoted)
  /\ (optional_parameter Z
        (fun mtu =>
           bridge.mikrotik_create_bridge "br0" mtu None None None None None None None None)
        "mtu" nonzero_number
      /\ submits
           (bridge.mikrotik_create_bridge "br0" (Some 0%Z) None None None None None None
              None None)
           ("/interface bridge add name=" ++ dq ++ "br0" ++ dq)
      /\ ~ splices_whenever_supplied
             (fun mtu =>
                bridge.mikrotik_create_bridge "br0" mtu None None None None None None None
                  None)
             "mtu" nonzero_number).
Proof.
  assert (forall A (f : option A -> Conn string) key r v base,
            submits (f None) base -> submits (f (Some v)) base ->
            ~ splices_whenever_supplied f key r) as Hno.
  { intros A f key r v base HN HS (pre & post & HN' & HS').
    pose proof (submits_unique _ _ _ HN HN') as E1.
    pose proof (submits_unique _ _ _ HS (HS' v)) as E2.
    rewrite E1 in E2. revert E2. apply splice_neq. discriminate. }
  split; (split; [constructor|]).
  - split; [submits_tac|]. eapply Hno with (v := EmptyString); submits_tac.
  - split; [submits_tac|]. eapply Hno with (v := 0%Z); submits_tac.
Qed.

(** ** Listings with several filters (C4) *)

Ltac filters_tac :=
  enter_operation;
  apply submits_exec; [| quiet_tac];
  cbv beta iota delta [truthy is_not_None optional_truthy str_truthy bool_truthy
                       where_clause applies supplied clause
                       quoted_filter bare_filter flag_filter];
  rewrite ?app_assoc, ?app_nil_r; reflexivity.

(** C4, as the code has it.  A listing with several filters submits its
    [print] command with at most one [where] clause: that of the first
    filter, in the order of the [if]/[elif] chain, whose argument is true in
    a condition (a non-empty string, or [True]); filters are never
    combined. *)
Theorem first_applicable_filter (op : Conn string) (path : string) (filters : list filter) :
  filtered_listing op path filters -> submits op (path ++ where_clause applies filters).
Proof.
  intros H. destruct H;
    repeat match goal with
           | v : option string |- _ => destruct v as [[|? ?]|]
           | v : option bool |- _ => destruct v as [[|]|]
           end;
    filters_tac.
Qed.

Lemma first_applicable_filter_witness :
  filtered_listing (bridge.mikrotik_list_bridges (Some "br") (Some true))
    "/interface bridge print"
    [quoted_filter "name~" (Some "br"); flag_filter "disabled=yes" (Some true)]
  /\ submits (bridge.mikrotik_list_bridges (Some "br") (Some true))
       ("/interface bridge print where name~" ++ dq ++ "br" ++ dq).
Proof.
  split; [constructor|].
  exact (first_applicable_filter _ _ _ (fl_list_bridges (Some "br") (Some true))).
Defined.

(** C4 as stated fails: with the name filter supplied as the empty string
    and [disabled_only] true, the clause is that of the second filter, not
    that of the first supplied one. *)
Lemma first_supplied_filter_counterexample :
  filtered_listing (bridge.mikrotik_list_bridges (Some EmptyString) (Some true))
    "/interface bridge print"
    [quoted_filter "name~" (Some EmptyString); flag_filter "disabled=yes" (Some true)]
  /\ submits (bridge.mikrotik_list_bridges (Some EmptyString) (Some true))
       "/interface bridge print where disabled=yes"
  /\ where_clause supplied
       [quoted_filter "name~" (Some EmptyString); flag_filter "disabled=yes" (Some true)]
     = " where name~" ++ dq ++ dq
  /\ ~ submits (bridge.mikrotik_list_bridges (Some EmptyString) (Some true))
         ("/interface bridge print"
            ++ where_clause supplied
                 [quoted_filter "name~" (Some EmptyString);
                  flag_filter "disabled=yes" (Some true)]).
Proof.
  split; [constructor|].
  assert (submits (bridge.mikrotik_list_bridges (Some EmptyString) (Some true))
            "/interface bridge print where disabled=yes") as Hs by filters_tac.
  split; [exact Hs|]. split; [reflexivity|].
  intros H. pose proof (submits_unique _ _ _ Hs H) as E. discriminate E.
Qed.

(** ** The escaping of script sources (C9) *)

Lemma prefix_char (d c : ascii) (rest : string) :
  String.prefix (String d EmptyString) (String c rest) = Ascii.eqb c d.
Proof.
  cbn [String.prefix]. destruct (ascii_dec d c) as [->|n].
  - rewrite Ascii.eqb_refl. now destruct rest.
  - symmetry. apply Ascii.eqb_neq. congruence.
Qed.

(** Replacing one character by a string goes character by character. *)
Lemma replace_char_cons (d c : ascii) (new rest : string) :
  replace (String d EmptyString) new (String c rest)
  = (if Ascii.eqb c d then new else String c EmptyString)
      ++ replace (String d EmptyString) new rest.
Proof.
  unfold replace. cbn [replace_from]. rewrite prefix_char.
  destruct (Ascii.eqb c d); reflexivity.
Qed.

Lemma escape_replace (source : string) :
  replace nl (bs ++ "n") (replace dq (bs ++ dq) source) = escape source.
Proof.
  induction source as [|c rest IH]; [reflexivity|].
  change (replace dq (bs ++ dq) (String c rest))
    with (replace (String "034" EmptyString) (bs ++ dq) (String c rest)).
  rewrite replace_char_cons. cbn [escape]. unfold escape_char.
  destruct (Ascii.eqb c "034") eqn:Hq.
  - change ((bs ++ dq) ++ replace (String "034" EmptyString) (bs ++ dq) rest)
      with (String "092" (String "034" (replace dq (bs ++ dq) rest))).
    change nl with (String "010" EmptyString) at 1.
    rewrite !replace_char_cons.
    change (replace (String "010" EmptyString) (bs ++ "n") (replace dq (bs ++ dq) rest))
      with (replace nl (bs ++ "n") (replace dq (bs ++ dq) rest)).
    rewrite IH. reflexivity.
  - change (String c EmptyString ++ replace (String "034" EmptyString) (bs ++ dq) rest)
      with (String c (replace dq (bs ++ dq) rest)).
    change nl with (String "010" EmptyString) at 1.
    rewrite replace_char_cons.
    change (replace (String "010" EmptyString) (bs ++ "n") (replace dq (bs ++ dq) rest))
      with (replace nl (bs ++ "n") (replace dq (bs ++ dq) rest)).
    rewrite IH. reflexivity.
Qed.

(** C9.  [add_script] embeds its source with every double quote replaced by
    backslash and double quote, every line feed by backslash and [n], and
    every other character unchanged.  The source [say "hi"], line feed, [bye]
    is embedded with both quotes preceded by a backslash and the line feed
    turned into the two characters backslash and [n]. *)
Theorem add_script_escaping (name source : string) (policy comment : option string)
    (dont_require_permissions : option bool) :
  (exists post,
     submits (system.mikrotik_add_script name source policy comment dont_require_permissions)
       ("/system script add name=" ++ dq ++ name ++ dq
          ++ " source=" ++ dq ++ escape source ++ dq ++ post))
  /\ escape ("say " ++ dq ++ "hi" ++ dq ++ nl ++ "bye")
     = "say " ++ bs ++ dq ++ "hi" ++ bs ++ dq ++ bs ++ "nbye"
  /\ submits
       (system.mikrotik_add_script "greet" ("say " ++ dq ++ "hi" ++ dq ++ nl ++ "bye")
          None None None)
       ("/system script add name=" ++ dq ++ "greet" ++ dq
          ++ " source=" ++ dq
          ++ "say " ++ bs ++ dq ++ "hi" ++ bs ++ dq ++ bs ++ "nbye" ++ dq).
Proof.
  split; [|split; [reflexivity|]].
  - eexists. enter_operation. rewrite escape_replace.
    apply submits_exec; [| quiet_tac].
    repeat match goal with
           | |- context [if ?b then ?c ++ ?t else ?c] =>
               replace (if b then c ++ t else c) with (c ++ if b then t else EmptyString)
                 by (destruct b; now rewrite ?app_nil_r)
           end.
    rewrite ?app_assoc. reflexivity.
  - enter_operation. apply submits_exec; [reflexivity | quiet_tac].
Qed.

(** ** The BGP instance (C10) *)

(** C10, as the code has it.  [create_bgp_instance] with its required
    parameters only submits [/routing bgp instance add] followed by the
    quoted name and the AS number, unquoted, under the key [as]. *)
Theorem bgp_instance_as_key (name : string) (as_number : Z) :
  submits
    (routing_advanced.mikrotik_create_bgp_instance name as_number
       None None None None None None None)
    (command "/routing bgp instance add"
       [token "name" quoted name; token "as" number as_number]).
Proof. submits_tac. Qed.

(** C10 as stated fails: the key is [as], not [as-number]. *)
Lemma bgp_as_number_counterexample :
  submits
    (routing_advanced.mikrotik_create_bgp_instance "core" 65000 None None None None None
       None None)
    ("/routing bgp instance add name=" ++ dq ++ "core" ++ dq ++ " as=65000")
  /\ ~ submits
         (routing_advanced.mikrotik_create_bgp_instance "core" 65000 None None None None
            None None None)
         ("/routing bgp instance add name=" ++ dq ++ "core" ++ dq ++ " as-number=65000").
Proof.
  assert (submits
            (routing_advanced.mikrotik_create_bgp_instance "core" 65000 None None None None
               None None None)
            ("/routing bgp instance add name=" ++ dq ++ "core" ++ dq ++ " as=65000")) as Hs
    by submits_tac.
  split; [exact Hs|].
  intros H. pose proof (submits_unique _ _ _ Hs H) as E. discriminate E.
Qed.

(** ** Missing required arguments (C8) *)

Section Handlers.

Lemma item_raises {A} `{Annotated A} (args : gmap string value) (key : string) :
  args !! key = None -> raises (A := A) (item args key).
Proof. intros E. exists key. unfold item. now rewrite E. Qed.

Lemma ap_raises_l {A B} (f : outcome (A -> B)) (x : outcome A) :
  raises f -> raises (f <*> x).
Proof. intros [k ->]. exists k. reflexivity. Qed.

Lemma ap_raises_r {A B} (f : outcome (A -> B)) (x : outcome A) :
  raises x -> raises (f <*> x).
Proof. intros [k ->]. destruct f as [g|[k']|]; [exists k | exists k' | exists k]; reflexivity. Qed.

Lemma call_raises (c : outcome (Conn string)) :
  raises c -> forall dev log, exists key, call c dev log = (Raised (KeyError key), log).
Proof. intros [k ->] dev log. exists k. reflexivity. Qed.

Lemma typed_no_raise {A} `{Annotated A} (v : value) : no_raise (A := A) (typed v).
Proof. intros e. unfold typed. destruct (of_value v); discriminate. Qed.

Lemma item_no_raise {A} `{Annotated A} (args : gmap string value) (key : string) :
  args !! key <> None -> no_raise (A := A) (item args key).
Proof.
  intros E. unfold item. destruct (args !! key); [apply typed_no_raise | congruence].
Qed.

Lemma get_no_raise {A} `{Annotated A} (args : gmap string value) (key : string) :
  no_raise (A := A) (get args key).
Proof. apply typed_no_raise. Qed.

Lemma pure_no_raise {A} (a : A) : no_raise (pure a).
Proof. intros e. discriminate. Qed.

Lemma ap_no_raise {A B} (f : outcome (A -> B)) (x : outcome A) :
  no_raise f -> no_raise x -> no_raise (f <*> x).
Proof.
  intros Hf Hx e. destruct f as [g|e'|]; [| now destruct (Hf e') |];
    (destruct x as [a|e'|]; [| now destruct (Hx e') |]); discriminate.
Qed.

Lemma call_no_raise (c : outcome (Conn string)) (dev : device) (log : list string) :
  no_raise c -> no_raise (fst (call c dev log)).
Proof.
  intros Hc e. destruct c as [op|e'|]; [| now destruct (Hc e') |]; cbn.
  - unfold bind, ret. destruct (op dev log). discriminate.
  - discriminate.
Qed.

Lemma call_returned (op : Conn string) (dev : device) (log : list string) :
  call (Returned op) dev log = (Returned (returned op dev log), journal op dev log).
Proof. unfold call, bind, ret, returned, journal. now destruct (op dev log). Qed.

End Handlers.

Lemma lookup_list_to_map_assoc {V} (l : list (string * V)) (key : string) :
  (list_to_map l : gmap string V) !! key = assoc key l.
Proof.
  induction l as [|[k v] l IH]; [apply lookup_empty|].
  cbn [list_to_map foldr assoc fst snd]. destruct (String.eqb_spec k key) as [->|n].
  - apply lookup_insert_eq.
  - now rewrite lookup_insert_ne.
Qed.

Ltac raise_tac H :=
  first [ apply ap_raises_r; apply item_raises; exact H
        | apply ap_raises_l; raise_tac H ].

Ltac member_tac := cbn; repeat first [ left; reflexivity | right ].

Ltac no_raise_tac Hreq :=
  repeat apply ap_no_raise;
  first [ apply pure_no_raise
        | apply get_no_raise
        | apply item_no_raise; apply Hreq; member_tac ].

Ltac lookup_tac :=
  rewrite ?lookup_list_to_map_assoc;
  cbv beta iota delta [assoc String.eqb Ascii.eqb Bool.eqb].

Ltac handler_tac :=
  split; [|split];
  [ let key := fresh "key" in
    let args := fresh "args" in
    let Hin := fresh "Hin" in
    let Hnone := fresh "Hnone" in
    let dev := fresh "dev" in
    let log := fresh "log" in
    intros key args Hin Hnone dev log; cbv beta; apply call_raises;
    cbn [In mcp.required] in Hin;
    repeat (destruct Hin as [Hin|Hin]; [subst key; raise_tac Hnone|]);
    destruct Hin
  | let args := fresh "args" in
    let Hreq := fresh "Hreq" in
    let dev := fresh "dev" in
    let log := fresh "log" in
    intros args Hreq dev log; cbv beta; apply call_no_raise; no_raise_tac Hreq
  | let args := fresh "args" in
    let op := fresh "op" in
    let Hcat := fresh "Hcat" in
    let dev := fresh "dev" in
    let log := fresh "log" in
    intros args op Hcat; cbn [mcp.name] in Hcat; inversion Hcat; subst;
    intros dev log; cbv beta; unfold item, get; lookup_tac;
    apply call_returned ].

(** C8.  For every declared tool of every adapter and its handler: if a
    required property is absent from the bag, the handler raises [KeyError]
    and nothing is submitted to the connector; if every required property is
    there, no exception is raised, whatever optional property is absent; and
    with the required properties only, the handler makes the domain call with
    [None] for every optional parameter. *)
Theorem missing_required_argument (tools : list mcp.Tool) (handlers : gmap string handler)
    (t : mcp.Tool) (h : handler) :
  In (tools, handlers) adapters -> In t tools -> handlers !! mcp.name t = Some h ->
  (forall key args, In key (mcp.required t) -> args !! key = None -> raises_untouched h args)
  /\ (forall args, (forall key, In key (mcp.required t) -> args !! key <> None) ->
        never_raises h args)
  /\ (forall args op, required_only_call (mcp.name t) args op -> dispatches h args op).
Proof.
  intros Ha Ht Hh. unfold adapters in Ha. cbn [In] in Ha.
  repeat (destruct Ha as [Ha|Ha]; [injection Ha as <- <-|]); [..|destruct Ha].
  all: lazymatch type of Ht with In _ ?l => unfold l in Ht end; cbn [In] in Ht.
  all: repeat (destruct Ht as [Ht|Ht]; [subst t|]); [..|destruct Ht].
  all: cbn [mcp.name] in Hh;
    lazymatch type of Hh with ?m !! _ = _ => unfold m in Hh end;
    rewrite lookup_list_to_map_assoc in Hh;
    cbv beta iota delta [assoc String.eqb Ascii.eqb Bool.eqb] in Hh;
    apply (inj Some) in Hh; subst h.
  all: handler_tac.
Qed.

Lemma missing_required_argument_witness :
  exists h : handler,
    bridge_tools.get_bridge_handlers !! "mikrotik_create_bridge" = Some h
    /\ raises_untouched h (list_to_map [])
    /\ raises_untouched h (list_to_map [("comment", VStr "uplink")])
    /\ dispatches h (list_to_map [("name", VStr "br0")])
         (bridge.mikrotik_create_bridge "br0" None None None None None None None None None).
Proof.
  eexists. split.
  { unfold bridge_tools.get_bridge_handlers. rewrite lookup_list_to_map_assoc. reflexivity. }
  edestruct (missing_required_argument bridge_tools.get_bridge_tools
               bridge_tools.get_bridge_handlers) as (Hmiss & _ & Hcall).
  - left. reflexivity.
  - left. reflexivity.
  - unfold bridge_tools.get_bridge_handlers. rewrite lookup_list_to_map_assoc. reflexivity.
  - split; [|split].
    + apply (Hmiss "name"); [left; reflexivity | reflexivity].
    + apply (Hmiss "name"); [left; reflexivity | reflexivity].
    + apply Hcall. constructor.
Defined.

(** * Further properties *)

(** ** The complete command of every operation *)

Lemma if_app (b : bool) (c t : string) :
  (if b then c ++ t else c) = c ++ (if b then t else EmptyString).
Proof. destruct b; [reflexivity | now rewrite app_nil_r]. Qed.

Section OptionalText.

Context (key : string).

Lemma optional_text_bare (o : option string) :
  optional_text key bare o
  = if truthy o then " " ++ key ++ "=" ++ fmt o else EmptyString.
Proof. now destruct o. Qed.

Lemma optional_text_quoted (o : option string) :
  optional_text key quoted o
  = if truthy o then " " ++ key ++ "=" ++ dq ++ fmt o ++ dq else EmptyString.
Proof. now destruct o. Qed.

Lemma optional_text_number (o : option Z) :
  optional_text key number o
  = if is_not_None o then " " ++ key ++ "=" ++ fmt o else EmptyString.
Proof. now destruct o. Qed.

Lemma optional_text_nonzero_number (o : option Z) :
  optional_text key nonzero_number o
  = if truthy o then " " ++ key ++ "=" ++ fmt o else EmptyString.
Proof. now destruct o. Qed.

Lemma optional_text_flag (o : option bool) :
  optional_text key flag o
  = if is_not_None o
    then " " ++ key ++ "=" ++ (if truthy o then "yes" else "no")
    else EmptyString.
Proof. now destruct o. Qed.

Lemma optional_text_joined (o : option (list string)) :
  optional_text key joined o
  = if truthy o then " " ++ key ++ "=" ++ dq ++ join "," o ++ dq else EmptyString.
Proof. now destruct o. Qed.

End OptionalText.

(** Both sides of an equation between commands, brought to the same
    bracketing: the conditional appends of the source as appended
    conditionals, the contributions of the catalogue as their conditionals. *)
Ltac normal_form :=
  rewrite ?escape_replace;
  repeat rewrite if_app;
  cbv beta iota delta [command find_command fold_right token value_text];
  rewrite ?optional_text_bare, ?optional_text_quoted, ?optional_text_number,
    ?optional_text_nonzero_number, ?optional_text_flag, ?optional_text_joined;
  rewrite ?app_assoc, ?app_nil_r.

Lemma write_operation_submits (op : Conn string) (base : string) (tokens : list string) :
  write_operation op base tokens -> submits op (command base tokens).
Proof.
  intros H. destruct H; enter_operation; (apply submits_exec; [| quiet_tac]);
    first [ reflexivity
          | normal_form; reflexivity
          | repeat match goal with v : option string |- _ => destruct v as [[|? ?]|] end;
            normal_form; reflexivity ].
Qed.

(** X1.  Every operation that is neither a listing nor a removal submits,
    for all its arguments, the base of its command followed by the tokens of
    its required parameters and, for each optional parameter in the order of
    the source, its token if it is supplied with a value that passes its
    guard and nothing otherwise. *)
Theorem write_command_normal_form (op : Conn string) (base : string)
    (tokens : list string) :
  write_operation op base tokens -> submits op (command base tokens).
Proof. exact (write_operation_submits op base tokens). Qed.

Lemma write_command_normal_form_witness :
  write_operation
    (bridge.mikrotik_create_bridge "br0" (Some 1500%Z) None None None (Some 0%Z) None
       (Some false) (Some "up link") None)
    "/interface bridge add"
    [token "name" quoted "br0"; optional_text "mtu" nonzero_number (Some 1500%Z);
     optional_text "arp" bare None; optional_text "arp-timeout" bare None;
     optional_text "ageing-time" bare None; optional_text "priority" number (Some 0%Z);
     optional_text "protocol-mode" bare None;
     optional_text "vlan-filtering" flag (Some false);
     optional_text "comment" quoted (Some "up link"); optional_text "disabled" flag None]
  /\ submits
       (bridge.mikrotik_create_bridge "br0" (Some 1500%Z) None None None (Some 0%Z) None
          (Some false) (Some "up link") None)
       ("/interface bridge add name=" ++ dq ++ "br0" ++ dq
          ++ " mtu=1500 priority=0 vlan-filtering=no comment=" ++ dq ++ "up link" ++ dq).
Proof.
  split; [constructor|].
  exact (write_command_normal_form _ _ _
           (wr_create_bridge "br0" (Some 1500%Z) None None None (Some 0%Z) None
              (Some false) (Some "up link") None)).
Defined.

(** ** Listings never write *)

Lemma read_operation_submits (op : Conn string) (menu : string) (filters : list filter) :
  read_operation op menu filters ->
  submits op (menu ++ " print" ++ where_clause applies filters).
Proof.
  intros H. destruct H;
    repeat match goal with
           | v : option string |- _ => destruct v as [[|? ?]|]
           | v : option bool |- _ => destruct v as [[|]|]
           end;
    filters_tac.
Qed.



(** ** One command per call *)

Lemma prefix_app (p a b : string) :
  String.prefix p a = true -> String.prefix p (a ++ b) = true.
Proof.
  rewrite !prefix_iff. intros [r ->]. exists (r ++ b). now rewrite app_assoc.
Qed.

Lemma operation_submits (op : Conn string) :
  operation op -> exists cmd, submits op cmd /\ String.prefix "/" cmd = true.
Proof.
  intros H. destruct H as [op action success H| | |].
  - destruct H; eexists; (split; [enter_operation; apply submits_exec;
                                    [reflexivity | quiet_tac]|]);
      rewrite ?if_app, ?app_assoc;
      first [ reflexivity
            | repeat match goal with
                     | |- context [if ?g then _ else _] => destruct g
                     end; reflexivity ].
  - eexists. split; [enter_operation; apply submits_exec; [reflexivity | quiet_tac]|].
    reflexivity.
  - eexists. split; [enter_operation; apply submits_exec; [reflexivity | quiet_tac]|].
    reflexivity.
  - eexists. split; [enter_operation; apply submits_exec; [reflexivity | quiet_tac]|].
    reflexivity.
Qed.

(** X3.  Every function of the domain modules submits exactly one command
    per call; the command is fixed by the arguments alone, whatever the
    device answers and whatever was submitted before, and it begins with
    the [/] of an absolute menu path.  Nothing is retried and no second
    command follows a failure. *)
Theorem one_command_per_call (op : Conn string) :
  operation op ->
  exists cmd, String.prefix "/" cmd = true
    /\ forall dev log, journal op dev log = (log ++ [cmd])%list.
Proof.
  intros H. destruct (operation_submits op H) as (cmd & Hs & Hp).
  exists cmd. split; [exact Hp | exact Hs].
Qed.

Lemma one_command_per_call_witness :
  operation (system.mikrotik_run_script "backup")
  /\ exists cmd, String.prefix "/" cmd = true
       /\ forall dev log,
            journal (system.mikrotik_run_script "backup") dev log = (log ++ [cmd])%list.
Proof.
  split; [exact (fn_classifying _ _ _ (cl_run_script "backup"))|].
  exact (one_command_per_call _ (fn_classifying _ _ _ (cl_run_script "backup"))).
Defined.

(** ** What the escaping of a script source guarantees, and what it does not *)

Lemma escape_app (a b : string) : escape (a ++ b) = escape a ++ escape b.
Proof.
  induction a as [|c a IH]; [reflexivity|].
  rewrite app_cons. cbn [escape]. now rewrite IH, app_assoc.
Qed.

Lemma escape_chars (s pre post : string) (c : ascii) :
  escape s = pre ++ String c post ->
  c <> "010"%char
  /\ (c = "034"%char -> exists pre', pre = pre' ++ bs).
Proof.
  revert pre. induction s as [|x s IH]; intros pre H.
  - destruct pre; discriminate.
  - cbn [escape] in H. unfold escape_char in H.
    destruct (Ascii.eqb_spec x "034"%char) as [->|Hq];
      [|destruct (Ascii.eqb_spec x "010"%char) as [->|Hn]].
    + destruct pre as [|p [|q pre]].
      * injection H as <- _. split; [discriminate | discriminate].
      * injection H as <- <- _. split; [discriminate|]. intros _. now exists EmptyString.
      * injection H as <- <- H. destruct (IH _ H) as [Hc Hd]. split; [exact Hc|].
        intros E. destruct (Hd E) as [pre' ->].
        exists (String "092"%char (String "034"%char pre')). reflexivity.
    + destruct pre as [|p [|q pre]].
      * injection H as <- _. split; [discriminate | discriminate].
      * injection H as <- <- _. split; [discriminate | discriminate].
      * injection H as <- <- H. destruct (IH _ H) as [Hc Hd]. split; [exact Hc|].
        intros E. destruct (Hd E) as [pre' ->].
        exists (String "092"%char (String "n"%char pre')). reflexivity.
    + destruct pre as [|p pre].
      * injection H as <- _. split; [exact Hn|]. intros E. now destruct Hq.
      * injection H as <- H. destruct (IH _ H) as [Hc Hd]. split; [exact Hc|].
        intros E. destruct (Hd E) as [pre' ->]. exists (String x pre'). reflexivity.
Qed.

(** X4.  The text that [add_script] embeds for a source never contains a
    line feed, and every double quote in it comes right after a
    backslash. *)
Theorem escaped_source_shape (source : string) :
  ~ Substring nl (source_escaped source)
  /\ forall pre post, source_escaped source = pre ++ dq ++ post ->
       exists pre', pre = pre' ++ bs.
Proof.
  unfold source_escaped. rewrite escape_replace. split.
  - intros (pre & post & H). now destruct (escape_chars _ _ _ _ H) as [Hc _].
  - intros pre post H. destruct (escape_chars _ _ _ _ H) as [_ Hd]. now apply Hd.
Qed.

(** X5.  The escaping leaves a backslash as it is, so it loses information:
    a source with a line feed and the source with a backslash and the letter
    [n] in its place are different scripts, and [add_script] submits the
    same command for both. *)
Theorem add_script_escaping_not_injective (name s t : string) (policy comment : option string)
    (dont_require_permissions : option bool) :
  s ++ nl ++ t <> s ++ bs ++ "n" ++ t
  /\ exists cmd,
       submits (system.mikrotik_add_script name (s ++ nl ++ t) policy comment
                  dont_require_permissions) cmd
       /\ submits (system.mikrotik_add_script name (s ++ bs ++ "n" ++ t) policy comment
                     dont_require_permissions) cmd.
Proof.
  split.
  - intros H. apply (f_equal String.length) in H. rewrite !length_app in H.
    cbn [String.length bs nl] in H. lia.
  - eexists. split.
    + exact (write_operation_submits _ _ _
               (wr_add_script name (s ++ nl ++ t) policy comment dont_require_permissions)).
    + replace (escape (s ++ nl ++ t)) with (escape (s ++ bs ++ "n" ++ t))
        by (now rewrite !escape_app).
      exact (write_operation_submits _ _ _
               (wr_add_script name (s ++ bs ++ "n" ++ t) policy comment
                  dont_require_permissions)).
Qed.

(** ** Values are spliced as they are *)

(** X6.  No optional parameter written within double quotes is escaped: a
    value that holds a double quote closes the attribute, and what follows
    it reaches the device as a further attribute of the command. *)
Theorem quoted_value_not_escaped (f : option string -> Conn string) (key : string) :
  optional_parameter string f key quoted ->
  exists pre post,
    submits (f None) (pre ++ post)
    /\ forall v key' w,
         submits (f (Some (v ++ dq ++ " " ++ key' ++ "=" ++ dq ++ w)))
           (pre ++ token key quoted v ++ token key' quoted w ++ post).
Proof.
  intros H. apply optional_parameter_splices in H as (pre & post & HN & He & _).
  exists pre, post. split; [exact HN|]. intros v key' w.
  specialize (He (v ++ dq ++ " " ++ key' ++ "=" ++ dq ++ w)).
  replace (token key quoted (v ++ dq ++ " " ++ key' ++ "=" ++ dq ++ w) ++ post)
    with (token key quoted v ++ token key' quoted w ++ post) in He.
  - apply He. now destruct v.
  - unfold token, value_text. now rewrite !app_assoc.
Qed.

Lemma quoted_value_not_escaped_witness :
  optional_parameter string
    (fun comment =>
       bridge.mikrotik_create_bridge "br0" None None None None None None None comment None)
    "comment" quoted
  /\ exists pre post,
       submits
         (bridge.mikrotik_create_bridge "br0" None None None None None None None None None)
         (pre ++ post)
       /\ forall v key' w,
            submits
              (bridge.mikrotik_create_bridge "br0" None None None None None None None
                 (Some (v ++ dq ++ " " ++ key' ++ "=" ++ dq ++ w)) None)
              (pre ++ token "comment" quoted v ++ token key' quoted w ++ post).
Proof.
  split; [constructor|].
  exact (quoted_value_not_escaped _ _
           (op_create_bridge_comment "br0" None None None None None None None None)).
Defined.

(** ** What counts as a failure, and what a listing returns *)

Lemma lower_app (a b : string) : lower (a ++ b) = lower a ++ lower b.
Proof.
  induction a as [|c a IH]; [reflexivity|].
  rewrite app_cons. cbn [lower]. now rewrite IH.
Qed.

Lemma failure_classified_fragment (pre frag post : string) :
  lower frag = "failure:" \/ lower frag = "error" ->
  failure_classified (pre ++ frag ++ post).
Proof.
  unfold failure_classified. rewrite !lower_app.
  intros [-> | ->]; [left | right]; now exists (lower pre), (lower post).
Qed.

(** X7.  The test for a failure looks at the response as a whole and
    ignores the letter case: whenever the response holds [error] or
    [failure:] anywhere, in any mixture of capital and small letters, every
    operation that classifies its response returns the failure message with
    the response after it, be the fragment part of a name or of a comment
    in an otherwise regular listing. *)
Theorem failure_fragment (op : Conn string) (action : string) (success : string -> string)
    (dev : device) (log : list string) :
  classifying_operation op action success ->
  exists cmd,
    journal op dev log = (log ++ [cmd])%list
    /\ forall pre frag post,
         dev log cmd = pre ++ frag ++ post ->
         lower frag = "failure:" \/ lower frag = "error" ->
         returned op dev log = "Failed to " ++ action ++ ": " ++ pre ++ frag ++ post.
Proof.
  intros H. apply classifying_operation_classified in H.
  destruct (H dev log) as (cmd & Hj & Hf & _). exists cmd. split; [exact Hj|].
  intros pre frag post E Hfrag. rewrite <- E. apply Hf. rewrite E.
  now apply failure_classified_fragment.
Qed.

Lemma failure_fragment_witness :
  classifying_operation (bridge.mikrotik_list_bridges None None) "list bridges"
    (fun result => "Bridge Interfaces:" ++ nl ++ nl ++ result)
  /\ returned (bridge.mikrotik_list_bridges None None)
       (fun _ _ => " 0 R name=" ++ dq ++ "br-TERROR" ++ dq ++ " mtu=1500") []
     = "Failed to list bridges: " ++ " 0 R name=" ++ dq ++ "br-T" ++ "ERROR"
         ++ dq ++ " mtu=1500".
Proof.
  split; [constructor|].
  destruct (failure_fragment _ _ _
              (fun _ _ => " 0 R name=" ++ dq ++ "br-TERROR" ++ dq ++ " mtu=1500") []
              (cl_list_bridges None None)) as (cmd & _ & H).
  apply (H (" 0 R name=" ++ dq ++ "br-T") "ERROR" (dq ++ " mtu=1500")).
  - reflexivity.
  - right. reflexivity.
Defined.

(** Membership in the catalogues of the operations is settled by the name
    of the function alone. *)
Create HintDb operations discriminated.
#[local] Hint Constants Opaque : operations.
#[local] Hint Constructors classifying_operation operation : operations.

Lemma read_operation_returns (op : Conn string) (menu : string) (filters : list filter) :
  read_operation op menu filters ->
  exists action heading,
    classified op action (fun result => heading ++ nl ++ nl ++ result).
Proof.
  intros H. destruct H; do 2 eexists;
    apply classifying_operation_classified; solve [eauto 2 with operations nocore].
Qed.

(** X8.  A [list_*] or [get_*] operation does nothing to the response: unless
    the response is classified as a failure, it returns a fixed heading, two
    line feeds and the response as the device gave it.  An empty response
    yields the heading alone; no operation reports that nothing was
    found. *)
Theorem read_returns_response (op : Conn string) (menu : string) (filters : list filter) :
  read_operation op menu filters ->
  exists heading,
    forall dev log,
      returned op dev log
      = heading ++ nl ++ nl ++ dev log (menu ++ " print" ++ where_clause applies filters)
      \/ failure_classified (dev log (menu ++ " print" ++ where_clause applies filters)).
Proof.
  intros H. destruct (read_operation_returns _ _ _ H) as (action & heading & Hc).
  apply read_operation_submits in H. exists heading. intros dev log.
  destruct (Hc dev log) as (cmd & Hj & Hf & Hs).
  assert (E : cmd = menu ++ " print" ++ where_clause applies filters).
  { specialize (H dev log). rewrite Hj in H. now apply app_inv_head in H as [= ->]. }
  subst cmd.
  destruct (py_in "failure:" (lower (dev log (menu ++ " print" ++ where_clause applies filters)))
            || py_in "error" (lower (dev log (menu ++ " print" ++ where_clause applies filters))))
    eqn:Ht.
  - right. now apply failure_test_iff.
  - left. apply Hs. intros Hc'. apply failure_test_iff in Hc'. congruence.
Qed.

Lemma read_returns_response_witness :
  read_operation system.mikrotik_get_system_identity "/system identity" []
  /\ exists heading,
       forall dev log,
         returned system.mikrotik_get_system_identity dev log
         = heading ++ nl ++ nl ++ dev log ("/system identity" ++ " print" ++ EmptyString)
         \/ failure_classified (dev log ("/system identity" ++ " print" ++ EmptyString)).
Proof.
  split; [constructor|].
  exact (read_returns_response _ _ _ rd_get_system_identity).
Defined.

(** ** The dispatch tables *)

Lemma assoc_is_Some {V} (key : string) (l : list (string * V)) :
  is_Some (assoc key l) <-> In key (map fst l).
Proof.
  induction l as [|[k v] l IH]; cbn [assoc map fst In].
  - split; [intros [? ?]; discriminate | tauto].
  - destruct (String.eqb_spec k key) as [->|n].
    + split; [now left | now eexists].
    + rewrite IH. split; [now right | now intros [?|?]].
Qed.

Lemma NoDup_all_declared_names : NoDup all_declared_names.
Proof. apply (bool_decide_unpack _). vm_compute. exact I. Qed.

(** X9.  In every adapter the dispatch table has a handler for exactly the
    names the adapter declares as tools, and no name is declared twice, in
    one adapter or in two: the tables of the adapters can be merged without
    one handler replacing another. *)
Theorem dispatch_tables (tools : list mcp.Tool) (handlers : gmap string handler) :
  In (tools, handlers) adapters ->
  (forall name, is_Some (handlers !! name) <-> In name (declared_names tools))
  /\ NoDup (declared_names tools)
  /\ NoDup all_declared_names.
Proof.
  intros Ha. split; [|split; [|exact NoDup_all_declared_names]].
  - intros name. unfold adapters in Ha. cbn [In] in Ha.
    repeat (destruct Ha as [Ha|Ha]; [injection Ha as <- <-|]); [..|destruct Ha].
    all: lazymatch goal with |- is_Some (?m !! _) <-> _ => unfold m end;
      rewrite lookup_list_to_map_assoc, assoc_is_Some; reflexivity.
  - pose proof NoDup_all_declared_names as Hn. unfold all_declared_names in Hn.
    revert tools handlers Ha. generalize dependent adapters. intros l.
    induction l as [|[ts hs] l IH]; intros Hn tools handlers Ha; [destruct Ha|].
    cbn [map concat fst] in Hn. apply NoDup_app in Hn as (H1 & _ & H2).
    destruct Ha as [[= <- <-]|Ha]; [exact H1 | exact (IH H2 _ _ Ha)].
Qed.

Lemma dispatch_tables_witness :
  (forall name,
     is_Some (queue_tools.get_queue_handlers !! name)
     <-> In name (declared_names queue_tools.get_queue_tools))
  /\ NoDup (declared_names queue_tools.get_queue_tools)
  /\ NoDup all_declared_names.
Proof.
  apply (dispatch_tables queue_tools.get_queue_tools queue_tools.get_queue_handlers).
  unfold adapters. cbn [In]. do 3 right. left. reflexivity.
Defined.

(** ** What a handler reads *)

(** The handler of a declared tool, case by case. *)
Ltac adapter_cases Ha Ht Hh h :=
  unfold adapters in Ha; cbn [In] in Ha;
  repeat (destruct Ha as [Ha|Ha]; [injection Ha as <- <-|]);
  [ lazymatch type of Ht with In _ ?l => unfold l in Ht end; cbn [In] in Ht;
    repeat (destruct Ht as [Ht|Ht]; [subst|]);
    [ cbn [mcp.name] in Hh;
      lazymatch type of Hh with ?m !! _ = _ => unfold m in Hh end;
      rewrite lookup_list_to_map_assoc in Hh;
      cbv beta iota delta [assoc String.eqb Ascii.eqb Bool.eqb] in Hh;
      apply (inj Some) in Hh; subst h .. | destruct Ht ] .. | destruct Ha ].

Lemma item_ext {A} `{Annotated A} (args args' : gmap string value) (key : string) :
  args !! key = args' !! key -> item (A := A) args key = item args' key.
Proof. unfold item. now intros ->. Qed.

Lemma get_ext {A} `{Annotated A} (args args' : gmap string value) (key : string) :
  default VNull (args !! key) = default VNull (args' !! key) ->
  get (A := A) args key = get args' key.
Proof. unfold get. now intros ->. Qed.

Lemma ap_congr {A B} (f f' : outcome (A -> B)) (x x' : outcome A) :
  f = f' -> x = x' -> f <*> x = f' <*> x'.
Proof. now intros -> ->. Qed.

(** X10.  A handler reads the properties that the schema of its tool
    declares and nothing else, and it reads an optional property that is
    null like one that is absent: on two bags that agree on the declared
    properties it does the same, whatever else the bags hold. *)
Theorem handler_reads_declared (tools : list mcp.Tool) (handlers : gmap string handler)
    (t : mcp.Tool) (h : handler) (args args' : gmap string value) :
  In (tools, handlers) adapters -> In t tools -> handlers !! mcp.name t = Some h ->
  same_view t args args' -> h args = h args'.
Proof.
  intros Ha Ht Hh [Hreq Hopt].
  adapter_cases Ha Ht Hh h.
  all: cbv beta; apply (f_equal call);
    repeat (apply ap_congr;
            [| first [ apply item_ext; apply Hreq; member_tac
                     | apply get_ext; apply Hopt; member_tac ] ]);
    reflexivity.
Qed.

(** ** Bags that conform to the schema *)

Lemma reads_string : reads_as TString string.
Proof. intros [| | |s|] H; try destruct H. now exists s. Qed.

Lemma reads_integer : reads_as TInteger Z.
Proof. intros [| |z| |] H; try destruct H. now exists z. Qed.

Lemma reads_boolean : reads_as TBoolean bool.
Proof. intros [|b| | |] H; try destruct H. now exists b. Qed.

Lemma reads_array : reads_as TArray (list string).
Proof. intros [| | | |l] H; try destruct H. now exists l. Qed.

Lemma has_type_not_null (ty : json_type) : ~ has_type ty VNull.
Proof. now destruct ty. Qed.

Lemma item_conforms {A} `{Annotated A} (t : mcp.Tool) (args : gmap string value)
    (key : string) (ty : json_type) :
  conforms t args -> In key (mcp.required t) -> In (key, ty) (mcp.properties t) ->
  reads_as ty A -> exists a : A, item args key = Returned a.
Proof.
  intros [Hreq Hty] Hk Hp Hr. unfold item. specialize (Hreq key Hk).
  destruct (args !! key) as [v|] eqn:E; [|congruence].
  destruct (Hr v (Hty key ty v Hp E)) as [a Ha]. exists a. unfold typed. now rewrite Ha.
Qed.

Lemma get_conforms {A} `{Annotated A} (t : mcp.Tool) (args : gmap string value)
    (key : string) (ty : json_type) :
  conforms t args -> In (key, ty) (mcp.properties t) ->
  reads_as ty A -> exists o : option A, get args key = Returned o.
Proof.
  intros [_ Hty] Hp Hr. unfold get, typed.
  destruct (args !! key) as [v|] eqn:E; [|now exists None].
  pose proof (Hty key ty v Hp E) as Hv. destruct (Hr v Hv) as [a Ha]. exists (Some a).
  change (default VNull (Some v)) with v.
  assert (E' : of_value (A := option A) v = Some (Some a)).
  { destruct v; [now destruct (has_type_not_null ty) | | | |];
      unfold of_value in Ha |- *; unfold optional_annotated, of_value; now rewrite Ha. }
  now rewrite E'.
Qed.

Lemma dispatches_intro (c : outcome (Conn string)) :
  (exists op, c = Returned op /\ operation op) ->
  exists op, operation op
    /\ forall dev log, call c dev log = (Returned (returned op dev log), journal op dev log).
Proof.
  intros (op & -> & Hop). exists op. split; [exact Hop|]. intros dev log. apply call_returned.
Qed.

Ltac reads_tac :=
  first [ exact reads_string | exact reads_integer | exact reads_boolean | exact reads_array ].

(** X11.  On a bag that conforms to the schema of its tool (the required
    properties are there, and every declared property that is there has its
    declared type) a handler makes one call of a function of the domain
    modules and returns what the function returns: the types the schemas
    declare are those the functions are annotated with, so that no value
    reaches a function at another type. *)
Theorem conforming_bag_dispatches (tools : list mcp.Tool) (handlers : gmap string handler)
    (t : mcp.Tool) (h : handler) (args : gmap string value) :
  In (tools, handlers) adapters -> In t tools -> handlers !! mcp.name t = Some h ->
  conforms t args ->
  exists op, operation op /\ dispatches h args op.
Proof.
  intros Ha Ht Hh Hc.
  adapter_cases Ha Ht Hh h.
  all: unfold dispatches; cbv beta; apply dispatches_intro;
    repeat match goal with
           | |- context [@item ?A ?I ?g ?k] =>
               let a := fresh "a" in
               let E := fresh "E" in
               destruct (item_conforms (A := A) _ g k _ Hc
                           ltac:(member_tac) ltac:(member_tac) ltac:(reads_tac)) as [a E];
               rewrite E; clear E
           | |- context [@get (option ?A) ?I ?g ?k] =>
               let o := fresh "o" in
               let E := fresh "E" in
               destruct (get_conforms (A := A) _ g k _ Hc
                           ltac:(member_tac) ltac:(reads_tac)) as [o E];
               rewrite E; clear E
           end;
    eexists; (split; [reflexivity | solve [eauto 3 with operations nocore]]).
Qed.

(** ** Which key a [KeyError] names *)

Lemma ap_raised_r {A B} (f : outcome (A -> B)) (e : exn) :
  no_raise f -> f <*> Raised e = Raised e.
Proof. intros Hf. destruct f as [g|e'|]; [reflexivity | now destruct (Hf e') | reflexivity]. Qed.

Lemma ap_raised_l {A B} (e : exn) (x : outcome A) :
  Raised (A := A -> B) e <*> x = Raised e.
Proof. reflexivity. Qed.

Lemma item_absent {A} `{Annotated A} (args : gmap string value) (key : string) :
  args !! key = None -> item (A := A) args key = Raised (KeyError key).
Proof. unfold item. now intros ->. Qed.

Lemma item_present_no_raise {A} `{Annotated A} (args : gmap string value) (key : string)
    (v : value) :
  args !! key = Some v -> no_raise (A := A) (item args key).
Proof. intros E. apply item_no_raise. now rewrite E. Qed.

Lemma key_error_intro (c : outcome (Conn string)) (k key : string) (found : option string)
    (dev : device) (log : list string) :
  c = Raised (KeyError k) -> found = Some k ->
  (found = Some key -> call c dev log = (Raised (KeyError key), log))
  /\ (fst (call c dev log) = Raised (KeyError key) -> found = Some key).
Proof. intros -> ->. split; [now intros [= ->] | now intros [= ->]]. Qed.

Lemma no_key_error_intro (c : outcome (Conn string)) (key : string) (dev : device)
    (log : list string) :
  no_raise c ->
  (None = Some key -> call c dev log = (Raised (KeyError key), log))
  /\ (fst (call c dev log) = Raised (KeyError key) -> None = Some key).
Proof.
  intros Hc. split; [discriminate|]. intros H. now destruct (call_no_raise c dev log Hc _ H).
Qed.

(** The arguments read before the first missing one raise nothing. *)
Ltac present_tac :=
  repeat apply ap_no_raise;
  first [ apply pure_no_raise
        | apply get_no_raise
        | eapply item_present_no_raise; eassumption ].

(** The handler stops at the first missing argument. *)
Ltac stops_tac E :=
  rewrite (item_absent _ _ E);
  rewrite ap_raised_r by present_tac;
  rewrite ?ap_raised_l; reflexivity.

Ltac first_missing_tac :=
  cbv beta; cbn [first_missing mcp.required];
  repeat lazymatch goal with
         | |- _ /\ (_ -> match ?g !! ?k with Some _ => _ | None => _ end = _) =>
             let E := fresh "E" in
             destruct (g !! k) eqn:E;
             [| eapply key_error_intro; [stops_tac E | reflexivity] ]
         end;
  apply no_key_error_intro; present_tac.

(** X12.  When required properties are missing, the [KeyError] of a handler
    names the first of them in the order in which the schema lists the
    required properties, which is the order in which the handler reads
    them; nothing is submitted.  No other key is ever named. *)
Theorem key_error_names_first_missing (tools : list mcp.Tool)
    (handlers : gmap string handler) (t : mcp.Tool) (h : handler)
    (args : gmap string value) (key : string) (dev : device) (log : list string) :
  In (tools, handlers) adapters -> In t tools -> handlers !! mcp.name t = Some h ->
  (first_missing args (mcp.required t) = Some key ->
     h args dev log = (Raised (KeyError key), log))
  /\ (fst (h args dev log) = Raised (KeyError key) ->
        first_missing args (mcp.required t) = Some key).
Proof.
  intros Ha Ht Hh.
  adapter_cases Ha Ht Hh h.
  all: first_missing_tac.
Qed.

(** ** The handlers at work *)

Lemma handler_reads_declared_witness :
  exists h : handler,
    hotspot_tools.get_hotspot_handlers !! "mikrotik_create_hotspot_server" = Some h
    /\ h (list_to_map [("name", VStr "hs1"); ("interface", VStr "ether2");
                       ("address_pool", VStr "pool1")])
       = h (list_to_map [("name", VStr "hs1"); ("interface", VStr "ether2");
                         ("address_pool", VStr "pool1"); ("profile", VNull);
                         ("dry_run", VBool true)]).
Proof.
  eexists. split.
  { unfold hotspot_tools.get_hotspot_handlers. rewrite lookup_list_to_map_assoc. reflexivity. }
  eapply (handler_reads_declared hotspot_tools.get_hotspot_tools
            hotspot_tools.get_hotspot_handlers).
  - right. left. reflexivity.
  - left. reflexivity.
  - unfold hotspot_tools.get_hotspot_handlers. rewrite lookup_list_to_map_assoc. reflexivity.
  - split; intros key Hin; cbn in Hin;
      repeat (destruct Hin as [<-|Hin]; [vm_compute; reflexivity|]); destruct Hin.
Defined.

Lemma conforming_bag_dispatches_witness :
  exists h : handler,
    hotspot_tools.get_hotspot_handlers !! "mikrotik_create_hotspot_server" = Some h
    /\ exists op,
         operation op
         /\ dispatches h
              (list_to_map [("name", VStr "hs1"); ("interface", VStr "ether2");
                            ("address_pool", VStr "pool1"); ("disabled", VBool false)])
              op.
Proof.
  eexists. split.
  { unfold hotspot_tools.get_hotspot_handlers. rewrite lookup_list_to_map_assoc. reflexivity. }
  eapply (conforming_bag_dispatches hotspot_tools.get_hotspot_tools
            hotspot_tools.get_hotspot_handlers).
  - right. left. reflexivity.
  - left. reflexivity.
  - unfold hotspot_tools.get_hotspot_handlers. rewrite lookup_list_to_map_assoc. reflexivity.
  - split.
    + intros key Hin. cbn in Hin.
      repeat (destruct Hin as [<-|Hin]; [vm_compute; discriminate|]). destruct Hin.
    + intros key ty v Hin. cbn in Hin.
      repeat (destruct Hin as [[= <- <-]|Hin];
              [vm_compute; intros [= <-]; exact I || (vm_compute; discriminate)|]).
      destruct Hin.
Defined.

Lemma key_error_names_first_missing_witness :
  exists h : handler,
    hotspot_tools.get_hotspot_handlers !! "mikrotik_create_hotspot_server" = Some h
    /\ forall dev log,
         h (list_to_map [("name", VStr "hs1"); ("profile", VStr "default")]) dev log
         = (Raised (KeyError "interface"), log).
Proof.
  eexists. split.
  { unfold hotspot_tools.get_hotspot_handlers. rewrite lookup_list_to_map_assoc. reflexivity. }
  intros dev log.
  assert (Ha : In (hotspot_tools.get_hotspot_tools, hotspot_tools.get_hotspot_handlers)
                 adapters) by (right; left; reflexivity).
  eapply (fun t h Ht Hh =>
            proj1 (key_error_names_first_missing _ _ t h _ "interface" dev log Ha Ht Hh)).
  - left. reflexivity.
  - unfold hotspot_tools.get_hotspot_handlers. rewrite lookup_list_to_map_assoc. reflexivity.
  - vm_compute. reflexivity.
Defined.

(** ** What a success message says about the response *)

Lemma classified_discards (op : Conn string) (action : string) (success : string -> string) :
  classified op action success ->
  (forall raw, success raw = success EmptyString) ->
  exists text, forall dev log cmd,
    journal op dev log = (log ++ [cmd])%list ->
    returned op dev log = text \/ failure_classified (dev log cmd).
Proof.
  intros Hc Hk. exists (success EmptyString). intros dev log cmd Hj.
  destruct (Hc dev log) as (cmd' & Hj' & _ & Hs).
  rewrite Hj in Hj'. apply app_inv_head in Hj' as [= <-].
  destruct (py_in "failure:" (lower (dev log cmd)) || py_in "error" (lower (dev log cmd)))
    eqn:Ht.
  - right. now apply failure_test_iff.
  - left. rewrite <- (Hk (dev log cmd)). apply Hs. intros Hf.
    apply failure_test_iff in Hf. congruence.
Qed.

Ltac discards_tac :=
  first [ eapply classified_discards;
          [ apply classifying_operation_classified; solve [eauto 2 with operations nocore]
          | intros raw; reflexivity ]
        | lazymatch goal with
          | |- exists _, forall dev log cmd, journal ?op _ _ = _ -> _ =>
              exists (returned op (fun _ _ => EmptyString) [])
          end;
          intros dev log cmd Hj; left; reflexivity ].

Lemma write_discards (op : Conn string) (base : string) (tokens : list string) :
  write_operation op base tokens ->
  (forall name, op <> system.mikrotik_run_script name) ->
  exists text, forall dev log cmd,
    journal op dev log = (log ++ [cmd])%list ->
    returned op dev log = text \/ failure_classified (dev log cmd).
Proof.
  intros H Hne. destruct H;
    try (now destruct (Hne name));
    discards_tac.
Qed.

Lemma remove_discards (op : Conn string) (menu : string) (t : target) :
  remove_operation op menu t ->
  exists text, forall dev log cmd,
    journal op dev log = (log ++ [cmd])%list ->
    returned op dev log = text \/ failure_classified (dev log cmd).
Proof. intros H. destruct H; discards_tac. Qed.

(** X13.  A removal, and every other operation that changes the device
    except [run_script], looks at the response only to find a failure in it:
    whatever else the device answers, be it a warning or nothing at all, the
    operation returns one text fixed by its arguments, which reports
    success. *)
Theorem success_text_ignores_response (op : Conn string) :
  (exists base tokens, write_operation op base tokens)
  \/ (exists menu t, remove_operation op menu t) ->
  (forall name, op <> system.mikrotik_run_script name) ->
  exists text, forall dev log cmd,
    journal op dev log = (log ++ [cmd])%list ->
    returned op dev log = text \/ failure_classified (dev log cmd).
Proof.
  intros [(base & tokens & H) | (menu & t & H)] Hne.
  - exact (write_discards _ _ _ H Hne).
  - exact (remove_discards _ _ _ H).
Qed.

Lemma success_text_ignores_response_witness :
  exists text, forall dev log cmd,
    journal (bridge.mikrotik_remove_bridge "br0") dev log = (log ++ [cmd])%list ->
    returned (bridge.mikrotik_remove_bridge "br0") dev log = text
    \/ failure_classified (dev log cmd).
Proof.
  apply success_text_ignores_response.
  - right. exists "/interface bridge", (by_find "name" "br0"). constructor.
  - intros name H.
    apply (f_equal (fun m : Conn string => journal m (fun _ _ => EmptyString) [])) in H.
    discriminate H.
Defined.

(** ** Every property goes to the parameter of its name *)

Lemma lookup_bag_absent (l : list (string * option value)) (k : string) :
  ~ In k (map fst l) -> bag l !! k = None.
Proof.
  unfold bag. induction l as [|[k' [v|]] l IH]; intros Hk; cbn [omap list_omap fst snd].
  - apply lookup_empty.
  - cbn [list_to_map foldr fst snd]. rewrite lookup_insert_ne.
    + apply IH. intros H. apply Hk. now right.
    + intros ->. apply Hk. now left.
  - apply IH. intros H. apply Hk. now right.
Qed.

Lemma lookup_bag (l : list (string * option value)) (k : string) (o : option value) :
  NoDup (map fst l) -> In (k, o) l -> bag l !! k = o.
Proof.
  induction l as [|[k' o'] l IH]; intros Hnd Hin; [destruct Hin|].
  cbn [map fst] in Hnd. inversion Hnd as [|? ? Hk' Hnd']; subst.
  destruct Hin as [[= -> ->] | Hin].
  - destruct o as [v|].
    + unfold bag. cbn [omap list_omap fst snd list_to_map foldr]. apply lookup_insert_eq.
    + change (bag ((k, None) :: l)) with (bag l). apply lookup_bag_absent.
      intros Hi. apply Hk'. now apply list_elem_of_In.
  - assert (Hne : k' <> k).
    { intros ->. apply Hk', list_elem_of_In. change k with (fst (k, o)). now apply in_map. }
    destruct o' as [v|].
    + unfold bag. cbn [omap list_omap fst snd list_to_map foldr].
      rewrite lookup_insert_ne by exact Hne. exact (IH Hnd' Hin).
    + change (bag ((k', None) :: l)) with (bag l). exact (IH Hnd' Hin).
Qed.

Lemma item_held {A} `{Annotated A} (args : gmap string value) (key : string) (v : value)
    (a : A) :
  args !! key = Some v -> of_value v = Some a -> item args key = Returned a.
Proof. intros E Hv. unfold item, typed. now rewrite E, Hv. Qed.

Lemma get_held {A} `{Annotated A} (args : gmap string value) (key : string)
    (inj : A -> value) (o : option A) :
  args !! key = inj <$> o ->
  (forall a, of_value (inj a) = Some a) -> (forall a, inj a <> VNull) ->
  get (A := option A) args key = Returned o.
Proof.
  intros E Hv Hn. unfold get, typed. rewrite E. destruct o as [a|]; [|reflexivity].
  change (default VNull (inj <$> Some a)) with (inj a).
  assert (E' : of_value (A := option A) (inj a) = Some (Some a)).
  { specialize (Hv a). specialize (Hn a). destruct (inj a); [now destruct Hn | | | |];
      unfold of_value in Hv |- *; unfold optional_annotated, of_value; now rewrite Hv. }
  now rewrite E'.
Qed.

Ltac entry_tac := cbn [In]; repeat first [ left; reflexivity | right ].

Ltac held_tac Hnd :=
  repeat match goal with
         | |- context [@item ?A ?I ?g ?k] =>
             rewrite (item_held (A := A) g k _ _
                        (lookup_bag _ k _ Hnd ltac:(entry_tac)) eq_refl)
         | |- context [@get (option ?A) ?I ?g ?k] =>
             rewrite (get_held (A := A) g k _ _
                        (lookup_bag _ k _ Hnd ltac:(entry_tac))
                        (fun _ => eq_refl) ltac:(discriminate))
         end.

Ltac tool_call_tac :=
  cbv beta;
  lazymatch goal with
  | |- context [bag ?l] =>
      let Hnd := fresh "Hnd" in
      assert (Hnd : NoDup (map fst l))
        by (cbn [map fst]; apply (bool_decide_unpack _); vm_compute; exact I);
      held_tac Hnd
  | |- _ => idtac
  end;
  apply call_returned.

(** X14.  For every tool, and for every value of every property, the handler
    hands each property of the bag to the parameter of the same name of the
    function that has the name of the tool: a required property as it is,
    an optional one as its value or as [None] when the bag does not hold
    it. *)
Theorem handler_passes_by_name (tools : list mcp.Tool) (handlers : gmap string handler)
    (t : mcp.Tool) (h : handler) (args : gmap string value) (op : Conn string) :
  In (tools, handlers) adapters -> In t tools -> handlers !! mcp.name t = Some h ->
  tool_call (mcp.name t) args op -> dispatches h args op.
Proof.
  intros Ha Ht Hh Hcat.
  adapter_cases Ha Ht Hh h.
  all: cbn [mcp.name] in Hcat; inversion Hcat; subst; intros dev log; tool_call_tac.
Qed.

Lemma handler_passes_by_name_witness :
  exists h : handler,
    hotspot_tools.get_hotspot_handlers !! "mikrotik_create_hotspot_server" = Some h
    /\ dispatches h
         (bag [("name", Some (VStr "hs1")); ("interface", Some (VStr "ether2"));
               ("address_pool", Some (VStr "pool1")); ("profile", VStr <$> None);
               ("disabled", VBool <$> Some false)])
         (hotspot.mikrotik_create_hotspot_server "hs1" "ether2" "pool1" None (Some false)).
Proof.
  eexists. split.
  { unfold hotspot_tools.get_hotspot_handlers. rewrite lookup_list_to_map_assoc. reflexivity. }
  eapply (handler_passes_by_name hotspot_tools.get_hotspot_tools
            hotspot_tools.get_hotspot_handlers).
  - right. left. reflexivity.
  - left. reflexivity.
  - unfold hotspot_tools.get_hotspot_handlers. rewrite lookup_list_to_map_assoc. reflexivity.
  - exact (tc_create_hotspot_server "hs1" "ether2" "pool1" None (Some false)).
Defined.
